(** * Market-credibility scoring engine: a shallow embedding and its properties

  The development follows the Python sources of the repository:

  - [core/registry_checks.py], [core/verifiers.py]  (identifier grammars)
  - [core/fraud_detection.py]                       (lexical hype scorer)
  - [core/market_contra.py]                         (technical contradiction)
  - [core/anomaly_detector.py]                      (numeric anomaly)
  - [core/sebi_scraper.py], [ui/components/helpers.py]
                                                    (official-source verifier, URL hygiene)
  - [ui/pages/document_verifier.py]                 (evidence aggregator / scorer)

  Modelling conventions.
  - A Python [str] of ASCII characters is the Rocq [string] of the same
    characters; case mapping, white space and the character classes of the
    patterns are Python's on that range.  On other text Python does more
    ([re.I] lets [A-Z] match the Kelvin sign and the long s, [\d] matches
    every decimal digit, [lower] treats a final sigma by its context), so a
    statement that depends on case mapping or on a character class of
    arbitrary text carries the hypothesis [Str.is_ascii].
  - A Python [dict] read with [.get] is an association list of [pyval]s
    (insertion ordered, first binding wins).
  - Python numbers that are floats in the source (prices, filing figures)
    are exact rationals [Q]; integers are [Z].  Bounds and thresholds are
    stated where rounding cannot change the outcome.
  - A raised exception is the [Raise] arm of [result].
  - Remote collaborators (HTTP registry, reputation probe, URL scanner) are
    oracles passed as arguments, so that one input can be run against
    several network states. *)

From Stdlib Require Import ZArith QArith Qabs List String Ascii Bool Lia Lqa.

Set Warnings "-register-all".

Import ListNotations.

Local Open Scope string_scope.
Local Open Scope Z_scope.

(* ===================================================================== *)
(** ** Python values, dictionaries and exceptions *)
(* ===================================================================== *)

Module Py.

Inductive pyval : Type :=
| VNone
| VBool (b : bool)
| VInt (z : Z)
| VFloat (q : Q)
| VStr (s : string)
| VList (l : list pyval)
| VDict (d : list (string * pyval)).

Definition pydict := list (string * pyval).

Inductive exn : Type :=
| AttributeError (msg : string)
| TypeError (msg : string)
| IndexError (msg : string)
| KeyError (msg : string)
| ValueError (msg : string)
| RequestException (msg : string).

Definition exn_str (e : exn) : string :=
  match e with
  | AttributeError m | TypeError m | IndexError m | KeyError m
  | ValueError m | RequestException m => m
  end.

Inductive result (A : Type) : Type :=
| Ok (a : A)
| Raise (e : exn).
Arguments Ok {A} a.
Arguments Raise {A} e.

Definition bind {A B} (m : result A) (k : A -> result B) : result B :=
  match m with
  | Ok a => k a
  | Raise e => Raise e
  end.

(** [x < y] on rationals, as a boolean. *)
Definition Qltb (x y : Q) : bool :=
  match (x ?= y)%Q with Lt => true | _ => false end.

(** Python truthiness ([bool(v)]). *)
Definition truthy (v : pyval) : bool :=
  match v with
  | VNone => false
  | VBool b => b
  | VInt z => negb (z =? 0)%Z
  | VFloat q => negb (Qeq_bool q 0)
  | VStr s => negb (s =? "")%string
  | VList l => match l with [] => false | _ => true end
  | VDict d => match d with [] => false | _ => true end
  end.

(** [a or b] *)
Definition py_or (a b : pyval) : pyval := if truthy a then a else b.

(** [d.get(k)] on the entries of a dict: [None] here is "key absent". *)
Fixpoint lookup (d : pydict) (k : string) : option pyval :=
  match d with
  | [] => None
  | (k', v) :: d' => if (k' =? k)%string then Some v else lookup d' k
  end.

(** [d.get(k, default)] *)
Definition dict_get (d : pydict) (k : string) (default : pyval) : pyval :=
  match lookup d k with
  | Some v => v
  | None => default
  end.

(** [k in d] *)
Definition mem (d : pydict) (k : string) : bool :=
  match lookup d k with Some _ => true | None => false end.

(** [d[k] = v]: overwrite in place, or append a new key. *)
Fixpoint dict_set (d : pydict) (k : string) (v : pyval) : pydict :=
  match d with
  | [] => [(k, v)]
  | (k', v') :: d' =>
      if (k' =? k)%string then (k, v) :: d' else (k', v') :: dict_set d' k v
  end.

(** [v.get(k, default)] on an arbitrary value: only dicts have [.get]. *)
Definition get (v : pyval) (k : string) (default : pyval) : result pyval :=
  match v with
  | VDict d => Ok (dict_get d k default)
  | _ => Raise (AttributeError "object has no attribute 'get'")
  end.

(** [v == "s"] for a string literal [s]. *)
Definition eq_str (v : pyval) (s : string) : bool :=
  match v with
  | VStr t => (t =? s)%string
  | _ => false
  end.

(** The number a value denotes in an ordering comparison with an [int]
    ([bool] is a subclass of [int]); other types raise [TypeError]. *)
Definition as_num (v : pyval) : result Q :=
  match v with
  | VInt z => Ok (inject_Z z)
  | VBool b => Ok (if b then 1%Q else 0%Q)
  | VFloat q => Ok q
  | _ => Raise (TypeError "ordering not supported between these instances")
  end.

(** [v > n] and [v >= n] against an integer literal. *)
Definition gt_int (v : pyval) (n : Z) : result bool :=
  bind (as_num v) (fun q => Ok (Qltb (inject_Z n) q)).
Definition ge_int (v : pyval) (n : Z) : result bool :=
  bind (as_num v) (fun q => Ok (Qle_bool (inject_Z n) q)).

(** [v[0]] *)
Definition index0 (v : pyval) : result pyval :=
  match v with
  | VList (x :: _) => Ok x
  | VList [] => Raise (IndexError "list index out of range")
  | VStr (String c _) => Ok (VStr (String c EmptyString))
  | VStr EmptyString => Raise (IndexError "string index out of range")
  | VDict _ => Raise (KeyError "0")
  | _ => Raise (TypeError "object is not subscriptable")
  end.

(** [isinstance(v, dict)] *)
Definition is_dict (v : pyval) : bool :=
  match v with VDict _ => true | _ => false end.

End Py.

Notation "x <- m ;; k" := (Py.bind m (fun x => k))
(at level 61, m at next level, right associativity).

(* ===================================================================== *)
(** ** Strings as Python uses them *)
(* ===================================================================== *)

Module Str.

Definition code (c : ascii) : N := N_of_ascii c.

Definition in_range (lo hi : N) (c : ascii) : bool :=
  ((lo <=? code c) && (code c <=? hi))%N.

Definition is_upper (c : ascii) : bool := in_range 65 90 c.
Definition is_lower (c : ascii) : bool := in_range 97 122 c.
Definition is_digit (c : ascii) : bool := in_range 48 57 c.

(** [str.isspace] on the ASCII range: TAB, LF, VT, FF, CR, FS, GS, RS, US
    and the space. *)
Definition is_space (c : ascii) : bool :=
  in_range 9 13 c || in_range 28 32 c.

Definition upper_char (c : ascii) : ascii :=
  if is_lower c then ascii_of_N (code c - 32) else c.
Definition lower_char (c : ascii) : ascii :=
  if is_upper c then ascii_of_N (code c + 32) else c.

Fixpoint map (f : ascii -> ascii) (s : string) : string :=
  match s with
  | EmptyString => EmptyString
  | String c s' => String (f c) (map f s')
  end.

Fixpoint forallb (p : ascii -> bool) (s : string) : bool :=
  match s with
  | EmptyString => true
  | String c s' => p c && forallb p s'
  end.

(** [s.upper()], [s.lower()] *)
Definition upper (s : string) : string := map upper_char s.
Definition lower (s : string) : string := map lower_char s.

(** [s.lstrip()], [s.rstrip()], [s.strip()] *)
Fixpoint lstrip (s : string) : string :=
  match s with
  | EmptyString => EmptyString
  | String c s' => if is_space c then lstrip s' else s
  end.

Fixpoint rstrip (s : string) : string :=
  match s with
  | EmptyString => EmptyString
  | String c s' =>
      match rstrip s' with
      | EmptyString => if is_space c then EmptyString else String c EmptyString
      | t => String c t
      end
  end.

Definition strip (s : string) : string := rstrip (lstrip s).

(** [needle in hay] *)
Fixpoint contains (needle hay : string) : bool :=
  String.prefix needle hay ||
  match hay with
  | EmptyString => false
  | String _ hay' => contains needle hay'
  end.

(** [s.startswith(p)] *)
Definition startswith (s p : string) : bool := String.prefix p s.

(** [sep.join(l)] *)
Definition join (sep : string) (l : list string) : string := String.concat sep l.

(** The last character, when there is one. *)
Fixpoint last (s : string) : option ascii :=
  match s with
  | EmptyString => None
  | String c EmptyString => Some c
  | String _ s' => last s'
  end.

(** All but the last character. *)
Fixpoint init (s : string) : string :=
  match s with
  | EmptyString => EmptyString
  | String _ EmptyString => EmptyString
  | String c s' => String c (init s')
  end.

(** [s.isascii()]: every character is below 128. *)
Definition is_ascii (s : string) : bool := forallb (fun c => (code c <? 128)%N) s.

End Str.

(* ===================================================================== *)
(** ** Regular expressions ([re]) by Brzozowski derivatives *)
(* ===================================================================== *)

Module Regex.

Inductive regex : Type :=
| Void                                  (* matches nothing *)
| Eps                                   (* the empty string *)
| Cls (p : ascii -> bool)               (* one character of a class *)
| Cat (r1 r2 : regex)
| Alt (r1 r2 : regex)
| Star (r : regex).

Fixpoint nullable (r : regex) : bool :=
  match r with
  | Void => false
  | Eps => true
  | Cls _ => false
  | Cat r1 r2 => nullable r1 && nullable r2
  | Alt r1 r2 => nullable r1 || nullable r2
  | Star _ => true
  end.

Fixpoint deriv (a : ascii) (r : regex) : regex :=
  match r with
  | Void => Void
  | Eps => Void
  | Cls p => if p a then Eps else Void
  | Cat r1 r2 =>
      if nullable r1
      then Alt (Cat (deriv a r1) r2) (deriv a r2)
      else Cat (deriv a r1) r2
  | Alt r1 r2 => Alt (deriv a r1) (deriv a r2)
  | Star r1 => Cat (deriv a r1) (Star r1)
  end.

(** The whole string is in the language of [r]. *)
Fixpoint fullmatch (r : regex) (s : string) : bool :=
  match s with
  | EmptyString => nullable r
  | String a s' => fullmatch (deriv a r) s'
  end.

(** *** Pattern syntax used by the sources *)

Definition chr (c : ascii) : regex := Cls (Ascii.eqb c).

(** A literal run of characters. *)
Fixpoint lit (s : string) : regex :=
  match s with
  | EmptyString => Eps
  | String c s' => Cat (chr c) (lit s')
  end.

Definition plus (r : regex) : regex := Cat r (Star r).
Definition opt (r : regex) : regex := Alt Eps r.

(** [r{n}] *)
Fixpoint rep (n : nat) (r : regex) : regex :=
  match n with
  | O => Eps
  | S n' => Cat r (rep n' r)
  end.

(** [r{0,n}] *)
Fixpoint upto (n : nat) (r : regex) : regex :=
  match n with
  | O => Eps
  | S n' => opt (Cat r (upto n' r))
  end.

(** [r{m,n}] for [m <= n] *)
Definition between (m n : nat) (r : regex) : regex :=
  Cat (rep m r) (upto (n - m) r).

Definition seq (rs : list regex) : regex := fold_right Cat Eps rs.

Definition any : regex := Cls (fun _ => true).

(** [\s] and [\d] as they act on ASCII text. *)
Definition space : regex := Cls Str.is_space.
Definition digit : regex := Cls Str.is_digit.

(** Character classes as they act on ASCII text; [flag_i] is
    [re.IGNORECASE]. *)
Definition cls_upper (flag_i : bool) : ascii -> bool :=
  fun c => Str.is_upper c || (flag_i && Str.is_lower c).
Definition cls_upper_digit (flag_i : bool) : ascii -> bool :=
  fun c => cls_upper flag_i c || Str.is_digit c.
Definition cls_one_of (flag_i : bool) (letters : string) : ascii -> bool :=
  fun c => Str.contains (String c EmptyString) letters ||
           (flag_i && Str.contains (String (Str.upper_char c) EmptyString) letters).

(** [re.search(r, s)]: some substring of [s] is in the language of [r]. *)
Definition search (r : regex) (s : string) : bool :=
  fullmatch (Cat (Star any) (Cat r (Star any))) s.

(** [re.compile("^r$").match(s)]: [^] anchors at the start, and [$]
    matches at the end of the string or just before a newline that ends
    the string. *)
Definition newline : ascii := ascii_of_N 10.

Definition match_anchored (r : regex) (s : string) : bool :=
  fullmatch r s ||
  match Str.last s with
  | Some c => Ascii.eqb c newline && fullmatch r (Str.init s)
  | None => false
  end.

(** *** The language of a pattern *)

Inductive Lang : regex -> string -> Prop :=
| LEps : Lang Eps ""
| LCls p a : p a = true -> Lang (Cls p) (String a "")
| LCat r1 r2 s1 s2 :
    Lang r1 s1 -> Lang r2 s2 -> Lang (Cat r1 r2) (s1 ++ s2)%string
| LAltL r1 r2 s : Lang r1 s -> Lang (Alt r1 r2) s
| LAltR r1 r2 s : Lang r2 s -> Lang (Alt r1 r2) s
| LStarNil r : Lang (Star r) ""
| LStarApp r s1 s2 :
    Lang r s1 -> Lang (Star r) s2 -> Lang (Star r) (s1 ++ s2)%string.

End Regex.

(* ===================================================================== *)
(** ** Remote collaborators *)
(* ===================================================================== *)

Module Net.
Import Py.

(** What [requests.get(url, timeout=t)] can do: answer with a status code
    and a body whose [.json()] parses or raises, or raise (connection
    error, timeout). *)
Inductive outcome : Type :=
| Replied (status_code : Z) (json : result pyval)
| Failed (e : exn).

(** A network state: the outcome of every GET. *)
Definition network := string -> outcome.

(** Computations that may issue GET requests; the second component logs the
    URLs requested, oldest first. *)
Definition M (A : Type) : Type := network -> A * list string.

Definition ret {A} (a : A) : M A := fun _ => (a, []).

Definition bind {A B} (m : M A) (k : A -> M B) : M B :=
  fun net =>
    let '(a, l1) := m net in
    let '(b, l2) := k a net in
    (b, (l1 ++ l2)%list).

Definition http_get (url : string) : M outcome :=
  fun net => (net url, [url]).

Definition value {A} (m : M A) (net : network) : A := fst (m net).
Definition requests {A} (m : M A) (net : network) : list string := snd (m net).

End Net.

Notation "x <~ m ;; k" := (Net.bind m (fun x => k))
(at level 61, m at next level, right associativity).

(* ===================================================================== *)
(** ** core/registry_checks.py *)
(* ===================================================================== *)

Module RegistryChecks.
Import Py Regex.

(** [LEI_RE = re.compile(r'^[A-Z0-9]{20}$')] *)
Definition LEI_RE : regex := rep 20 (Cls (cls_upper_digit false)).

(** [ISIN_RE = re.compile(r'^[A-Z]{2}[A-Z0-9]{9}[0-9]$')] *)
Definition ISIN_RE : regex :=
  seq [rep 2 (Cls (cls_upper false)); rep 9 (Cls (cls_upper_digit false)); digit].

(** [CIN_RE = re.compile(r'^[LUAP][0-9]{5}[A-Z]{2}[0-9]{4}[A-Z]{3}[0-9]{6}$', re.IGNORECASE)] *)
Definition CIN_RE : regex :=
  seq [Cls (cls_one_of true "LUAP"); rep 5 digit; rep 2 (Cls (cls_upper true));
       rep 4 digit; rep 3 (Cls (cls_upper true)); rep 6 digit].

(** [SEBI_ID_RE = re.compile(r'^[0-9A-Z\-]{4,20}$')] *)
Definition SEBI_ID_RE : regex :=
  between 4 20 (Cls (fun c => cls_upper_digit false c || Ascii.eqb c "-")).

Definition gleif_url (lei : string) : string :=
  "https://api.gleif.org/api/v1/lei-records/" ++ lei.

Definition validate_lei (lei : string) : Net.M pydict :=
  let lei := Str.upper (Str.strip lei) in
  let ok := match_anchored LEI_RE lei in
  let info := [("input", VStr lei); ("pattern_valid", VBool ok)] in
  if ok then
    resp <~ Net.http_get (gleif_url lei) ;;
    match resp with
    | Net.Replied status_code json =>
        if (status_code =? 200)%Z then
          match json with
          | Ok j => Net.ret (dict_set info "gleif" j)
          | Raise e => Net.ret (dict_set info "gleif_error" (VStr (exn_str e)))
          end
        else Net.ret info
    | Net.Failed e => Net.ret (dict_set info "gleif_error" (VStr (exn_str e)))
    end
  else Net.ret info.

Definition validate_isin (isin : string) : pydict :=
  let isin := Str.upper (Str.strip isin) in
  let ok := match_anchored ISIN_RE isin in
  [("input", VStr isin); ("pattern_valid", VBool ok)].

Definition validate_cin (cin : string) : pydict :=
  let cin := Str.upper (Str.strip cin) in
  let ok := match_anchored CIN_RE cin in
  [("input", VStr cin); ("pattern_valid", VBool ok)].

Definition validate_sebi_id (sebi_id : string) : pydict :=
  let sid := Str.upper (Str.strip sebi_id) in
  let ok := match_anchored SEBI_ID_RE sid in
  [("input", VStr sid); ("pattern_valid", VBool ok)].

(** The [identifiers] argument: a dict from kind to candidate string. *)
Definition identifiers := list (string * string).

Fixpoint ident (ids : identifiers) (k : string) : option string :=
  match ids with
  | [] => None
  | (k', v) :: ids' => if (k' =? k)%string then Some v else ident ids' k
  end.

Definition bulk_registry_check (ids : identifiers) : Net.M pydict :=
  let out := [] in
  out <~ match ident ids "lei" with
         | Some v => info <~ validate_lei v ;; Net.ret (dict_set out "lei" (VDict info))
         | None => Net.ret out
         end ;;
  let out := match ident ids "isin" with
             | Some v => dict_set out "isin" (VDict (validate_isin v))
             | None => out
             end in
  let out := match ident ids "cin" with
             | Some v => dict_set out "cin" (VDict (validate_cin v))
             | None => out
             end in
  let out := match ident ids "sebi" with
             | Some v => dict_set out "sebi" (VDict (validate_sebi_id v))
             | None => out
             end in
  Net.ret out.

End RegistryChecks.

(* ===================================================================== *)
(** ** core/verifiers.py *)
(* ===================================================================== *)

Module Verifiers.
Import Py Regex.

(** [LEI_PATTERN = re.compile(r"^[0-9A-Z]{18}[0-9]{2}$", re.I)] *)
Definition LEI_PATTERN : regex :=
  Cat (rep 18 (Cls (cls_upper_digit true))) (rep 2 digit).

(** [valid_lei(text)]: no trimming, no case mapping. *)
Definition valid_lei (text : string) : bool := match_anchored LEI_PATTERN text.

End Verifiers.

(* ===================================================================== *)
(** ** core/fraud_detection.py *)
(* ===================================================================== *)

Module FraudDetection.
Import Regex.

(** [HYPE_WORDS]: nine patterns, in source order. *)
Definition HYPE_WORDS : list regex :=
  [ lit "sure shot";
    lit "guaranteed";
    seq [lit "x"; Star space; lit "returns"];
    lit "multibagger";
    lit "inside info";
    lit "firm allotment";
    lit "pre-ipo";
    lit "pump";
    seq [lit "target"; Star space; plus digit] ].

(** The loop [for w in HYPE_WORDS: if re.search(w, t): score += 10]. *)
Definition hype_loop (t : string) (ws : list regex) (score : Z) : Z :=
  fold_left (fun score w => if search w t then score + 10 else score) ws score.

Definition hype_score (text : string) : Z :=
  let t := Str.lower text in
  Z.min 100 (hype_loop t HYPE_WORDS 0).

Record verdict : Type := {
  risk : string;
  score : Z;
  reasons : list string
}.

Definition tip_verdict (text : string) (ta_contradiction : bool) : verdict :=
  let hs := hype_score text in
  if (30 <=? hs) || ta_contradiction then
    {| risk := "high"; score := Z.max hs 70;
       reasons := ["Hype words or TA contradiction"] |}
  else if 10 <=? hs then
    {| risk := "medium"; score := hs; reasons := ["Some hype indicators"] |}
  else
    {| risk := "low"; score := hs; reasons := ["No strong hype indicators"] |}.

End FraudDetection.

(* ===================================================================== *)
(** ** Vector reductions of numpy and pandas *)
(* ===================================================================== *)

Module Np.

Local Open Scope Q_scope.

Definition Qnat (n : nat) : Q := inject_Z (Z.of_nat n).

(** [sum] and [mean] of a vector.  The mean of an empty vector is NaN with a
    warning in numpy and pandas, not an exception; it is [0/0 = 0] here, and
    no caller looks at it. *)
Definition qsum (l : list Q) : Q := fold_left Qplus l 0.
Definition mean (l : list Q) : Q := qsum l / Qnat (List.length l).

End Np.

(* ===================================================================== *)
(** ** core/market_contra.py *)
(* ===================================================================== *)

Module MarketContra.
Import Py Np.

Local Open Scope Q_scope.

(** [a[-1]] *)
Definition last_item (l : list Q) : result Q :=
  match rev l with
  | x :: _ => Ok x
  | [] => Raise (IndexError "index -1 is out of bounds")
  end.

(** [np.convolve(data, np.ones(window), "valid") / window]: one windowed
    sum per full overlap.  When the data is the shorter vector numpy swaps
    the operands and every overlap is the whole data; an empty operand
    raises [ValueError]. *)
Definition moving_average (data : list Q) (window : nat) : result (list Q) :=
  match data, window with
  | [], _ => Raise (ValueError "a cannot be empty")
  | _, O => Raise (ValueError "v cannot be empty")
  | _, _ =>
      if (window <=? List.length data)%nat then
        Ok (List.map (fun i => qsum (firstn window (skipn i data)) / Qnat window)
                     (List.seq 0 (List.length data - window + 1)))
      else
        Ok (repeat (qsum data / Qnat window) (window - List.length data + 1))
  end.

(** [np.diff] *)
Fixpoint diff (data : list Q) : list Q :=
  match data with
  | x :: (y :: _) as rest => (y - x) :: diff rest
  | _ => []
  end.

Definition compute_rsi (data : list Q) (period : nat) : Q :=
  let deltas := diff data in
  if (List.length deltas <? period)%nat then 50
  else
    let seed := firstn period deltas in
    let up := qsum (filter (fun d => Qle_bool 0 d) seed) / Qnat period in
    let down := - qsum (filter (fun d => Qltb d 0) seed) / Qnat period in
    let rs := if negb (Qeq_bool down 0) then up / down else 0 in
    100 - 100 / (1 + rs).

Record contradiction : Type := {
  ma20 : Q;
  rsi : Q;
  score : Z
}.

Definition contradiction_score (prices : list Q) (announcement_type : string)
  : result contradiction :=
  ma20 <- (if (20 <=? List.length prices)%nat
           then ma <- moving_average prices 20 ;; last_item ma
           else Ok (mean prices)) ;;
  let rsi := if (15 <? List.length prices)%nat then compute_rsi prices 14 else 50 in
  last_price <- last_item prices ;;
  let score := 0%Z in
  let score := if (announcement_type =? "positive")%string && Qltb last_price ma20
               then (score + 1)%Z else score in
  let score := if (announcement_type =? "negative")%string && Qltb ma20 last_price
               then (score + 1)%Z else score in
  let score := if (Qltb 70 rsi && (announcement_type =? "positive")%string)
                  || (Qltb rsi 30 && (announcement_type =? "negative")%string)
               then (score + 1)%Z else score in
  Ok {| ma20 := ma20; rsi := rsi; score := score |}.

End MarketContra.

(* ===================================================================== *)
(** ** core/anomaly_detector.py *)
(* ===================================================================== *)

Module AnomalyDetector.

Local Open Scope Q_scope.

(** The two shapes of the returned dict: the short one has only the keys
    [anomaly] and [latest] ([None] when nothing is left after [dropna]). *)
Inductive report : Type :=
| Short (anomaly : bool) (latest : option Q)
| Full (latest mean deviation : Q) (anomaly : bool).

(** [pd.Series(series).dropna()]: a missing observation is [None]. *)
Fixpoint dropna (series : list (option Q)) : list Q :=
  match series with
  | [] => []
  | Some x :: rest => x :: dropna rest
  | None :: rest => dropna rest
  end.

(** [s.iloc[-1]] when [s] is not empty. *)
Definition iloc_last (s : list Q) : option Q :=
  match rev s with
  | x :: _ => Some x
  | [] => None
  end.

Definition default_threshold : Q := 2 # 10.

Definition detect_numeric_anomalies (series : list (option Q)) (threshold : Q)
  : report :=
  let s := dropna series in
  if (List.length s <? 2)%nat then
    Short false (iloc_last s)
  else
    let mean := Np.mean (removelast s) in
    let latest := List.last s 0 in
    let deviation := if negb (Qeq_bool mean 0) then (latest - mean) / mean else 0 in
    Full latest mean deviation (Py.Qltb threshold (Qabs deviation)).

Definition anomaly_of (r : report) : bool :=
  match r with
  | Short a _ => a
  | Full _ _ _ a => a
  end.

End AnomalyDetector.

(* ===================================================================== *)
(** ** core/sebi_scraper.py *)
(* ===================================================================== *)

Module SebiScraper.
Import Py.

(** A placeholder in the source: the answer does not depend on the
    arguments. *)
Definition verify_against_official_sources (text_or_title company_hint : string)
  : pydict :=
  [ ("verdict", VStr "unverified");
    ("reason", VStr "No official match via lightweight search");
    ("links", VList []) ].

End SebiScraper.

(* ===================================================================== *)
(** ** ui/components/helpers.py *)
(* ===================================================================== *)

Module Helpers.
Import Py.

(** *** Regulator map ([config/regulator_map.json], loaded once) *)

Record regulator : Type := {
  reg_name : string;
  reg_url : string
}.

Record domain_cfg : Type := {
  keywords : list string;
  regulators : list regulator
}.

Definition regulator_map := list (string * domain_cfg).

Record suggestion : Type := {
  sg_domain : string;
  sg_name : string;
  sg_url : string
}.

Definition mem_str (x : string) (l : list string) : bool :=
  existsb (String.eqb x) l.

(** The inner loop over [cfg["regulators"]], threading [hits] and [seen]. *)
Definition add_regulators (domain : string) (rs : list regulator)
  (acc : list suggestion * list string) : list suggestion * list string :=
  fold_left
    (fun '(hits, seen) r =>
       if negb (mem_str (reg_url r) seen)
       then ((hits ++ [{| sg_domain := domain; sg_name := reg_name r;
                          sg_url := reg_url r |}])%list,
             reg_url r :: seen)
       else (hits, seen))
    rs acc.

Definition suggest_official_sources (rm : regulator_map) (text : string)
  : list suggestion :=
  let t := Str.lower text in
  fst (fold_left
         (fun acc '(domain, cfg) =>
            if existsb (fun k => Str.contains (Str.lower k) t) (keywords cfg)
            then add_regulators domain (regulators cfg) acc
            else acc)
         rm ([], [])).

(** *** Announcement verification *)

(** The [official] entry of the evidence; only the demo override carries a
    [lookups] key. *)
Record official : Type := {
  off_verdict : pyval;
  off_reasons : pyval;
  off_references : pyval;
  off_lookups : option pyval
}.

(** The evidence dict before its [hash] key is added. *)
Record evidence_body : Type := {
  ev_title : string;
  ev_company_hint : string;
  ev_link : option string;
  ev_official : official;
  ev_ts : Z
}.

Record announcement : Type := {
  verdict : pyval;
  reason : pyval;
  evidence : evidence_body;
  evidence_hash : string
}.

Section VerifyAnnouncement.

(** The loaded regulator map, the clock reading [int(time.time())] and the
    digest [hash_payload] (SHA-256 of the canonical JSON). *)
Variable rm : regulator_map.
Variable now : Z.
Variable hash_payload : evidence_body -> string.

Definition or_empty (o : option string) : string :=
  match o with Some s => s | None => "" end.

Definition verify_announcement (title company_hint : string) (link : option string)
  : result announcement :=
  let text := Str.strip (Str.join " " [title; company_hint; or_empty link]) in
  if Str.contains "novapharm" (Str.lower text) && Str.contains "fda" (Str.lower text)
  then
    let res_verdict := VStr "verified" in
    let res_reasons :=
      VList [VStr "Matched Pharma domain and FDA approval trigger (demo)"] in
    let res_references :=
      VList [VStr "https://www.fda.gov/drugs/drug-approvals-and-databases"] in
    let res_lookups := VList [VStr "domain=pharma -> FDA/CDSCO/EMA"] in
    let ev := {| ev_title := title; ev_company_hint := company_hint;
                 ev_link := link;
                 ev_official := {| off_verdict := res_verdict;
                                   off_reasons := res_reasons;
                                   off_references := res_references;
                                   off_lookups := Some res_lookups |};
                 ev_ts := now |} in
    r0 <- index0 res_reasons ;;
    Ok {| verdict := res_verdict; reason := r0; evidence := ev;
          evidence_hash := hash_payload ev |}
  else
    let res := SebiScraper.verify_against_official_sources title company_hint in
    let verdict0 := py_or (dict_get res "verdict" VNone) (VStr "unverified") in
    let reasons0 :=
      py_or (dict_get res "reasons" VNone)
            (VList [dict_get res "reason" (VStr "No official record matched")]) in
    let references0 := dict_get res "references" (VList []) in
    let suggestions :=
      match verdict0 with
      | VNone => suggest_official_sources rm text
      | v => if eq_str v "unverified" then suggest_official_sources rm text else []
      end in
    let '(verdict1, reasons1, references1) :=
      match suggestions with
      | [] => (verdict0, reasons0, references0)
      | _ => (VStr "needs_official_link",
              VList [VStr "No exact official match found; check suggested regulators based on domain keywords."],
              VList (List.map (fun s => VStr (sg_url s)) suggestions))
      end in
    let ev := {| ev_title := title; ev_company_hint := company_hint;
                 ev_link := link;
                 ev_official := {| off_verdict := verdict1;
                                   off_reasons := reasons1;
                                   off_references := references1;
                                   off_lookups := None |};
                 ev_ts := now |} in
    r0 <- index0 reasons1 ;;
    Ok {| verdict := verdict1; reason := r0; evidence := ev;
          evidence_hash := hash_payload ev |}.

End VerifyAnnouncement.

(** *** URL hygiene *)

Record link_report : Type := {
  lr_verdict : string;
  lr_reasons : list string;
  lr_references : list string
}.

Section CheckDocumentLink.

(** [requests.utils.urlparse(url).netloc] (it raises [ValueError] on a
    malformed bracketed host), the reputation probe [vt_domain_report] and
    the scanner [urlscan_submit]; the two probes catch their own failures
    and answer with a JSON value. *)
Variable urlparse_netloc : string -> result string.
Variable vt_domain_report : string -> pyval.
Variable urlscan_submit : string -> pyval.

Definition url_domain (url : string) : string :=
  match urlparse_netloc url with
  | Ok netloc => Str.lower netloc
  | Raise _ => ""
  end.

Definition officialish_markers : list string :=
  ["sebi"; "nseindia"; "bseindia"; "gleif"; "fda.gov"; "cdsco"].

(** [any(x in domain for x in [...])] *)
Definition is_officialish (domain : string) : bool :=
  existsb (fun x => Str.contains x domain) officialish_markers.

Definition is_http_url (url : string) : bool :=
  Str.startswith url "http://" || Str.startswith url "https://".

(** The body of the [try] block. *)
Definition check_document_link_body (url : string) : result link_report :=
  let result := {| lr_verdict := "caution"; lr_reasons := [];
                   lr_references := [url] |} in
  if negb (is_http_url url) then
    Ok {| lr_verdict := "invalid"; lr_reasons := ["Not a valid http(s) URL"];
          lr_references := [] |}
  else
    let domain := url_domain url in
    let officialish := is_officialish domain in
    let result :=
      if officialish
      then {| lr_verdict := "likely-official";
              lr_reasons := (lr_reasons result
                              ++ [("Domain looks official: " ++ domain)%string])%list;
              lr_references := lr_references result |}
      else result in
    let vt := if negb (domain =? "")%string then vt_domain_report domain
              else VDict [("error", VStr "no_domain")] in
    result <-
      (if is_dict vt then
         err <- get vt "error" VNone ;;
         if negb (truthy err) then
           data <- get vt "data" (VDict []) ;;
           attributes <- get data "attributes" (VDict []) ;;
           cats <- get attributes "last_analysis_stats" (VDict []) ;;
           malicious <- get cats "malicious" (VInt 0) ;;
           flagged <- gt_int malicious 0 ;;
           if flagged
           then Ok {| lr_verdict := "risky";
                      lr_reasons := (lr_reasons result
                         ++ ["VirusTotal flagged domain as malicious"])%list;
                      lr_references := lr_references result |}
           else Ok result
         else Ok result
       else Ok result) ;;
    let us := urlscan_submit url in
    result <-
      (if is_dict us then
         err <- get us "error" VNone ;;
         if truthy err
         then Ok {| lr_verdict := lr_verdict result;
                    lr_reasons := (lr_reasons result
                                    ++ ["URLScan not available"])%list;
                    lr_references := lr_references result |}
         else Ok result
       else Ok result) ;;
    Ok result.

(** [try: ... except Exception as e: return {"verdict": "error", ...}] *)
Definition check_document_link (url : string) : link_report :=
  match check_document_link_body url with
  | Ok r => r
  | Raise e => {| lr_verdict := "error"; lr_reasons := [exn_str e];
                  lr_references := [url] |}
  end.

End CheckDocumentLink.

End Helpers.

(* ===================================================================== *)
(** ** ui/pages/document_verifier.py *)
(* ===================================================================== *)

Module DocumentVerifier.
Import Py.

(** A breakdown row [(Dimension, Contribution, Why)]; the returned
    [DataFrame] is the list of rows in order. *)
Definition row : Type := string * Z * string.

Definition dimension (r : row) : string := fst (fst r).
Definition contribution (r : row) : Z := snd (fst r).
Definition why (r : row) : string := snd r.

(** [rows.append(r)] *)
Definition append (rows : list row) (r : row) : list row := (rows ++ [r])%list.

(** The loop collecting the upper-cased kinds whose entry is a dict with a
    truthy [pattern_valid]. *)
Definition valid_kinds (id_sig : pydict) : list string :=
  fold_left
    (fun ok '(k, v) =>
       match v with
       | VDict d => if truthy (dict_get d "pattern_valid" VNone)
                    then (ok ++ [Str.upper k])%list else ok
       | _ => ok
       end)
    id_sig [].

(** [sum(v for _, v, _ in rows)] *)
Definition sum_contributions (rows : list row) : Z :=
  fold_left (fun acc r => acc + contribution r) rows 0.

Definition score_from_signals (signals : pydict) : result (Z * list row) :=
  let rows := [] in
  (* start neutral *)
  let rows := append rows ("Baseline", 50, "Neutral baseline") in
  (* lookup *)
  found <- get (dict_get signals "lookup" (VDict [])) "found" VNone ;;
  let rows :=
    if truthy found
    then append rows ("Local Registry Match", 20, "Found in data/lookup.json")
    else append rows ("Local Registry Match", 0, "No curated match") in
  (* official/scraper *)
  let off := py_or (dict_get signals "official" (VDict [])) (VDict []) in
  off_verdict <- get off "verdict" VNone ;;
  let rows :=
    if eq_str off_verdict "verified"
    then append rows ("Official Filing Match", 30,
                      "Matched regulator/exchange via scraper")
    else if eq_str off_verdict "needs_official_link"
    then append rows ("Regulator Suggested", 5,
                      "No exact match but regulators suggested")
    else append rows ("Official Filing Match", -5,
                      "Not found in official sources (light check)") in
  (* url hygiene *)
  let url_sig := py_or (dict_get signals "url" (VDict [])) (VDict []) in
  url_verdict <- get url_sig "verdict" VNone ;;
  let rows :=
    if eq_str url_verdict "likely-official"
    then append rows ("URL Domain Official-ish", 10,
                      "Domain looks official (e.g., sebi/nse/bse/gleif/fda/cdsco)")
    else if eq_str url_verdict "risky"
    then append rows ("URL Risk (VirusTotal)", -40,
                      "Malicious indicators on domain")
    else if truthy url_sig
    then append rows ("URL Scan Presence", 2, "URL was scanned / reachable")
    else rows in
  (* identifiers validation *)
  let id_sig := py_or (dict_get signals "identifiers" (VDict [])) (VDict []) in
  rows <-
    (if truthy id_sig then
       match id_sig with
       | VDict d =>
           let ok := valid_kinds d in
           match ok with
           | [] => Ok rows
           | _ => Ok (append rows ("Identifiers Valid", 10,
                                   "Valid pattern(s): " ++ Str.join ", " ok))
           end
       | _ => Raise (AttributeError "object has no attribute 'items'")
       end
     else Ok rows) ;;
  (* extracted text presence *)
  long_text <- gt_int (dict_get signals "text_len" (VInt 0)) 40 ;;
  let rows :=
    if (long_text : bool)
    then append rows ("Text Extracted", 5, "OCR/Text extracted successfully")
    else append rows ("Text Extracted", -3, "No/low extractable text") in
  (* social signal (optional) *)
  let soc := py_or (dict_get signals "social" (VDict [])) (VDict []) in
  soc_label <- get soc "label" VNone ;;
  let rows :=
    if eq_str soc_label "legit"
    then append rows ("Social Signal", 5, "Classified as legit")
    else if truthy soc
    then append rows ("Social Signal", -5, "Classified as suspicious")
    else rows in
  (* anomaly (optional) *)
  let anom := py_or (dict_get signals "anomaly" (VDict [])) (VDict []) in
  anom_any <- get anom "any" VNone ;;
  let rows :=
    if truthy anom_any
    then append rows ("Numeric Anomaly", -12, "Outlier vs history (demo rule)")
    else rows in
  (* market contradiction (optional) *)
  let contra := py_or (dict_get signals "contra" (VDict [])) (VDict []) in
  contra_score <- get contra "contradiction_score" (VInt 0) ;;
  contradicted <- ge_int contra_score 2 ;;
  let rows :=
    if (contradicted : bool)
    then append rows ("Market Contradiction", -8,
                      "Price/RSI contradicts positive claim")
    else rows in
  (* clamp and return *)
  let total := sum_contributions rows in
  let total := Z.max 0 (Z.min 100 total) in
  Ok (total, rows).

End DocumentVerifier.

(* ===================================================================== *)
(** ** The vocabulary of the specification *)
(* ===================================================================== *)

Module Spec.
Import Py.

(** "Exactly 20 alphanumeric characters (uppercase letters/digits only)". *)
Definition lei_grammar (t : string) : Prop :=
  String.length t = 20%nat /\
  Str.forallb (fun c => Str.is_upper c || Str.is_digit c) t = true.

(** The stricter grammar of [core/verifiers.py]: 18 alphanumerics of either
    case, then 2 digits. *)
Definition lei_strict (body : string) : Prop :=
  exists a b, body = (a ++ b)%string /\
    String.length a = 18%nat /\ Str.forallb (Regex.cls_upper_digit true) a = true /\
    String.length b = 2%nat /\ Str.forallb Str.is_digit b = true.

(** The [pattern_valid] entry of a validator's result dict. *)
Definition pattern_valid (info : pydict) : option pyval := lookup info "pattern_valid".

(** The same entry, for a value that should be such a dict. *)
Definition pattern_valid_of (v : pyval) : option pyval :=
  match v with
  | VDict info => pattern_valid info
  | _ => None
  end.

(** The determination made on the first lines of [validate_lei], before
    any request is issued: a function of the string alone. *)
Definition lei_ok (s : string) : bool :=
  Regex.match_anchored RegistryChecks.LEI_RE (Str.upper (Str.strip s)).

(** The [pattern_valid] entries of a [bulk_registry_check] result. *)
Definition bulk_pattern_valid (out : pydict) : list (string * option pyval) :=
  List.map (fun kv => (fst kv, pattern_valid_of (snd kv))) out.

(** The kinds [bulk_registry_check] looks for. *)
Definition mem_kind (k : string) : bool :=
  Helpers.mem_str k ["lei"; "isin"; "cin"; "sebi"].

(** The number of hype patterns found in a text: each pattern counts once,
    however often it occurs. *)
Definition matching_patterns (text : string) : Z :=
  Z.of_nat (List.length
              (filter (fun w => Regex.search w (Str.lower text))
                      FraudDetection.HYPE_WORDS)).

(** A 15-point series: fourteen price changes, twelve of [+1] and two of
    [-2], so that Wilder's ratio over the 14-period window is 3. *)
Definition fifteen_points : list Q :=
  List.map inject_Z [10; 11; 12; 13; 14; 15; 16; 14; 15; 16; 17; 18; 19; 17; 18].

(** A reputation answer that is a typed failure (or not a JSON object at
    all) rather than a report. *)
Definition vt_is_error (report : pyval) : bool :=
  match report with
  | VDict d => truthy (dict_get d "error" VNone)
  | _ => true
  end.

(** The [data.attributes.last_analysis_stats.malicious] entry of a report. *)
Definition vt_malicious (report : pyval) : option pyval :=
  match report with
  | VDict d =>
      match lookup d "data" with
      | Some (VDict data) =>
          match lookup data "attributes" with
          | Some (VDict attributes) =>
              match lookup attributes "last_analysis_stats" with
              | Some (VDict stats) => lookup stats "malicious"
              | _ => None
              end
          | _ => None
          end
      | _ => None
      end
  | _ => None
  end.

(** "The report counts at least one malicious detection." *)
Definition counts_malicious (report : pyval) : Prop :=
  vt_is_error report = false /\
  exists n, vt_malicious report = Some (VInt n) /\ 0 < n.

(** *** Signals and breakdown rows *)

(** The idiom [signals.get(k, {}) or {}]. *)
Definition signal (signals : pydict) (k : string) : pyval :=
  py_or (dict_get signals k (VDict [])) (VDict []).

Definition numeric (v : pyval) : bool :=
  match v with
  | VInt _ | VBool _ | VFloat _ => true
  | _ => false
  end.

(** A signals mapping as the collectors produce it: every signal is a
    mapping of result fields (or is absent, [None] or empty), the text
    length is a number, and so is the contradiction score when there is
    one. *)
Definition well_shaped (signals : pydict) : bool :=
  is_dict (dict_get signals "lookup" (VDict [])) &&
  List.forallb (fun k => is_dict (signal signals k))
    ["official"; "url"; "identifiers"; "social"; "anomaly"; "contra"] &&
  numeric (dict_get signals "text_len" (VInt 0)) &&
  match signal signals "contra" with
  | VDict d => numeric (dict_get d "contradiction_score" (VInt 0))
  | _ => true
  end.

(** The dimensions of the weighted model, each with the names its row can
    carry in the breakdown. *)
Definition dim_baseline : list string := ["Baseline"].
Definition dim_registry : list string := ["Local Registry Match"].
Definition dim_official : list string :=
  ["Official Filing Match"; "Regulator Suggested"].
Definition dim_url : list string :=
  ["URL Domain Official-ish"; "URL Risk (VirusTotal)"; "URL Scan Presence"].
Definition dim_identifiers : list string := ["Identifiers Valid"].
Definition dim_text : list string := ["Text Extracted"].
Definition dim_social : list string := ["Social Signal"].
Definition dim_anomaly : list string := ["Numeric Anomaly"].
Definition dim_contra : list string := ["Market Contradiction"].

Definition all_dimensions : list (list string) :=
  [dim_baseline; dim_registry; dim_official; dim_url; dim_identifiers;
   dim_text; dim_social; dim_anomaly; dim_contra].

(** The breakdown has a row of the dimension. *)
Definition covers (dim : list string) (rows : list DocumentVerifier.row) : bool :=
  existsb (fun r => Helpers.mem_str (DocumentVerifier.dimension r) dim) rows.

Definition covers_all (rows : list DocumentVerifier.row) : bool :=
  List.forallb (fun dim => covers dim rows) all_dimensions.

(** "At least one supplied identifier passes its pattern grammar." *)
Definition has_valid_identifier (signals : pydict) : bool :=
  match signal signals "identifiers" with
  | VDict d => existsb (fun kv => truthy (match snd kv with
                                          | VDict e => dict_get e "pattern_valid" VNone
                                          | _ => VNone
                                          end)) d
  | _ => false
  end.

(** "Any field anomaly flagged." *)
Definition anomaly_flagged (signals : pydict) : bool :=
  match signal signals "anomaly" with
  | VDict d => truthy (dict_get d "any" VNone)
  | _ => false
  end.

(** "contradiction_score >= 2" *)
Definition contradicted (signals : pydict) : bool :=
  match signal signals "contra" with
  | VDict d =>
      match as_num (dict_get d "contradiction_score" (VInt 0)) with
      | Ok q => Qle_bool 2 q
      | Raise _ => false
      end
  | _ => false
  end.

(** *** The weighted model as a table *)

(** The [found] flag of the registry lookup. *)
Definition found (signals : pydict) : pyval :=
  match dict_get signals "lookup" (VDict []) with
  | VDict d => dict_get d "found" VNone
  | _ => VNone
  end.

(** A field of a signal. *)
Definition field (signals : pydict) (k f : string) (default : pyval) : pyval :=
  match signal signals k with
  | VDict d => dict_get d f default
  | _ => default
  end.

Definition long_text (signals : pydict) : bool :=
  match as_num (dict_get signals "text_len" (VInt 0)) with
  | Ok q => Qltb 40 q
  | Raise _ => false
  end.

Definition valid_kinds_of (signals : pydict) : list string :=
  match signal signals "identifiers" with
  | VDict d => DocumentVerifier.valid_kinds d
  | _ => []
  end.

Definition row_baseline : DocumentVerifier.row :=
  ("Baseline", 50, "Neutral baseline").

Definition row_registry (signals : pydict) : DocumentVerifier.row :=
  if truthy (found signals)
  then ("Local Registry Match", 20, "Found in data/lookup.json")
  else ("Local Registry Match", 0, "No curated match").

Definition row_official (signals : pydict) : DocumentVerifier.row :=
  if eq_str (field signals "official" "verdict" VNone) "verified"
  then ("Official Filing Match", 30, "Matched regulator/exchange via scraper")
  else if eq_str (field signals "official" "verdict" VNone) "needs_official_link"
  then ("Regulator Suggested", 5, "No exact match but regulators suggested")
  else ("Official Filing Match", -5, "Not found in official sources (light check)").

Definition rows_url (signals : pydict) : list DocumentVerifier.row :=
  if eq_str (field signals "url" "verdict" VNone) "likely-official"
  then [("URL Domain Official-ish", 10,
         "Domain looks official (e.g., sebi/nse/bse/gleif/fda/cdsco)")]
  else if eq_str (field signals "url" "verdict" VNone) "risky"
  then [("URL Risk (VirusTotal)", -40, "Malicious indicators on domain")]
  else if truthy (signal signals "url")
  then [("URL Scan Presence", 2, "URL was scanned / reachable")]
  else [].

Definition rows_identifiers (signals : pydict) : list DocumentVerifier.row :=
  match valid_kinds_of signals with
  | [] => []
  | ok => [("Identifiers Valid", 10, "Valid pattern(s): " ++ Str.join ", " ok)]
  end.

Definition row_text (signals : pydict) : DocumentVerifier.row :=
  if long_text signals
  then ("Text Extracted", 5, "OCR/Text extracted successfully")
  else ("Text Extracted", -3, "No/low extractable text").

Definition rows_social (signals : pydict) : list DocumentVerifier.row :=
  if eq_str (field signals "social" "label" VNone) "legit"
  then [("Social Signal", 5, "Classified as legit")]
  else if truthy (signal signals "social")
  then [("Social Signal", -5, "Classified as suspicious")]
  else [].

Definition rows_anomaly (signals : pydict) : list DocumentVerifier.row :=
  if anomaly_flagged signals
  then [("Numeric Anomaly", -12, "Outlier vs history (demo rule)")]
  else [].

Definition rows_contra (signals : pydict) : list DocumentVerifier.row :=
  if contradicted signals
  then [("Market Contradiction", -8, "Price/RSI contradicts positive claim")]
  else [].

(** The breakdown, dimension by dimension in the evaluated order: three
    rows that are always there, the URL and identifier rows when they
    apply, the text row, and the three optional rows when they apply. *)
Definition breakdown_table (signals : pydict) : list DocumentVerifier.row :=
  ([row_baseline] ++ [row_registry signals] ++ [row_official signals]
   ++ rows_url signals ++ rows_identifiers signals
   ++ [row_text signals]
   ++ rows_social signals ++ rows_anomaly signals ++ rows_contra signals)%list.

(** Every row of a piece of the breakdown carries a name of the dimension. *)
Definition in_dim (dim : list string) (piece : list DocumentVerifier.row) : bool :=
  List.forallb (fun r => Helpers.mem_str (DocumentVerifier.dimension r) dim) piece.

(** Two dimensions share no row name. *)
Definition disjoint (dim1 dim2 : list string) : bool :=
  List.forallb (fun x => negb (Helpers.mem_str x dim2)) dim1.

Definition null {A} (l : list A) : bool :=
  match l with [] => true | _ => false end.

(** A piece of the table stays within its dimension, has at most one row,
    and justifies every row. *)
Definition piece_ok (dim : list string) (piece : list DocumentVerifier.row)
  : Prop :=
  in_dim dim piece = true /\
  (List.length piece <= 1)%nat /\
  Forall (fun r => DocumentVerifier.why r <> "") piece.

(** The signals of an analysis in which nothing matched: no registry
    match, official verdict "unverified", no URL, no identifiers, no text,
    and no optional collaborator. *)
Definition nothing_matched : pydict :=
  [ ("lookup", VDict [("found", VBool false); ("reason", VStr "no entity match")]);
    ("url", VDict []);
    ("official", VDict [("verdict", VStr "unverified");
                        ("reason", VStr "No official match via lightweight search")]);
    ("identifiers", VDict []);
    ("text_len", VInt 0);
    ("social", VDict []);
    ("anomaly", VDict []);
    ("contra", VDict []) ].

(** The signals of an analysis in which every check is favourable. *)
Definition everything_matched : pydict :=
  [ ("lookup", VDict [("found", VBool true); ("entity", VStr "TCS")]);
    ("url", VDict [("verdict", VStr "likely-official")]);
    ("official", VDict [("verdict", VStr "verified")]);
    ("identifiers",
       VDict [("lei", VDict [("input", VStr "LIPSUM1234567890ABCD");
                             ("pattern_valid", VBool true)])]);
    ("text_len", VInt 400);
    ("social", VDict [("label", VStr "legit"); ("score", VFloat (9 # 10))]);
    ("anomaly", VDict [("any", VBool false)]);
    ("contra", VDict [("contradiction_score", VInt 0)]) ].

(** The signals of an analysis in which every check is unfavourable. *)
Definition everything_failed : pydict :=
  [ ("lookup", VDict [("found", VBool false); ("reason", VStr "no entity match")]);
    ("url", VDict [("verdict", VStr "risky")]);
    ("official", VDict [("verdict", VStr "unverified")]);
    ("identifiers", VDict [("error", VStr "registry check failed")]);
    ("text_len", VInt 0);
    ("social", VDict [("label", VStr "suspicious"); ("score", VFloat (1 # 10))]);
    ("anomaly", VDict [("any", VBool true)]);
    ("contra", VDict [("contradiction_score", VInt 2)]) ].

(** [clamp(x, lo, hi)] *)
Definition clamp (x lo hi : Z) : Z :=
  if x <? lo then lo else if hi <? x then hi else x.

End Spec.

(* ===================================================================== *)
(** ** core/verifiers.py: the other validators and the probes *)
(* ===================================================================== *)

Module VerifiersRest.
Import Py Regex.

(** A literal under [re.I]: each letter in either case. *)
Fixpoint lit_i (s : string) : regex :=
  match s with
  | EmptyString => Eps
  | String c s' =>
      Cat (Cls (fun a => Ascii.eqb (Str.upper_char a) (Str.upper_char c)))
          (lit_i s')
  end.

(** [SEBI_IA_PATTERN = re.compile(r"^IA\d{6}$", re.I)] *)
Definition SEBI_IA_PATTERN : regex := Cat (lit_i "IA") (rep 6 digit).

(** [SEBI_RA_PATTERN = re.compile(r"^INA\d{6}$", re.I)] *)
Definition SEBI_RA_PATTERN : regex := Cat (lit_i "INA") (rep 6 digit).

(** [ISIN_PATTERN = re.compile(r"^[A-Z]{2}[A-Z0-9]{9}\d$", re.I)] *)
Definition ISIN_PATTERN : regex :=
  seq [rep 2 (Cls (cls_upper true)); rep 9 (Cls (cls_upper_digit true)); digit].

(** [CIN_PATTERN = re.compile(r"^[UL][0-9]{5}[A-Z]{2}[0-9]{4}[A-Z]{3}[0-9]{6}$", re.I)] *)
Definition CIN_PATTERN : regex :=
  seq [Cls (cls_one_of true "UL"); rep 5 digit; rep 2 (Cls (cls_upper true));
       rep 4 digit; rep 3 (Cls (cls_upper true)); rep 6 digit].

Definition valid_sebi_id (text : string) : bool :=
  match_anchored SEBI_IA_PATTERN text || match_anchored SEBI_RA_PATTERN text.

Definition valid_isin (text : string) : bool := match_anchored ISIN_PATTERN text.

Definition valid_cin (text : string) : bool := match_anchored CIN_PATTERN text.

End VerifiersRest.

(* ===================================================================== *)
(** ** Sizes and alphabets of patterns *)
(* ===================================================================== *)

Module RegexShape.
Import Regex.

(** The length of every word of the pattern, when all have the same. *)
Fixpoint fixed_len (r : regex) : option nat :=
  match r with
  | Void => None
  | Eps => Some O
  | Cls _ => Some 1%nat
  | Cat r1 r2 =>
      match fixed_len r1, fixed_len r2 with
      | Some n1, Some n2 => Some (n1 + n2)%nat
      | _, _ => None
      end
  | Alt r1 r2 =>
      match fixed_len r1, fixed_len r2 with
      | Some n1, Some n2 => if (n1 =? n2)%nat then Some n1 else None
      | _, _ => None
      end
  | Star _ => None
  end.

(** Every character class of the pattern lies within [q]. *)
Fixpoint within (q : ascii -> bool) (r : regex) : Prop :=
  match r with
  | Void | Eps => True
  | Cls p => forall a, p a = true -> q a = true
  | Cat r1 r2 | Alt r1 r2 => within q r1 /\ within q r2
  | Star r1 => within q r1
  end.

(** Pattern [r2] accepts the image under [f] of what [r1] accepts, class by
    class. *)
Fixpoint maps_into (f : ascii -> ascii) (r1 r2 : regex) : Prop :=
  match r1, r2 with
  | Void, _ => True
  | Eps, Eps => True
  | Cls p, Cls q => forall a, p a = true -> q (f a) = true
  | Cat a1 b1, Cat a2 b2 => maps_into f a1 a2 /\ maps_into f b1 b2
  | Alt a1 b1, Alt a2 b2 => maps_into f a1 a2 /\ maps_into f b1 b2
  | Star a1, Star a2 => maps_into f a1 a2
  | _, _ => False
  end.

Definition not_space (c : ascii) : bool := negb (Str.is_space c).

(** Letters of either case and digits. *)
Definition alnum (c : ascii) : bool :=
  Str.is_upper c || Str.is_lower c || Str.is_digit c.

(** The normal form the registry validators work on. *)
Definition normalise (s : string) : string := Str.upper (Str.strip s).

Definition starts_clean (s : string) : bool :=
  match s with
  | EmptyString => true
  | String c _ => not_space c
  end.

Definition ends_clean (s : string) : bool :=
  match Str.last s with
  | None => true
  | Some c => not_space c
  end.

End RegexShape.

(* ===================================================================== *)
(** ** Identifier grammars as runs of character classes *)
(* ===================================================================== *)

Module Grammar.

(** Read [n] characters of class [p] off the front; what is left. *)
Fixpoint take_class (n : nat) (p : ascii -> bool) (s : string) : option string :=
  match n with
  | O => Some s
  | S n' =>
      match s with
      | EmptyString => None
      | String a s' => if p a then take_class n' p s' else None
      end
  end.

(** The string is exactly the runs, one after the other. *)
Fixpoint in_segments (segs : list (nat * (ascii -> bool))) (s : string) : bool :=
  match segs with
  | [] => match s with EmptyString => true | _ => false end
  | (n, p) :: rest =>
      match take_class n p s with
      | Some s' => in_segments rest s'
      | None => false
      end
  end.

(** The pattern of a list of runs. *)
Definition runs (segs : list (nat * (ascii -> bool))) : Regex.regex :=
  fold_right (fun np r => Regex.Cat (Regex.rep (fst np) (Regex.Cls (snd np))) r)
             Regex.Eps segs.

Definition not_lower (c : ascii) : bool := negb (Str.is_lower c).

Definition upper_or_digit (c : ascii) : bool := Str.is_upper c || Str.is_digit c.

Definition one_of (letters : string) (c : ascii) : bool :=
  Str.contains (String c EmptyString) letters.

(** ISIN: 2 letters, 9 letters or digits, 1 digit. *)
Definition isin_segments : list (nat * (ascii -> bool)) :=
  [(2%nat, Str.is_upper); (9%nat, upper_or_digit); (1%nat, Str.is_digit)].

(** CIN: one of L, U, A, P; 5 digits; 2 letters; 4 digits; 3 letters;
    6 digits. *)
Definition cin_segments : list (nat * (ascii -> bool)) :=
  [(1%nat, one_of "LUAP"); (5%nat, Str.is_digit); (2%nat, Str.is_upper);
   (4%nat, Str.is_digit); (3%nat, Str.is_upper); (6%nat, Str.is_digit)].

(** The loose advisor-id grammar: 4 to 20 letters, digits or hyphens. *)
Definition sebi_loose (t : string) : bool :=
  (4 <=? String.length t)%nat && (String.length t <=? 20)%nat &&
  Str.forallb (fun c => upper_or_digit c || Ascii.eqb c "-") t.

End Grammar.

(* ===================================================================== *)
(** ** core/verifiers.py and ui/components/helpers.py: entity checks *)
(* ===================================================================== *)

Module EntityCheck.
Import Py.

Section Lookup.

(** [requests.utils.quote], the percent-encoding of the library. *)
Variable quote : string -> string.


(** [r.ok]: the status is below 400. *)
Definition status_ok (status_code : Z) : bool := status_code <? 400.





End Lookup.

End EntityCheck.

(* ===================================================================== *)
(** ** ui/components/helpers.py: the phrase-list hype detector *)
(* ===================================================================== *)

Module TextHype.

Record hype_report : Type := {
  verdict : string;
  reasons : list string;
  references : list string
}.

Definition hype_phrases : list string :=
  ["guaranteed"; "sure shot"; "firm allotment"; "multibagger"; "100% return";
   "assured"].

Definition verify_text_hype (text : string) : hype_report :=
  let t := Str.lower text in
  let suspicious := existsb (fun k => Str.contains k t) hype_phrases in
  if suspicious then
    {| verdict := "high-risk";
       reasons := ["Contains hype/suspicious phrases"];
       references := [] |}
  else
    {| verdict := "unverified";
       reasons := ["No official record matched via lightweight search"];
       references := [] |}.

End TextHype.

(* ===================================================================== *)
(** ** core/anomaly_detector.py: filings *)
(* ===================================================================== *)

Module Filings.
Import AnomalyDetector.

(** A filing: a dict from field name to a figure, [None] for a null. *)
Definition filing := list (string * option Q).

(** [key in f] and [f[key]] *)
Fixpoint entry (f : filing) (key : string) : option (option Q) :=
  match f with
  | [] => None
  | (k, v) :: f' => if (k =? key)%string then Some v else entry f' key
  end.

(** [h.get(key)]: [None] when the key is missing or null. *)
Definition get (h : filing) (key : string) : option Q :=
  match entry h key with
  | Some v => v
  | None => None
  end.

Definition fields : list string := ["revenue"; "profit"; "eps"].

(** [[h.get(key) for h in historical if h.get(key) is not None]] *)
Fixpoint history (historical : list filing) (key : string) : list (option Q) :=
  match historical with
  | [] => []
  | h :: rest =>
      match get h key with
      | Some q => Some q :: history rest key
      | None => history rest key
      end
  end.

Definition compare_filing (new_filing : filing) (historical : list filing)
  : list (string * report) :=
  fold_left
    (fun anomalies key =>
       match entry new_filing key with
       | Some v =>
           let series := (history historical key ++ [v])%list in
           (anomalies ++ [(key, detect_numeric_anomalies series default_threshold)])%list
       | None => anomalies
       end)
    fields [].

End Filings.

Module PriceSeries.

(** A never-falling series. *)
Fixpoint nondecreasing (data : list Q) : Prop :=
  match data with
  | x :: (y :: _) as rest => (x <= y)%Q /\ nondecreasing rest
  | _ => True
  end.

End PriceSeries.

(* ===================================================================== *)
(** ** core/verifiers.py: the reputation probe *)
(* ===================================================================== *)

Module Probes.
Import Py.

Section VirusTotal.

(** [config.settings.VIRUSTOTAL_API_KEY] (empty when unset) and Python's
    [str] of an integer. *)
Variable VIRUSTOTAL_API_KEY : string.
Variable str_of_int : Z -> string.

Definition vt_url (domain : string) : string :=
  "https://www.virustotal.com/api/v3/domains/" ++ domain.

Definition vt_domain_report (domain : string) : Net.M pyval :=
  if (VIRUSTOTAL_API_KEY =? "")%string then
    Net.ret (VDict [("error", VStr "no_api_key")])
  else
    resp <~ Net.http_get (vt_url domain) ;;
    match resp with
    | Net.Replied status_code json =>
        if EntityCheck.status_ok status_code then
          match json with
          | Ok j => Net.ret j
          | Raise e => Net.ret (VDict [("error", VStr "vt_exception");
                                       ("detail", VStr (exn_str e))])
          end
        else Net.ret (VDict [("error",
                              VStr ("vt_status_" ++ str_of_int status_code))])
    | Net.Failed e => Net.ret (VDict [("error", VStr "vt_exception");
                                      ("detail", VStr (exn_str e))])
    end.

End VirusTotal.

End Probes.

(* ===================================================================== *)
(** ** Vocabulary for the official-source helpers *)
(* ===================================================================== *)

Module Sources.
Import Helpers.

(** A domain of the regulator map is triggered by the text. *)
Definition triggered (cfg : domain_cfg) (text : string) : bool :=
  existsb (fun k => Str.contains (Str.lower k) (Str.lower text)) (keywords cfg).

(** The text that [verify_announcement] examines. *)
Definition examined (title company_hint : string) (link : option string) : string :=
  Str.strip (Str.join " " [title; company_hint; or_empty link]).

(** The demo override applies. *)
Definition demo (text : string) : bool :=
  Str.contains "novapharm" (Str.lower text) && Str.contains "fda" (Str.lower text).

Definition urls (hits : list suggestion) : list string := List.map sg_url hits.

(** The invariant of the two loops of [suggest_official_sources]: [seen]
    holds the URLs of [hits], and no URL is there twice. *)
Definition inv (acc : list suggestion * list string) : Prop :=
  (forall u, In u (snd acc) <-> In u (urls (fst acc))) /\ NoDup (urls (fst acc)).

(** The reputation probe gave nothing to judge by. *)
Definition probe_unavailable (report : Py.pyval) : bool :=
  match report with
  | Py.VDict d => Py.truthy (Py.dict_get d "error" Py.VNone)
  | _ => true
  end.

(** What the whitelist alone says of a domain. *)
Definition by_whitelist (domain : string) : string :=
  if is_officialish domain then "likely-official" else "caution".

End Sources.

(* ===================================================================== *)
(** ** ui/components/helpers.py: the curated entity lookup *)
(* ===================================================================== *)

Module EntityLookup.
Import Py.

(** What reading [data/lookup.json] can give: the file is not there, opening
    or parsing it raises, or it parses to a JSON value. *)
Inductive lookup_file : Type :=
| Absent
| Unreadable (e : exn)
| Parsed (db : pyval).

(** [any(alias.lower() in claim_l for alias in aliases)]: the generator is
    consumed up to the first hit, and only strings have [.lower]. *)
Fixpoint any_alias (claim_l : string) (aliases : list pyval) : result bool :=
  match aliases with
  | [] => Ok false
  | VStr alias :: rest =>
      if Str.contains (Str.lower alias) claim_l then Ok true
      else any_alias claim_l rest
  | _ :: _ => Raise (AttributeError "object has no attribute 'lower'")
  end.

(** [[name] + rec.get("aliases", [])] *)
Definition aliases_of (name : string) (rec : pyval) : result (list pyval) :=
  a <- get rec "aliases" (VList []) ;;
  match a with
  | VList l => Ok (VStr name :: l)
  | _ => Raise (TypeError "can only concatenate list to list")
  end.

Definition not_found (reason : string) : pydict :=
  [("found", VBool false); ("reason", VStr reason)].

(** The loop over [db.items()]. *)
Fixpoint scan (claim_l : string) (items : pydict) : result pydict :=
  match items with
  | [] => Ok (not_found "no entity match")
  | (name, rec) :: rest =>
      aliases <- aliases_of name rec ;;
      hit <- any_alias claim_l aliases ;;
      if hit then
        lei <- get rec "LEI" VNone ;;
        isin <- get rec "ISIN" VNone ;;
        sebi <- get rec "SEBI" VNone ;;
        cin <- get rec "CIN" VNone ;;
        let ident := py_or lei (py_or isin (py_or sebi cin)) in
        domain <- get rec "domain" VNone ;;
        source <- get rec "source" VNone ;;
        registry <- get rec "registry" VNone ;;
        valid_till <- get rec "valid_till" VNone ;;
        official_sites <- get rec "official_sites" (VList []) ;;
        Ok [("found", VBool true);
            ("entity", VStr name);
            ("domain", domain);
            ("source", py_or source (py_or registry (VStr "registry")));
            ("id", ident);
            ("valid_till", valid_till);
            ("official_sites", official_sites);
            ("raw", rec)]
      else scan claim_l rest
  end.

(** The body of the [try] block, once the file is read. *)
Definition lookup_entity_body (db : pyval) (claim : option string) : result pydict :=
  let claim_l := Str.lower (Helpers.or_empty claim) in
  match db with
  | VDict items => scan claim_l items
  | _ => Raise (AttributeError "object has no attribute 'items'")
  end.

Definition lookup_entity (file : lookup_file) (claim : option string) : pydict :=
  match file with
  | Absent => not_found "lookup.json not present"
  | Unreadable e => not_found ("lookup error: " ++ exn_str e)
  | Parsed db =>
      match lookup_entity_body db claim with
      | Ok r => r
      | Raise e => not_found ("lookup error: " ++ exn_str e)
      end
  end.

(** The lookup found an entity. *)
Definition found (r : pydict) : bool := truthy (dict_get r "found" VNone).

(** An alias of the record [rec] named [name]. *)
Definition alias_of (name : string) (rec : pyval) (alias : string) : Prop :=
  alias = name \/
  exists d l, rec = VDict d /\ lookup d "aliases" = Some (VList l) /\ In (VStr alias) l.

(** [alias] is mentioned in the claim, case ignored. *)
Definition mentions (claim alias : string) : bool :=
  Str.contains (Str.lower alias) (Str.lower claim).

Definition is_str (v : pyval) : bool :=
  match v with VStr _ => true | _ => false end.

(** A record as the curated file has them: a JSON object whose ["aliases"],
    when present, is a list of strings. *)
Definition plain_record (rec : pyval) : bool :=
  match rec with
  | VDict d =>
      match lookup d "aliases" with
      | None => true
      | Some (VList l) => List.forallb is_str l
      | Some _ => false
      end
  | _ => false
  end.

Definition plain_db (items : pydict) : bool :=
  List.forallb (fun item => plain_record (snd item)) items.

End EntityLookup.

(* ===================================================================== *)
(** * Properties *)
(* ===================================================================== *)

(** ** The matcher decides the language of a pattern *)

Module RegexFacts.
Import Regex.

Local Open Scope string_scope.

#[local] Hint Constructors Lang : core.

Lemma append_empty_r (s : string) : s ++ "" = s.
Proof. induction s as [|c s IH]; simpl; [reflexivity | now rewrite IH]. Qed.

Lemma append_assoc (s1 s2 s3 : string) : (s1 ++ s2) ++ s3 = s1 ++ (s2 ++ s3).
Proof. induction s1 as [|c s1 IH]; simpl; [reflexivity | now rewrite IH]. Qed.

Lemma append_is_empty (s1 s2 : string) : s1 ++ s2 = "" -> s1 = "" /\ s2 = "".
Proof. destruct s1; simpl; intros H; [auto | discriminate]. Qed.

Lemma length_append (s1 s2 : string) :
  String.length (s1 ++ s2) = (String.length s1 + String.length s2)%nat.
Proof. induction s1 as [|c s1 IH]; simpl; [reflexivity | now rewrite IH]. Qed.

Lemma forallb_append p (s1 s2 : string) :
  Str.forallb p (s1 ++ s2) = Str.forallb p s1 && Str.forallb p s2.
Proof.
  induction s1 as [|c s1 IH]; simpl; [reflexivity|].
  now rewrite IH, andb_assoc.
Qed.

Lemma Lang_Cat_inv r1 r2 s :
  Lang (Cat r1 r2) s -> exists s1 s2, s = s1 ++ s2 /\ Lang r1 s1 /\ Lang r2 s2.
Proof. intros H; inversion H; subst; eauto. Qed.

Lemma Lang_Alt_inv r1 r2 s : Lang (Alt r1 r2) s -> Lang r1 s \/ Lang r2 s.
Proof. intros H; inversion H; subst; auto. Qed.

Lemma Lang_Cls_inv p s :
  Lang (Cls p) s -> exists a, s = String a "" /\ p a = true.
Proof. intros H; inversion H; subst; eauto. Qed.

Lemma Lang_Eps_inv s : Lang Eps s -> s = "".
Proof. intros H; inversion H; reflexivity. Qed.

Lemma nullable_spec r : nullable r = true <-> Lang r "".
Proof.
  induction r as [| |p|r1 IH1 r2 IH2|r1 IH1 r2 IH2|r IH]; simpl.
  - split; [discriminate | intros H; inversion H].
  - split; auto.
  - split; [discriminate | intros H; inversion H].
  - rewrite andb_true_iff, IH1, IH2. split.
    + intros [H1 H2]. change "" with ("" ++ ""). auto.
    + intros H. apply Lang_Cat_inv in H as (s1 & s2 & E & H1 & H2).
      symmetry in E. apply append_is_empty in E as [-> ->]. auto.
  - rewrite orb_true_iff, IH1, IH2. split.
    + intros [H|H]; auto.
    + apply Lang_Alt_inv.
  - split; auto.
Qed.

(** A non-empty word of [r*] starts with a non-empty word of [r]. *)
Lemma Lang_Star_cons r a s :
  Lang (Star r) (String a s) ->
  exists s1 s2, s = s1 ++ s2 /\ Lang r (String a s1) /\ Lang (Star r) s2.
Proof.
  intros H. remember (Star r) as r' eqn:Er. remember (String a s) as w eqn:Ew.
  revert a s Ew.
  induction H as [| | | | | |r0 s1 s2 H1 _ H2 IH2]; intros a' s' Ew;
    try discriminate; inversion Er; subst.
  destruct s1 as [|b s1]; simpl in Ew.
  - apply IH2; auto.
  - inversion Ew; subst. eauto.
Qed.

Lemma Lang_cons_Cat r1 r2 a s1 s2 :
  Lang r1 (String a s1) -> Lang r2 s2 -> Lang (Cat r1 r2) (String a (s1 ++ s2)).
Proof.
  intros H1 H2. change (String a (s1 ++ s2)) with (String a s1 ++ s2). auto.
Qed.

Lemma deriv_spec r : forall a s, Lang (deriv a r) s <-> Lang r (String a s).
Proof.
  induction r as [| |p|r1 IH1 r2 IH2|r1 IH1 r2 IH2|r IH]; intros a s; simpl.
  - split; intros H; inversion H.
  - split; intros H; inversion H.
  - destruct (p a) eqn:Ep; split; intros H.
    + apply Lang_Eps_inv in H as ->. auto.
    + apply Lang_Cls_inv in H as (b & E & _). inversion E; subst. auto.
    + inversion H.
    + apply Lang_Cls_inv in H as (b & E & Hb). inversion E; subst. congruence.
  - assert (Hcat : Lang (Cat (deriv a r1) r2) s <->
                   exists s1 s2, s = s1 ++ s2 /\ Lang r1 (String a s1) /\ Lang r2 s2).
    { split.
      - intros H. apply Lang_Cat_inv in H as (s1 & s2 & -> & H1 & H2).
        apply IH1 in H1. eauto.
      - intros (s1 & s2 & -> & H1 & H2). apply IH1 in H1. auto. }
    assert (Hsplit : Lang (Cat r1 r2) (String a s) <->
                     (Lang r1 "" /\ Lang r2 (String a s)) \/
                     exists s1 s2, s = s1 ++ s2 /\ Lang r1 (String a s1) /\ Lang r2 s2).
    { split.
      - intros H. apply Lang_Cat_inv in H as (s1 & s2 & E & H1 & H2).
        destruct s1 as [|b s1]; simpl in E.
        + subst s2. auto.
        + inversion E; subst. right. eauto.
      - intros [[H1 H2] | (s1 & s2 & -> & H1 & H2)].
        + change (String a s) with ("" ++ String a s). auto.
        + now apply Lang_cons_Cat. }
    rewrite Hsplit, <- Hcat, <- nullable_spec, <- IH2.
    destruct (nullable r1) eqn:En.
    + split.
      * intros H. apply Lang_Alt_inv in H as [H|H]; auto.
      * intros [[_ H]|H]; auto.
    + split; [auto|]. intros [[H _]|H]; [discriminate | assumption].
  - split.
    + intros H. apply Lang_Alt_inv in H as [H|H];
        [apply LAltL | apply LAltR]; [now apply IH1 | now apply IH2].
    + intros H. apply Lang_Alt_inv in H as [H|H];
        [apply LAltL | apply LAltR]; [now apply IH1 | now apply IH2].
  - split.
    + intros H. apply Lang_Cat_inv in H as (s1 & s2 & -> & H1 & H2).
      apply IH in H1.
      change (String a (s1 ++ s2)) with (String a s1 ++ s2). auto.
    + intros H. apply Lang_Star_cons in H as (s1 & s2 & -> & H1 & H2).
      apply IH in H1. auto.
Qed.

Lemma fullmatch_spec s : forall r, fullmatch r s = true <-> Lang r s.
Proof.
  induction s as [|a s IH]; intros r; simpl.
  - apply nullable_spec.
  - rewrite IH. apply deriv_spec.
Qed.

(** [c{n}] for a character class [c]: exactly [n] characters of the class. *)
Lemma Lang_rep_Cls p n : forall s,
  Lang (rep n (Cls p)) s <-> String.length s = n /\ Str.forallb p s = true.
Proof.
  induction n as [|n IH]; intros s; simpl.
  - split.
    + intros H. apply Lang_Eps_inv in H as ->. auto.
    + intros [H _]. destruct s; [auto | discriminate].
  - split.
    + intros H. apply Lang_Cat_inv in H as (s1 & s2 & -> & H1 & H2).
      apply Lang_Cls_inv in H1 as (a & -> & Ha).
      apply IH in H2 as [Hl Hf]. simpl. rewrite Hl, Hf, Ha. auto.
    + intros [Hl Hf]. destruct s as [|a s]; [discriminate|].
      simpl in Hl, Hf. apply andb_true_iff in Hf as [Ha Hf].
      change (String a s) with (String a "" ++ s).
      constructor; [auto|]. apply IH. split; [congruence | assumption].
Qed.

Lemma fullmatch_rep_Cls p n s :
  fullmatch (rep n (Cls p)) s = true <->
  String.length s = n /\ Str.forallb p s = true.
Proof. rewrite fullmatch_spec. apply Lang_rep_Cls. Qed.

End RegexFacts.

(** ** Facts about trimming and case mapping *)

Module StrFacts.

Local Open Scope string_scope.

Lemma is_space_upper_char c : Str.is_space (Str.upper_char c) = Str.is_space c.
Proof. destruct c as [[] [] [] [] [] [] [] []]; reflexivity. Qed.

Lemma last_map f s : Str.last (Str.map f s) = option_map f (Str.last s).
Proof.
  induction s as [|c s IH]; [reflexivity|].
  destruct s as [|d s]; [reflexivity|].
  change (Str.last (Str.map f (String c (String d s))))
    with (Str.last (Str.map f (String d s))).
  rewrite IH. reflexivity.
Qed.

(** What [rstrip] leaves does not end in white space. *)
Lemma last_rstrip s c :
  Str.last (Str.rstrip s) = Some c -> Str.is_space c = false.
Proof.
  induction s as [|a s IH]; simpl; [discriminate|].
  destruct (Str.rstrip s) as [|b t] eqn:E.
  - destruct (Str.is_space a) eqn:Ea; simpl; [discriminate|].
    intros H; inversion H; subst; assumption.
  - intros H. apply IH. exact H.
Qed.

Lemma last_upper_strip s c :
  Str.last (Str.upper (Str.strip s)) = Some c -> Str.is_space c = false.
Proof.
  unfold Str.upper, Str.strip. rewrite last_map.
  destruct (Str.last (Str.rstrip (Str.lstrip s))) as [d|] eqn:E;
    simpl; [|discriminate].
  intros H; inversion H; subst.
  rewrite is_space_upper_char. eapply last_rstrip; eassumption.
Qed.

(** On a trimmed string the [$] anchor can only match at the very end. *)
Lemma match_anchored_trimmed r s :
  Regex.match_anchored r (Str.upper (Str.strip s))
  = Regex.fullmatch r (Str.upper (Str.strip s)).
Proof.
  unfold Regex.match_anchored.
  destruct (Str.last (Str.upper (Str.strip s))) as [c|] eqn:E.
  - apply last_upper_strip in E.
    destruct (Ascii.eqb_spec c Regex.newline) as [->|Hn].
    + discriminate E.
    + simpl. apply orb_false_r.
  - apply orb_false_r.
Qed.

Lemma last_snoc s c : Str.last (s ++ String c "") = Some c.
Proof.
  induction s as [|a s IH]; [reflexivity|].
  simpl. rewrite IH. destruct (s ++ String c ""); [discriminate IH | reflexivity].
Qed.

Lemma init_snoc s c : Str.init (s ++ String c "") = s.
Proof.
  induction s as [|a s IH]; [reflexivity|].
  simpl. rewrite IH. destruct s; reflexivity.
Qed.

Lemma init_last s c : Str.last s = Some c -> s = Str.init s ++ String c "".
Proof.
  induction s as [|a s IH]; [discriminate|].
  destruct s as [|b s].
  - simpl. intros H; inversion H; reflexivity.
  - intros H. change (Str.last (String a (String b s))) with (Str.last (String b s)) in H.
    change (Str.init (String a (String b s))) with (String a (Str.init (String b s))).
    simpl. f_equal. apply IH. exact H.
Qed.

End StrFacts.

(** ** Identifier validators (claims C5 and C6) *)

Module RegistryFacts.
Import Py Regex RegistryChecks.

Local Open Scope string_scope.

Lemma value_ret {A} (a : A) net : Net.value (Net.ret a) net = a.
Proof. reflexivity. Qed.

Lemma value_bind {A B} (m : Net.M A) (k : A -> Net.M B) net :
  Net.value (Net.bind m k) net = Net.value (k (Net.value m net)) net.
Proof.
  unfold Net.value, Net.bind. destruct (m net) as [a l1]. simpl.
  destruct (k a net) as [b l2]. reflexivity.
Qed.

Lemma requests_bind {A B} (m : Net.M A) (k : A -> Net.M B) net :
  Net.requests (Net.bind m k) net
  = (Net.requests m net ++ Net.requests (k (Net.value m net)) net)%list.
Proof.
  unfold Net.requests, Net.value, Net.bind. destruct (m net) as [a l1]. simpl.
  destruct (k a net) as [b l2]. reflexivity.
Qed.

Lemma validate_lei_pattern_valid s net :
  Spec.pattern_valid (Net.value (validate_lei s) net) = Some (VBool (Spec.lei_ok s)).
Proof.
  unfold validate_lei, Spec.lei_ok.
  destruct (match_anchored LEI_RE (Str.upper (Str.strip s))); [|reflexivity].
  rewrite value_bind. unfold Net.http_get, Net.value at 2. simpl.
  destruct (net _) as [status json|e]; [|reflexivity].
  destruct (status =? 200)%Z; [|reflexivity].
  destruct json; reflexivity.
Qed.

Lemma validate_lei_requests s net :
  Net.requests (validate_lei s) net
  = if Spec.lei_ok s then [gleif_url (Str.upper (Str.strip s))] else [].
Proof.
  unfold validate_lei, Spec.lei_ok.
  destruct (match_anchored LEI_RE (Str.upper (Str.strip s))); [|reflexivity].
  rewrite requests_bind. unfold Net.http_get, Net.value, Net.requests. simpl.
  destruct (net _) as [status json|e]; [|reflexivity].
  destruct (status =? 200)%Z; [|reflexivity].
  destruct json; reflexivity.
Qed.

Lemma lei_ok_grammar s : Spec.lei_ok s = true <-> Spec.lei_grammar (Str.upper (Str.strip s)).
Proof.
  unfold Spec.lei_ok, LEI_RE, Spec.lei_grammar.
  rewrite StrFacts.match_anchored_trimmed, RegexFacts.fullmatch_rep_Cls.
  unfold cls_upper_digit, cls_upper. simpl.
  assert (E : forall t, Str.forallb (fun c => Str.is_upper c || false || Str.is_digit c) t
                        = Str.forallb (fun c => Str.is_upper c || Str.is_digit c) t).
  { induction t as [|c t IH]; simpl; [reflexivity|].
    now rewrite IH, orb_false_r. }
  rewrite E. reflexivity.
Qed.

Lemma valid_lei_strict s :
  Verifiers.valid_lei s = true <->
  exists body, (s = body \/ s = body ++ String newline "") /\ Spec.lei_strict body.
Proof.
  assert (Hfull : forall t, fullmatch Verifiers.LEI_PATTERN t = true <-> Spec.lei_strict t).
  { intros t. unfold Verifiers.LEI_PATTERN, Spec.lei_strict, digit.
    rewrite RegexFacts.fullmatch_spec. split.
    - intros H. apply RegexFacts.Lang_Cat_inv in H as (a & b & -> & Ha & Hb).
      apply RegexFacts.Lang_rep_Cls in Ha as [? ?].
      apply RegexFacts.Lang_rep_Cls in Hb as [? ?].
      exists a, b. auto.
    - intros (a & b & -> & La & Fa & Lb & Fb).
      constructor; apply RegexFacts.Lang_rep_Cls; auto. }
  unfold Verifiers.valid_lei, match_anchored. rewrite orb_true_iff. split.
  - intros [H|H].
    + exists s. split; [auto|]. now apply Hfull.
    + destruct (Str.last s) as [c|] eqn:El; [|discriminate].
      apply andb_true_iff in H as [Hc H].
      apply Ascii.eqb_eq in Hc. subst c.
      exists (Str.init s). split; [right; now apply StrFacts.init_last|].
      now apply Hfull.
  - intros (body & [->| ->] & H).
    + left. now apply Hfull.
    + right. rewrite StrFacts.last_snoc, StrFacts.init_snoc, Ascii.eqb_refl.
      simpl. now apply Hfull.
Qed.

(** C5, as the claim states it, fails for the validator of
    [core/verifiers.py]: the specification's own example is 20 uppercase
    letters and digits after trimming and uppercasing, yet [valid_lei]
    rejects it, because its last two characters are not digits. *)
Lemma valid_lei_rejects_spec_example :
  Spec.lei_grammar (Str.upper (Str.strip "LIPSUM1234567890ABCD")) /\
  Verifiers.valid_lei "LIPSUM1234567890ABCD" = false.
Proof. split; [split|]; reflexivity. Qed.

(** C5 (amended): the validator of [core/registry_checks.py] reports
    [pattern_valid] exactly when the trimmed, uppercased input is 20
    uppercase letters or digits, so it accepts "LIPSUM1234567890ABCD" and
    rejects "short123"; the validator of [core/verifiers.py] neither trims
    nor uppercases, accepts of the ASCII strings exactly those made of 18
    alphanumerics of either case followed by 2 digits (and possibly one
    final newline), and rejects both examples. *)
Theorem lei_validators_grammar :
  (forall s net,
     Spec.pattern_valid (Net.value (validate_lei s) net) = Some (VBool true)
     <-> Spec.lei_grammar (Str.upper (Str.strip s))) /\
  (forall net,
     Spec.pattern_valid (Net.value (validate_lei "LIPSUM1234567890ABCD") net)
       = Some (VBool true) /\
     Spec.pattern_valid (Net.value (validate_lei "short123") net)
       = Some (VBool false)) /\
  (forall s,
     Str.is_ascii s = true ->
     (Verifiers.valid_lei s = true <->
      exists body, (s = body \/ s = body ++ String newline "") /\
                   Spec.lei_strict body)) /\
  Verifiers.valid_lei "LIPSUM1234567890ABCD" = false /\
  Verifiers.valid_lei "short123" = false.
Proof.
  split; [|split; [|split; [|split]]].
  - intros s net. rewrite validate_lei_pattern_valid, <- lei_ok_grammar.
    split; [intros H; inversion H; reflexivity | intros ->; reflexivity].
  - intros net. rewrite !validate_lei_pattern_valid. split; reflexivity.
  - intros s _. apply valid_lei_strict.
  - reflexivity.
  - reflexivity.
Qed.

Lemma lookup_dict_set d k v k' :
  lookup (dict_set d k v) k' = if (k =? k')%string then Some v else lookup d k'.
Proof.
  induction d as [|[k0 v0] d IH]; simpl.
  - reflexivity.
  - destruct (String.eqb_spec k0 k) as [->|Hk]; simpl.
    + destruct (k =? k')%string; reflexivity.
    + rewrite IH. destruct (String.eqb_spec k0 k') as [->|Hk'].
      * destruct (String.eqb_spec k k'); [congruence | reflexivity].
      * reflexivity.
Qed.

Lemma bulk_registry_check_value ids net :
  Net.value (bulk_registry_check ids) net =
  let out := [] in
  let out := match ident ids "lei" with
             | Some v => dict_set out "lei" (VDict (Net.value (validate_lei v) net))
             | None => out
             end in
  let out := match ident ids "isin" with
             | Some v => dict_set out "isin" (VDict (validate_isin v))
             | None => out
             end in
  let out := match ident ids "cin" with
             | Some v => dict_set out "cin" (VDict (validate_cin v))
             | None => out
             end in
  match ident ids "sebi" with
  | Some v => dict_set out "sebi" (VDict (validate_sebi_id v))
  | None => out
  end.
Proof.
  unfold bulk_registry_check. rewrite value_bind.
  destruct (ident ids "lei") as [v|].
  - rewrite value_bind. reflexivity.
  - reflexivity.
Qed.

(** C6: the [pattern_valid] entry of [validate_lei] is the same under any
    two network states, it is always present and is a function of the input
    string alone; the registry is asked only after the determination, and
    only when it is positive; the same holds entry by entry for
    [bulk_registry_check], whose other validators issue no request at all. *)
Theorem pattern_valid_independent_of_network :
  (forall s net1 net2,
     Spec.pattern_valid (Net.value (validate_lei s) net1)
     = Spec.pattern_valid (Net.value (validate_lei s) net2)) /\
  (forall s net,
     Spec.pattern_valid (Net.value (validate_lei s) net)
     = Some (VBool (Spec.lei_ok s))) /\
  (forall s net,
     Net.requests (validate_lei s) net
     = if Spec.lei_ok s then [gleif_url (Str.upper (Str.strip s))] else []) /\
  (forall ids net1 net2,
     Spec.bulk_pattern_valid (Net.value (bulk_registry_check ids) net1)
     = Spec.bulk_pattern_valid (Net.value (bulk_registry_check ids) net2)) /\
  (forall ids net,
     Forall (fun kv => exists b, snd kv = Some (VBool b))
            (Spec.bulk_pattern_valid (Net.value (bulk_registry_check ids) net))) /\
  (forall ids net k,
     mem (Net.value (bulk_registry_check ids) net) k
     = match ident ids k with
       | Some _ => Spec.mem_kind k
       | None => false
       end).
Proof.
  split; [|split; [|split; [|split; [|split]]]].
  - intros s net1 net2. now rewrite !validate_lei_pattern_valid.
  - apply validate_lei_pattern_valid.
  - apply validate_lei_requests.
  - intros ids net1 net2. rewrite !bulk_registry_check_value.
    pose proof (fun v => validate_lei_pattern_valid v net1) as H1.
    pose proof (fun v => validate_lei_pattern_valid v net2) as H2.
    destruct (ident ids "lei") as [l|], (ident ids "isin"), (ident ids "cin"),
      (ident ids "sebi"); cbn; unfold Spec.pattern_valid in *;
      rewrite ?H1, ?H2; reflexivity.
  - intros ids net. rewrite bulk_registry_check_value.
    pose proof (fun v => validate_lei_pattern_valid v net) as H1.
    destruct (ident ids "lei") as [l|], (ident ids "isin"), (ident ids "cin"),
      (ident ids "sebi"); cbn; unfold Spec.pattern_valid in *;
      rewrite ?H1; repeat constructor; cbn; eauto.
  - intros ids net k. rewrite bulk_registry_check_value. cbv zeta. unfold mem.
    destruct (ident ids "lei") eqn:E1, (ident ids "isin") eqn:E2,
      (ident ids "cin") eqn:E3, (ident ids "sebi") eqn:E4;
      rewrite ?lookup_dict_set; cbn [lookup];
      unfold Spec.mem_kind, Helpers.mem_str; cbn [existsb];
      rewrite !(String.eqb_sym k);
      repeat match goal with
      | |- context [String.eqb ?a k] =>
          destruct (String.eqb_spec a k) as [<-|?]
      end; cbn; rewrite ?E1, ?E2, ?E3, ?E4; try reflexivity;
      destruct (ident ids k); reflexivity.
Qed.

End RegistryFacts.

(** ** Lexical hype scorer (claim C4) *)

Module FraudFacts.
Import FraudDetection.

Local Open Scope string_scope.

Lemma hype_loop_count t ws : forall acc,
  hype_loop t ws acc
  = acc + 10 * Z.of_nat (List.length (filter (fun w => Regex.search w t) ws)).
Proof.
  unfold hype_loop.
  induction ws as [|w ws IH]; intros acc; cbn [fold_left filter List.length].
  - lia.
  - rewrite IH. destruct (Regex.search w t); cbn [List.length]; lia.
Qed.

Lemma hype_score_count text :
  hype_score text = Z.min 100 (10 * Spec.matching_patterns text).
Proof.
  unfold hype_score, Spec.matching_patterns. rewrite hype_loop_count.
  reflexivity.
Qed.

Lemma matching_patterns_bounds text : 0 <= Spec.matching_patterns text <= 9.
Proof.
  unfold Spec.matching_patterns. split; [lia|].
  pose proof (filter_length_le (fun w => Regex.search w (Str.lower text)) HYPE_WORDS) as H.
  change (List.length HYPE_WORDS) with 9%nat in H. lia.
Qed.

(** C4: the hype score is 10 points per matching pattern capped at 100; a
    score of at least 30 or the contradiction flag gives risk "high" with
    the score raised to at least 70, otherwise a score of at least 10 gives
    "medium", otherwise "low"; the example text scores 30 and is "high";
    and the score is a function of the text. *)
Theorem hype_score_and_verdict :
  (forall text, hype_score text = Z.min 100 (10 * Spec.matching_patterns text)) /\
  (forall text, 0 <= hype_score text <= 100) /\
  (forall text flag,
     let hs := hype_score text in
     let v := tip_verdict text flag in
     (30 <= hs \/ flag = true ->
        risk v = "high" /\ score v = Z.max hs 70 /\ 70 <= score v) /\
     (hs < 30 -> flag = false -> 10 <= hs -> risk v = "medium" /\ score v = hs) /\
     (hs < 10 -> flag = false -> risk v = "low" /\ score v = hs)) /\
  (hype_score "guaranteed multibagger target 500" = 30 /\
   forall flag, risk (tip_verdict "guaranteed multibagger target 500" flag) = "high") /\
  (forall t1 t2, t1 = t2 -> hype_score t1 = hype_score t2).
Proof.
  split; [|split; [|split; [|split]]].
  - apply hype_score_count.
  - intros text. rewrite hype_score_count.
    pose proof (matching_patterns_bounds text). lia.
  - intros text flag hs v. subst v. unfold tip_verdict. fold hs.
    destruct (Z.leb_spec 30 hs) as [H30|H30]; simpl.
    + split; [intros _; simpl; repeat split; lia|].
      split; intros; lia.
    + destruct flag; simpl.
      * split; [intros _; repeat split; lia|].
        split; intros; discriminate.
      * destruct (Z.leb_spec 10 hs) as [H10|H10]; simpl.
        -- split; [intros [?|?]; [lia | discriminate]|].
           split; [auto|]. intros; lia.
        -- split; [intros [?|?]; [lia | discriminate]|].
           split; [intros; lia | auto].
  - split; [reflexivity|]. intros flag. destruct flag; reflexivity.
  - intros t1 t2 ->. reflexivity.
Qed.

(** The rule of C4 at the example text with no contradiction flag. *)
Lemma hype_score_and_verdict_witness :
  risk (tip_verdict "guaranteed multibagger target 500" false) = "high" /\
  70 <= score (tip_verdict "guaranteed multibagger target 500" false).
Proof.
  destruct hype_score_and_verdict as (_ & _ & H & _).
  destruct (H "guaranteed multibagger target 500" false) as (Hhigh & _).
  destruct Hhigh as (Hr & _ & Hs); [left; vm_compute; discriminate|].
  split; assumption.
Defined.

End FraudFacts.

(** ** Numeric anomaly detector (claim C8) *)

Module AnomalyFacts.
Import AnomalyDetector.

Lemma iloc_last_none (s : list Q) : iloc_last s = None <-> s = [].
Proof.
  unfold iloc_last. split.
  - destruct (rev s) as [|x l] eqn:E; [|discriminate].
    intros _. apply (f_equal (@rev Q)) in E. rewrite rev_involutive in E.
    exact E.
  - intros ->. reflexivity.
Qed.

(** C8: with fewer than two usable observations the detector answers
    [anomaly = False] and reports only the latest value, which is [None]
    exactly when nothing is usable; with two or more and a historical mean
    of zero, the deviation is the literal 0 and nothing is divided. *)
Theorem short_series_is_not_anomalous (series : list (option Q)) (threshold : Q) :
  ((List.length (dropna series) < 2)%nat ->
     detect_numeric_anomalies series threshold
       = Short false (iloc_last (dropna series)) /\
     anomaly_of (detect_numeric_anomalies series threshold) = false /\
     (iloc_last (dropna series) = None <-> dropna series = [])) /\
  ((2 <= List.length (dropna series))%nat ->
     (Np.mean (removelast (dropna series)) == 0)%Q ->
     detect_numeric_anomalies series threshold
       = Full (List.last (dropna series) 0%Q)
              (Np.mean (removelast (dropna series)))
              0%Q
              (Py.Qltb threshold (Qabs 0))).
Proof.
  unfold detect_numeric_anomalies. split.
  - intros H. apply Nat.ltb_lt in H. rewrite H. simpl.
    split; [reflexivity|]. split; [reflexivity|]. apply iloc_last_none.
  - intros H Hm. apply Nat.ltb_ge in H. rewrite H.
    apply Qeq_bool_iff in Hm. rewrite Hm. reflexivity.
Qed.

(** An empty series, a series with one usable figure among missing ones,
    and a history that averages to zero. *)
Lemma short_series_is_not_anomalous_witness :
  detect_numeric_anomalies [] default_threshold = Short false None /\
  detect_numeric_anomalies [None; Some (104 # 1); None] default_threshold
    = Short false (Some (104 # 1)) /\
  detect_numeric_anomalies [Some ((-1) # 1); Some (1 # 1); Some (5 # 1)]
                           default_threshold
    = Full (5 # 1) (Np.mean [(-1) # 1; 1 # 1]) 0 false.
Proof.
  split; [|split].
  - apply (proj1 (short_series_is_not_anomalous [] default_threshold)).
    simpl. lia.
  - apply (proj1 (short_series_is_not_anomalous
                    [None; Some (104 # 1); None] default_threshold)).
    simpl. lia.
  - apply (proj2 (short_series_is_not_anomalous
                    [Some ((-1) # 1); Some (1 # 1); Some (5 # 1)]
                    default_threshold)).
    + simpl. lia.
    + reflexivity.
Defined.

End AnomalyFacts.

(** ** Technical contradiction analyzer (claims C3 and C9) *)

Module ContraFacts.
Import Py Np MarketContra.

Lemma last_item_cons (x : Q) (l : list Q) : exists y, last_item (x :: l) = Ok y.
Proof.
  unfold last_item. destruct (rev (x :: l)) as [|y l'] eqn:E.
  - apply (f_equal (@List.length Q)) in E. rewrite length_rev in E. discriminate.
  - eauto.
Qed.

Lemma moving_average_ok (x : Q) (l : list Q) (w : nat) :
  (0 < w <= List.length (x :: l))%nat ->
  exists m ms, moving_average (x :: l) w = Ok (m :: ms).
Proof.
  intros [Hw Hl]. unfold moving_average.
  destruct w as [|w]; [lia|].
  apply Nat.leb_le in Hl. rewrite Hl.
  replace (List.length (x :: l) - S w + 1)%nat
    with (S (List.length (x :: l) - S w)) by lia.
  simpl List.seq. simpl List.map. eauto.
Qed.

(** The three increments, as the source computes them. *)
Lemma increments_at_most_two (t : string) (a b c d : bool) :
  let s1 := if (t =? "positive")%string && a then 1 else 0 in
  let s2 := if (t =? "negative")%string && b then 1 else 0 in
  let s3 := if (c && (t =? "positive")%string) || (d && (t =? "negative")%string)
            then 1 else 0 in
  0 <= s1 + s2 + s3 <= 2 /\ 0 <= s1 + s2 <= 1.
Proof.
  destruct (String.eqb_spec t "positive") as [->|Hp]; simpl.
  - destruct a, b, c, d; simpl; lia.
  - destruct (t =? "negative")%string, a, b, c, d; simpl; lia.
Qed.

Lemma contradiction_score_shape (p : Q) (ps : list Q) (t : string) :
  exists m last_price,
    (if (20 <=? List.length (p :: ps))%nat
     then ma <- moving_average (p :: ps) 20 ;; last_item ma
     else Ok (mean (p :: ps))) = Ok m /\
    last_item (p :: ps) = Ok last_price /\
    contradiction_score (p :: ps) t =
    Ok {| ma20 := m;
          rsi := if (15 <? List.length (p :: ps))%nat
                 then compute_rsi (p :: ps) 14 else 50%Q;
          score :=
            (if (t =? "positive")%string && Qltb last_price m then 1 else 0)
            + (if (t =? "negative")%string && Qltb m last_price then 1 else 0)
            + (if (Qltb 70 (if (15 <? List.length (p :: ps))%nat
                            then compute_rsi (p :: ps) 14 else 50%Q)
                   && (t =? "positive")%string)
                  || (Qltb (if (15 <? List.length (p :: ps))%nat
                            then compute_rsi (p :: ps) 14 else 50%Q) 30
                      && (t =? "negative")%string)
               then 1 else 0) |}.
Proof.
  destruct (last_item_cons p ps) as [lp Hlp].
  assert (Hma : exists m,
    (if (20 <=? List.length (p :: ps))%nat
     then ma <- moving_average (p :: ps) 20 ;; last_item ma
     else Ok (mean (p :: ps))) = Ok m).
  { destruct (Nat.leb_spec 20 (List.length (p :: ps))) as [H|H].
    - destruct (moving_average_ok p ps 20) as (m & ms & E); [lia|].
      rewrite E. simpl bind. destruct (last_item_cons m ms) as [y Hy]. eauto.
    - eauto. }
  destruct Hma as [m Hm]. exists m, lp. split; [exact Hm|]. split; [exact Hlp|].
  unfold contradiction_score. rewrite Hm. cbn [bind]. rewrite Hlp. cbn [bind].
  f_equal. f_equal.
  destruct ((t =? "positive")%string && Qltb lp m),
           ((t =? "negative")%string && Qltb m lp);
    match goal with |- context [if ?c then _ else _] => destruct c end;
    reflexivity.
Qed.

(** C9: on a non-empty price list the analyzer returns, and its score is
    0, 1 or 2, the two moving-average increments never applying together;
    on the empty list it raises. *)
Theorem contradiction_score_at_most_two :
  (forall (p : Q) (ps : list Q) (t : string),
     exists c, contradiction_score (p :: ps) t = Ok c /\
               (score c = 0 \/ score c = 1 \/ score c = 2) /\ score c <= 2) /\
  (forall (t : string), exists e, contradiction_score [] t = Raise e).
Proof.
  split.
  - intros p ps t.
    destruct (contradiction_score_shape p ps t) as (m & lp & _ & _ & E).
    rewrite E. eexists. split; [reflexivity|]. cbn [score].
    match goal with
    | |- context [(if (_ =? _)%string && ?a then _ else _)
                  + (if (_ =? _)%string && ?b then _ else _)
                  + (if (?c && _) || (?d && _) then _ else _)] =>
        pose proof (increments_at_most_two t a b c d) as H
    end.
    cbv zeta in H. lia.
  - intros t. eexists. reflexivity.
Qed.

Lemma diff_length (data : list Q) :
  List.length (diff data) = (List.length data - 1)%nat.
Proof.
  induction data as [|x [|y rest] IH]; [reflexivity | reflexivity |].
  change (diff (x :: y :: rest)) with ((y - x)%Q :: diff (y :: rest)).
  cbn [List.length] in *. rewrite IH. lia.
Qed.

(** [compute_rsi] itself falls back exactly below 15 points. *)
Lemma compute_rsi_fallback (data : list Q) :
  ((List.length data < 15)%nat -> compute_rsi data 14 = 50%Q) /\
  ((15 <= List.length data)%nat ->
     compute_rsi data 14 =
     let seed := firstn 14 (diff data) in
     let up := (qsum (filter (fun d => Qle_bool 0 d) seed) / Qnat 14)%Q in
     let down := (- qsum (filter (fun d => Qltb d 0) seed) / Qnat 14)%Q in
     (100 - 100 / (1 + (if negb (Qeq_bool down 0) then up / down else 0)))%Q).
Proof.
  unfold compute_rsi. rewrite diff_length. split; intros H.
  - destruct (Nat.ltb_spec (List.length data - 1) 14); [reflexivity | lia].
  - destruct (Nat.ltb_spec (List.length data - 1) 14); [lia | reflexivity].
Qed.

(** The guards of [contradiction_score]: the mean replaces the moving
    average below 20 points, and 50 replaces the RSI up to and including
    15 points. *)
Lemma contradiction_score_fallbacks (p : Q) (ps : list Q) (t : string) :
  exists c, contradiction_score (p :: ps) t = Ok c /\
    ((List.length (p :: ps) < 20)%nat -> ma20 c = mean (p :: ps)) /\
    ((20 <= List.length (p :: ps))%nat ->
       exists ma, moving_average (p :: ps) 20 = Ok ma /\ last_item ma = Ok (ma20 c)) /\
    ((List.length (p :: ps) <= 15)%nat -> rsi c = 50%Q) /\
    ((15 < List.length (p :: ps))%nat -> rsi c = compute_rsi (p :: ps) 14).
Proof.
  destruct (contradiction_score_shape p ps t) as (m & lp & Hm & _ & E).
  rewrite E. eexists. split; [reflexivity|]. cbn [ma20 rsi].
  split; [|split; [|split]]; intros H.
  - destruct (Nat.leb_spec 20 (List.length (p :: ps))); [lia|].
    inversion Hm; reflexivity.
  - destruct (Nat.leb_spec 20 (List.length (p :: ps))); [|lia].
    destruct (moving_average (p :: ps) 20) as [ma|e]; [|discriminate].
    exists ma. auto.
  - destruct (Nat.ltb_spec 15 (List.length (p :: ps))); [lia | reflexivity].
  - destruct (Nat.ltb_spec 15 (List.length (p :: ps))); [reflexivity | lia].
Qed.

(** C3 at a 15-point series: the series is not below the 15-point
    threshold and [compute_rsi] does compute on it (the value is 75), yet
    [contradiction_score] reports the neutral 50, and with it no RSI
    increment for a positive announcement. *)
Theorem rsi_fallback_at_fifteen_points :
  List.length Spec.fifteen_points = 15%nat /\
  (compute_rsi Spec.fifteen_points 14 == 75)%Q /\
  exists c, contradiction_score Spec.fifteen_points "positive" = Ok c /\
            rsi c = 50%Q /\ score c = 0.
Proof.
  split; [reflexivity|]. split; [vm_compute; reflexivity|].
  eexists. split; [vm_compute; reflexivity|]. split; reflexivity.
Qed.

End ContraFacts.

(** ** Official-source verifier and URL hygiene (claims C7 and C10) *)

Module HelpersFacts.
Import Py Helpers.

(** C7: whatever the claim text, company hint and link, and whatever the
    regulator map holds, the verifier returns, its verdict is one of the
    three non-empty strings "verified", "unverified" and
    "needs_official_link", and its reason is a non-empty string; when
    neither the demo override nor a regulator keyword applies, the verdict
    is "unverified" with the scraper's explicit reason. *)
Theorem verify_announcement_verdict_never_blank
  (rm : regulator_map) (now : Z) (hash_payload : evidence_body -> string)
  (title company_hint : string) (link : option string) :
  exists v r ev h,
    verify_announcement rm now hash_payload title company_hint link
      = Ok {| verdict := VStr v; reason := VStr r; evidence := ev;
              evidence_hash := h |} /\
    (v = "verified" \/ v = "unverified" \/ v = "needs_official_link") /\
    v <> "" /\ r <> "" /\
    (let text := Str.strip (Str.join " " [title; company_hint; or_empty link]) in
     Str.contains "novapharm" (Str.lower text) && Str.contains "fda" (Str.lower text)
       = false ->
     suggest_official_sources rm text = [] ->
     v = "unverified" /\ r = "No official match via lightweight search").
Proof.
  unfold verify_announcement.
  destruct (Str.contains "novapharm" _ && Str.contains "fda" _) eqn:Edemo.
  - cbn. do 4 eexists. split; [reflexivity|].
    split; [auto|]. split; [discriminate|]. split; [discriminate|].
    intros; discriminate.
  - cbn. destruct (suggest_official_sources rm _) as [|sg sgs] eqn:Esg.
    + cbn. do 4 eexists. split; [reflexivity|].
      split; [auto|]. split; [discriminate|]. split; [discriminate|]. auto.
    + cbn. do 4 eexists. split; [reflexivity|].
      split; [auto|]. split; [discriminate|]. split; [discriminate|].
      intros _ H; discriminate H.
Qed.

(** The no-match case of C7 on an empty regulator map. *)
Lemma verify_announcement_verdict_never_blank_witness :
  exists ev h,
    verify_announcement [] 0 (fun _ => "") "Quarterly results" "" None
    = Ok {| verdict := VStr "unverified";
            reason := VStr "No official match via lightweight search";
            evidence := ev; evidence_hash := h |}.
Proof.
  destruct (verify_announcement_verdict_never_blank
              [] 0 (fun _ => "") "Quarterly results" "" None)
    as (v & r & ev & h & E & _ & _ & _ & H).
  destruct H as [Hv Hr]; [reflexivity | reflexivity |].
  subst v r. exists ev, h. exact E.
Defined.

Lemma Qltb_inject_Z (a b : Z) : Qltb (inject_Z a) (inject_Z b) = (a <? b).
Proof.
  unfold Qltb, Qcompare, Z.ltb. simpl. rewrite !Z.mul_1_r. reflexivity.
Qed.

Lemma officialish_nonempty (domain : string) :
  is_officialish domain = true -> (domain =? "")%string = false.
Proof. destruct domain; [discriminate | reflexivity]. Qed.

Lemma dict_get_lookup d k v default :
  lookup d k = Some v -> dict_get d k default = v.
Proof. unfold dict_get. intros ->. reflexivity. Qed.

(** C10, as the claim states it, fails: the prefix test of the hygiene
    check is exact, so a link written [Https://...] is turned away as
    "invalid" although its domain is on the official-ish list and the
    reputation report of that domain counts three malicious detections. *)
Lemma capitalised_scheme_is_invalid_not_risky :
  is_officialish (url_domain (fun _ => Ok "www.sebi.gov.in") "Https://www.sebi.gov.in/")
  = true /\
  Spec.counts_malicious
    (VDict [("data", VDict [("attributes", VDict
              [("last_analysis_stats",
                VDict [("harmless", VInt 60); ("malicious", VInt 3)])])])]) /\
  lr_verdict
    (check_document_link
       (fun _ => Ok "www.sebi.gov.in")
       (fun _ => VDict [("data", VDict [("attributes", VDict
                   [("last_analysis_stats",
                     VDict [("harmless", VInt 60); ("malicious", VInt 3)])])])])
       (fun _ => VDict [("error", VStr "no_api_key")])
       "Https://www.sebi.gov.in/")
  = "invalid".
Proof.
  split; [reflexivity|]. split; [|reflexivity].
  split; [reflexivity|]. exists 3. split; [reflexivity | lia].
Qed.

(** C10 (amended): when the domain of the link is on the official-ish list
    and its reputation report counts at least one malicious detection, the
    hygiene check never answers "likely-official": for a link that begins
    with the exact prefix [http://] or [https://] the later assignment
    overrides it and the verdict is "risky", whatever the URL scanner says;
    any other string is turned away as "invalid" before any domain is
    looked at. *)
Theorem risky_dominates_official
  (urlparse_netloc : string -> result string)
  (vt_domain_report urlscan_submit : string -> pyval) (url : string) :
  is_officialish (url_domain urlparse_netloc url) = true ->
  Spec.counts_malicious (vt_domain_report (url_domain urlparse_netloc url)) ->
  lr_verdict (check_document_link urlparse_netloc vt_domain_report urlscan_submit url)
  = (if is_http_url url then "risky" else "invalid") /\
  lr_verdict (check_document_link urlparse_netloc vt_domain_report urlscan_submit url)
  <> "likely-official".
Proof.
  intros Hoff [Herr (n & Hmal & Hn)].
  assert (G : lr_verdict (check_document_link urlparse_netloc vt_domain_report
                            urlscan_submit url)
              = (if is_http_url url then "risky" else "invalid")).
  { unfold check_document_link, check_document_link_body.
    destruct (is_http_url url); [|reflexivity].
    cbn [negb]. cbv zeta.
    rewrite Hoff, (officialish_nonempty _ Hoff). cbn [negb].
    destruct (vt_domain_report (url_domain urlparse_netloc url)) as [| | | | | |d];
      try discriminate Herr.
    cbn [Spec.vt_is_error] in Herr. cbn [Spec.vt_malicious] in Hmal.
    cbn [is_dict get bind]. rewrite Herr. cbn [negb].
    destruct (lookup d "data") as [[| | | | | |data]|] eqn:Edata;
      try discriminate Hmal.
    rewrite (dict_get_lookup _ _ _ _ Edata). cbn [get bind].
    destruct (lookup data "attributes") as [[| | | | | |attrs]|] eqn:Eattrs;
      try discriminate Hmal.
    rewrite (dict_get_lookup _ _ _ _ Eattrs). cbn [get bind].
    destruct (lookup attrs "last_analysis_stats") as [[| | | | | |stats]|] eqn:Estats;
      try discriminate Hmal.
    rewrite (dict_get_lookup _ _ _ _ Estats). cbn [get bind].
    rewrite (dict_get_lookup _ _ _ _ Hmal).
    unfold gt_int. cbn [as_num bind].
    change 0%Q with (inject_Z 0). rewrite Qltb_inject_Z.
    apply Z.ltb_lt in Hn. rewrite Hn.
    destruct (urlscan_submit url) as [| | | | | |us]; try reflexivity.
    cbn [is_dict get bind].
    destruct (truthy (dict_get us "error" VNone)); reflexivity. }
  split; [exact G|]. rewrite G. destruct (is_http_url url); discriminate.
Qed.

(** The demo link [https://www.sebi.gov.in/] with three malicious
    detections on its domain and the scanner unavailable. *)
Lemma risky_dominates_official_witness :
  lr_verdict
    (check_document_link
       (fun _ => Ok "www.SEBI.gov.in")
       (fun _ => VDict [("data", VDict [("attributes", VDict
                   [("last_analysis_stats",
                     VDict [("harmless", VInt 60); ("malicious", VInt 3)])])])])
       (fun _ => VDict [("error", VStr "no_api_key")])
       "https://www.sebi.gov.in/")
  = "risky".
Proof.
  apply (risky_dominates_official
           (fun _ => Ok "www.SEBI.gov.in")
           (fun _ => VDict [("data", VDict [("attributes", VDict
                       [("last_analysis_stats",
                         VDict [("harmless", VInt 60); ("malicious", VInt 3)])])])])
           (fun _ => VDict [("error", VStr "no_api_key")])
           "https://www.sebi.gov.in/").
  - reflexivity.
  - split; [reflexivity|]. exists 3. split; [reflexivity | lia].
Defined.

End HelpersFacts.

(** ** Evidence aggregator (claims C1 and C2) *)

Module ScorerFacts.
Import Py DocumentVerifier.

Lemma bind_Ok_inv {A B} (m : result A) (k : A -> result B) (b : B) :
  bind m k = Ok b -> exists a, m = Ok a /\ k a = Ok b.
Proof. destruct m as [a|e]; simpl; [eauto | discriminate]. Qed.

Lemma clamp_max_min (x : Z) : Z.max 0 (Z.min 100 x) = Spec.clamp x 0 100.
Proof.
  unfold Spec.clamp.
  destruct (Z.ltb_spec x 0); [lia|]. destruct (Z.ltb_spec 100 x); lia.
Qed.

Lemma clamp_bounds (x : Z) : 0 <= Spec.clamp x 0 100 <= 100.
Proof. rewrite <- clamp_max_min. lia. Qed.

(** Whenever the scorer returns, the total is the clamped sum of the rows
    it returns. *)
Lemma score_from_signals_clamped signals total rows :
  score_from_signals signals = Ok (total, rows) ->
  total = Spec.clamp (sum_contributions rows) 0 100.
Proof.
  unfold score_from_signals. cbv zeta. intros H.
  repeat (apply bind_Ok_inv in H; destruct H as (? & _ & H)).
  inversion H; subst. apply clamp_max_min.
Qed.

Lemma numeric_as_num v : Spec.numeric v = true -> exists q, as_num v = Ok q.
Proof. destruct v; simpl; try discriminate; eauto. Qed.

Ltac dict_signal signals k :=
  let d := fresh "d" in
  let E := fresh "E" in
  let H := fresh "H" in
  assert (H : is_dict (Spec.signal signals k) = true)
    by (match goal with
        | W : List.forallb _ _ = true |- _ =>
            cbn [List.forallb] in W;
            repeat (apply andb_true_iff in W; destruct W as [? W]); assumption
        end);
  unfold Spec.signal in H;
  destruct (py_or (dict_get signals k (VDict [])) (VDict []))
    as [| | | | | |d] eqn:E; try discriminate H; clear H.

(** On well-shaped signals the scorer returns. *)
Lemma score_from_signals_total signals :
  Spec.well_shaped signals = true ->
  exists total rows, score_from_signals signals = Ok (total, rows).
Proof.
  unfold Spec.well_shaped. intros W.
  apply andb_true_iff in W as [W Hcontra].
  apply andb_true_iff in W as [W Htext].
  apply andb_true_iff in W as [Hlookup W].
  unfold score_from_signals. cbv zeta.
  destruct (dict_get signals "lookup" (VDict [])) as [| | | | | |dl];
    try discriminate Hlookup.
  cbn [get bind].
  dict_signal signals "official". cbn [get bind].
  dict_signal signals "url". cbn [get bind].
  dict_signal signals "identifiers".
  apply numeric_as_num in Htext as [q Hq]. unfold gt_int. rewrite Hq.
  dict_signal signals "social".
  dict_signal signals "anomaly".
  unfold Spec.signal in Hcontra.
  dict_signal signals "contra".
  apply numeric_as_num in Hcontra as [q' Hq']. unfold ge_int.
  destruct (truthy (VDict d1)); [destruct (valid_kinds d1)|];
    cbn [get bind]; rewrite Hq'; cbn [bind]; eauto.
Qed.

(** C1: whenever the scorer returns, on any signals mapping at all, the
    total is between 0 and 100 and is the clamp to [0, 100] of the sum of
    the contributions of the rows it returns, never the unclamped sum; and
    it does return on every signals mapping of the collectors' shape. *)
Theorem score_is_clamped_sum signals :
  (forall total rows,
     score_from_signals signals = Ok (total, rows) ->
     0 <= total <= 100 /\
     total = Spec.clamp (sum_contributions rows) 0 100) /\
  (Spec.well_shaped signals = true ->
   exists total rows,
     score_from_signals signals = Ok (total, rows) /\
     0 <= total <= 100 /\
     total = Spec.clamp (sum_contributions rows) 0 100).
Proof.
  assert (P : forall total rows,
            score_from_signals signals = Ok (total, rows) ->
            0 <= total <= 100 /\
            total = Spec.clamp (sum_contributions rows) 0 100).
  { intros total rows E. apply score_from_signals_clamped in E. subst total.
    split; [apply clamp_bounds | reflexivity]. }
  split; [exact P|].
  intros W. destruct (score_from_signals_total signals W) as (total & rows & E).
  exists total, rows. split; [exact E | exact (P total rows E)].
Qed.

(** The clamp binds when every check is favourable: the contributions add
    up to 130 and the total returned is 100. *)
Lemma score_is_clamped_sum_witness :
  exists total rows,
    score_from_signals Spec.everything_matched = Ok (total, rows) /\
    0 <= total <= 100 /\
    total = Spec.clamp (sum_contributions rows) 0 100.
Proof.
  apply (proj2 (score_is_clamped_sum Spec.everything_matched)). reflexivity.
Defined.

Lemma score_clamps_at_100 :
  exists rows,
    score_from_signals Spec.everything_matched = Ok (100, rows) /\
    sum_contributions rows = 130.
Proof. eexists. split; reflexivity. Qed.

(** At the other end the contributions add up to [-23] and the total
    returned is 0. *)
Lemma score_clamps_at_0 :
  exists rows,
    score_from_signals Spec.everything_failed = Ok (0, rows) /\
    sum_contributions rows = -23.
Proof. eexists. split; reflexivity. Qed.

(** C2, as the claim states it, fails: when nothing matched and no
    optional collaborator answered, the breakdown has four rows only, with
    no row for URL hygiene, identifiers, social signal, numeric anomaly or
    market contradiction. *)
Lemma breakdown_omits_inapplicable_rows :
  Spec.well_shaped Spec.nothing_matched = true /\
  exists rows,
    score_from_signals Spec.nothing_matched = Ok (42, rows) /\
    List.length rows = 4%nat /\
    Spec.covers_all rows = false /\
    Spec.covers Spec.dim_url rows = false /\
    Spec.covers Spec.dim_identifiers rows = false /\
    Spec.covers Spec.dim_social rows = false /\
    Spec.covers Spec.dim_anomaly rows = false /\
    Spec.covers Spec.dim_contra rows = false.
Proof. split; [reflexivity|]. eexists. repeat split; reflexivity. Qed.

Lemma covers_append dim rows r :
  Spec.covers dim (append rows r)
  = Spec.covers dim rows || Helpers.mem_str (dimension r) dim.
Proof.
  unfold Spec.covers, append. rewrite existsb_app. simpl.
  now rewrite orb_false_r.
Qed.

Lemma covers_if dim (c : bool) rows1 rows2 :
  Spec.covers dim (if c then rows1 else rows2)
  = if c then Spec.covers dim rows1 else Spec.covers dim rows2.
Proof. destruct c; reflexivity. Qed.

Lemma Forall_append (P : row -> Prop) rows r :
  Forall P rows -> P r -> Forall P (append rows r).
Proof. intros H1 H2. apply Forall_app. auto. Qed.

Lemma valid_kinds_nonempty (d : pydict) :
  (match valid_kinds d with [] => false | _ => true end)
  = existsb (fun kv => truthy (match snd kv with
                               | VDict e => dict_get e "pattern_valid" VNone
                               | _ => VNone
                               end)) d.
Proof.
  unfold valid_kinds.
  assert (G : forall acc,
    (match fold_left
             (fun ok '(k, v) =>
                match v with
                | VDict e => if truthy (dict_get e "pattern_valid" VNone)
                             then (ok ++ [Str.upper k])%list else ok
                | _ => ok
                end) d acc
     with [] => false | _ => true end)
    = (match acc with [] => false | _ => true end)
      || existsb (fun kv => truthy (match snd kv with
                                    | VDict e => dict_get e "pattern_valid" VNone
                                    | _ => VNone
                                    end)) d).
  { induction d as [|[k v] d IH]; intros acc; cbn [fold_left existsb snd].
    - now rewrite orb_false_r.
    - rewrite IH. destruct v as [| | | | | |e]; cbn [truthy orb]; try reflexivity.
      destruct (truthy (dict_get e "pattern_valid" VNone)); cbn [orb].
      + destruct acc; reflexivity.
      + reflexivity. }
  rewrite G. reflexivity.
Qed.

Lemma if_app {A} (c : bool) (l a b : list A) :
  (if c then l ++ a else l ++ b)%list = (l ++ (if c then a else b))%list.
Proof. destruct c; reflexivity. Qed.

Lemma if_app_nil {A} (c : bool) (l a : list A) :
  (if c then l ++ a else l)%list = (l ++ (if c then a else []))%list.
Proof. destruct c; [reflexivity | now rewrite app_nil_r]. Qed.

Lemma if_singleton {A} (c : bool) (x y : A) :
  (if c then [x] else [y]) = [if c then x else y].
Proof. destruct c; reflexivity. Qed.

Ltac step_let :=
  lazymatch goal with
  | |- (let x := ?a in @?f x) = ?rhs => change (f a = rhs); cbv beta
  end.

Lemma ids_step (rows : list row) (d : pydict) :
  (if truthy (VDict d)
   then
     let ok := valid_kinds d in
     match ok with
     | [] => Ok rows
     | _ :: _ =>
         Ok (rows ++ [("Identifiers Valid", 10,
                       ("Valid pattern(s): " ++ Str.join ", " ok)%string)])%list
     end
   else Ok rows)
  = Ok (rows ++ match valid_kinds d with
                | [] => []
                | ok => [("Identifiers Valid", 10,
                          ("Valid pattern(s): " ++ Str.join ", " ok)%string)]
                end)%list.
Proof.
  cbv zeta.
  assert (H : truthy (VDict d) = false -> valid_kinds d = []).
  { destruct d; [reflexivity | discriminate]. }
  destruct (truthy (VDict d)).
  - destruct (valid_kinds d); [now rewrite app_nil_r | reflexivity].
  - rewrite H by reflexivity. now rewrite app_nil_r.
Qed.

(** The scorer computes the table. *)
Lemma score_from_signals_table signals :
  Spec.well_shaped signals = true ->
  score_from_signals signals
  = Ok (Z.max 0 (Z.min 100 (sum_contributions (Spec.breakdown_table signals))),
        Spec.breakdown_table signals).
Proof.
  unfold Spec.well_shaped. intros W.
  apply andb_true_iff in W as [W Hcontra].
  apply andb_true_iff in W as [W Htext].
  apply andb_true_iff in W as [Hlookup W].
  destruct (dict_get signals "lookup" (VDict [])) as [| | | | | |dl] eqn:El;
    try discriminate Hlookup.
  dict_signal signals "official".
  dict_signal signals "url".
  dict_signal signals "identifiers".
  dict_signal signals "social".
  dict_signal signals "anomaly".
  unfold Spec.signal in Hcontra.
  dict_signal signals "contra".
  apply numeric_as_num in Htext as [q Hq].
  apply numeric_as_num in Hcontra as [q' Hq'].
  assert (T : Spec.breakdown_table signals =
    ((((((((([] ++ [Spec.row_baseline]) ++ [Spec.row_registry signals])
       ++ [Spec.row_official signals]) ++ Spec.rows_url signals)
       ++ Spec.rows_identifiers signals) ++ [Spec.row_text signals])
       ++ Spec.rows_social signals) ++ Spec.rows_anomaly signals)
       ++ Spec.rows_contra signals)%list).
  { unfold Spec.breakdown_table. rewrite <- !app_assoc. reflexivity. }
  rewrite T. clear T.
  unfold Spec.row_registry, Spec.row_official, Spec.rows_url,
    Spec.rows_identifiers, Spec.row_text, Spec.rows_social, Spec.rows_anomaly,
    Spec.rows_contra, Spec.found, Spec.field, Spec.long_text, Spec.valid_kinds_of,
    Spec.anomaly_flagged, Spec.contradicted, Spec.signal, Spec.row_baseline.
  rewrite El, E, E0, E1, E2, E3, E4, Hq, Hq'.
  rewrite <- !if_singleton.
  set (table := (_ ++ _)%list).
  cbv beta delta [score_from_signals gt_int ge_int append].
  rewrite El, E, E0, E1, E2, E3, E4, Hq.
  (* baseline, lookup *)
  step_let. step_let. cbn beta iota delta [get bind].
  rewrite if_app. step_let.
  (* official *)
  step_let. cbn beta iota delta [get bind]. rewrite !if_app. step_let.
  (* url *)
  step_let. cbn beta iota delta [get bind].
  rewrite if_app_nil, !if_app. step_let.
  (* identifiers *)
  step_let. cbn beta iota delta [get bind].
  lazymatch goal with
  | |- bind ?m _ = _ => rewrite (ids_step _ d1 : m = _)
  end.
  cbn beta iota delta [bind].
  (* text *)
  rewrite if_app. step_let.
  (* social *)
  step_let. cbn beta iota delta [get bind].
  rewrite if_app_nil, !if_app. step_let.
  (* anomaly *)
  step_let. cbn beta iota delta [get bind]. rewrite if_app_nil. step_let.
  (* contradiction *)
  step_let. cbn beta iota delta [get bind]. rewrite Hq'.
  cbn beta iota delta [bind]. rewrite if_app_nil. step_let.
  cbv zeta. reflexivity.
Qed.

Lemma covers_app dim rows1 rows2 :
  Spec.covers dim (rows1 ++ rows2)%list
  = Spec.covers dim rows1 || Spec.covers dim rows2.
Proof. apply existsb_app. Qed.

(** A piece of the breakdown covers its own dimension when it is not empty. *)
Lemma covers_own dim piece :
  Spec.in_dim dim piece = true -> Spec.covers dim piece = negb (Spec.null piece).
Proof.
  destruct piece as [|r piece]; [reflexivity|].
  unfold Spec.in_dim, Spec.covers. cbn [List.forallb existsb Spec.null negb].
  intros H. apply andb_true_iff in H as [-> _]. reflexivity.
Qed.

(** It covers no dimension that shares no name with its own. *)
Lemma covers_other dim dim' piece :
  Spec.in_dim dim piece = true -> Spec.disjoint dim dim' = true ->
  Spec.covers dim' piece = false.
Proof.
  unfold Spec.in_dim, Spec.disjoint, Spec.covers. intros Hin Hdis.
  induction piece as [|r piece IH]; [reflexivity|].
  cbn [List.forallb existsb] in *. apply andb_true_iff in Hin as [Hr Hin].
  rewrite (IH Hin), orb_false_r.
  unfold Helpers.mem_str in Hr. apply existsb_exists in Hr as (x & Hx & Ex).
  apply String.eqb_eq in Ex. subst x.
  rewrite forallb_forall in Hdis. apply Hdis in Hx.
  now apply negb_true_iff in Hx.
Qed.

Ltac by_cases :=
  repeat match goal with
         | |- context [if ?c then _ else _] => destruct c eqn:?
         end.

Lemma eq_str_field_truthy signals k f s :
  eq_str (Spec.field signals k f VNone) s = true ->
  truthy (Spec.signal signals k) = true.
Proof.
  unfold Spec.field. destruct (Spec.signal signals k) as [| | | | | |d];
    try discriminate.
  destruct d; [discriminate | reflexivity].
Qed.

Lemma null_rows_url signals :
  Spec.null (Spec.rows_url signals) = negb (truthy (Spec.signal signals "url")).
Proof.
  unfold Spec.rows_url.
  destruct (eq_str _ "likely-official") eqn:E1;
    [now rewrite (eq_str_field_truthy _ _ _ _ E1)|].
  destruct (eq_str _ "risky") eqn:E2;
    [now rewrite (eq_str_field_truthy _ _ _ _ E2)|].
  destruct (truthy _); reflexivity.
Qed.

Lemma null_rows_social signals :
  Spec.null (Spec.rows_social signals)
  = negb (truthy (Spec.signal signals "social")).
Proof.
  unfold Spec.rows_social.
  destruct (eq_str _ "legit") eqn:E1;
    [now rewrite (eq_str_field_truthy _ _ _ _ E1)|].
  destruct (truthy _); reflexivity.
Qed.

Lemma null_rows_identifiers signals :
  Spec.null (Spec.rows_identifiers signals)
  = negb (Spec.has_valid_identifier signals).
Proof.
  unfold Spec.rows_identifiers, Spec.valid_kinds_of, Spec.has_valid_identifier.
  destruct (Spec.signal signals "identifiers") as [| | | | | |d]; try reflexivity.
  rewrite <- valid_kinds_nonempty. destruct (valid_kinds d); reflexivity.
Qed.

Lemma null_rows_anomaly signals :
  Spec.null (Spec.rows_anomaly signals) = negb (Spec.anomaly_flagged signals).
Proof. unfold Spec.rows_anomaly. destruct (Spec.anomaly_flagged _); reflexivity. Qed.

Lemma null_rows_contra signals :
  Spec.null (Spec.rows_contra signals) = negb (Spec.contradicted signals).
Proof. unfold Spec.rows_contra. destruct (Spec.contradicted _); reflexivity. Qed.

Lemma pieces_ok signals :
  Spec.piece_ok Spec.dim_baseline [Spec.row_baseline] /\
  Spec.piece_ok Spec.dim_registry [Spec.row_registry signals] /\
  Spec.piece_ok Spec.dim_official [Spec.row_official signals] /\
  Spec.piece_ok Spec.dim_url (Spec.rows_url signals) /\
  Spec.piece_ok Spec.dim_identifiers (Spec.rows_identifiers signals) /\
  Spec.piece_ok Spec.dim_text [Spec.row_text signals] /\
  Spec.piece_ok Spec.dim_social (Spec.rows_social signals) /\
  Spec.piece_ok Spec.dim_anomaly (Spec.rows_anomaly signals) /\
  Spec.piece_ok Spec.dim_contra (Spec.rows_contra signals).
Proof.
  unfold Spec.piece_ok, DocumentVerifier.why, Spec.row_baseline, Spec.row_registry, Spec.row_official,
    Spec.rows_url, Spec.rows_identifiers, Spec.row_text, Spec.rows_social,
    Spec.rows_anomaly, Spec.rows_contra.
  repeat split; by_cases;
    try destruct (Spec.valid_kinds_of signals);
    first [ reflexivity
          | cbn [List.length]; lia
          | repeat constructor; cbn; discriminate ].
Qed.

Ltac cover_pieces :=
  repeat match goal with
         | H : Spec.in_dim ?G ?P = true |- context [Spec.covers ?D ?P] =>
             first [ rewrite (covers_other G D P H eq_refl)
                   | rewrite (covers_own G P H) ]
         end.

(** C2 (amended): on every signals mapping of the collectors' shape the
    scorer returns the table of the weighted model in its evaluated order.
    The baseline, registry, official and text rows are always there, zero
    and negative ones included; the URL row is there exactly when there is
    a URL signal, the identifier row exactly when some identifier is
    pattern-valid, the social row exactly when there is a social signal,
    the anomaly row exactly when an anomaly is flagged and the contradiction
    row exactly when the contradiction score is at least 2.  Every row
    carries its justification text, and there are between 4 and 9 rows. *)
Theorem breakdown_rows_by_applicability signals :
  Spec.well_shaped signals = true ->
  exists total rows,
    score_from_signals signals = Ok (total, rows) /\
    rows = Spec.breakdown_table signals /\
    Spec.covers Spec.dim_baseline rows = true /\
    Spec.covers Spec.dim_registry rows = true /\
    Spec.covers Spec.dim_official rows = true /\
    Spec.covers Spec.dim_text rows = true /\
    Spec.covers Spec.dim_url rows = truthy (Spec.signal signals "url") /\
    Spec.covers Spec.dim_identifiers rows = Spec.has_valid_identifier signals /\
    Spec.covers Spec.dim_social rows = truthy (Spec.signal signals "social") /\
    Spec.covers Spec.dim_anomaly rows = Spec.anomaly_flagged signals /\
    Spec.covers Spec.dim_contra rows = Spec.contradicted signals /\
    Forall (fun r => why r <> "") rows /\
    (4 <= List.length rows <= 9)%nat.
Proof.
  intros W. rewrite (score_from_signals_table signals W).
  do 2 eexists. split; [reflexivity|]. split; [reflexivity|].
  destruct (pieces_ok signals)
    as ((I1 & L1 & F1) & (I2 & L2 & F2) & (I3 & L3 & F3) & (I4 & L4 & F4)
        & (I5 & L5 & F5) & (I6 & L6 & F6) & (I7 & L7 & F7) & (I8 & L8 & F8)
        & (I9 & L9 & F9)).
  pose proof (null_rows_url signals) as N4.
  pose proof (null_rows_identifiers signals) as N5.
  pose proof (null_rows_social signals) as N7.
  pose proof (null_rows_anomaly signals) as N8.
  pose proof (null_rows_contra signals) as N9.
  unfold Spec.breakdown_table.
  repeat split;
    try (rewrite !covers_app; cover_pieces;
         rewrite ?N4, ?N5, ?N7, ?N8, ?N9, ?negb_involutive;
         cbn [Spec.null negb orb]; rewrite ?orb_false_r; reflexivity).
  - repeat (apply Forall_app; split); assumption.
  - rewrite !length_app. cbn [List.length] in *. lia.
  - rewrite !length_app. cbn [List.length] in *. lia.
Qed.

(** The analysis in which nothing matched: four rows, none of them
    optional. *)
Lemma breakdown_rows_by_applicability_witness :
  exists total rows,
    score_from_signals Spec.nothing_matched = Ok (total, rows) /\
    rows = Spec.breakdown_table Spec.nothing_matched /\
    Spec.covers Spec.dim_text rows = true /\
    Spec.covers Spec.dim_social rows
      = truthy (Spec.signal Spec.nothing_matched "social").
Proof.
  destruct (breakdown_rows_by_applicability Spec.nothing_matched eq_refl)
    as (total & rows & E & T & _ & _ & _ & Ht & _ & _ & Hs & _).
  exists total, rows. repeat split; assumption.
Defined.

End ScorerFacts.

(** ** More on case mapping and trimming *)

Module StrMore.
Import RegexShape.

Lemma upper_char_idem c : Str.upper_char (Str.upper_char c) = Str.upper_char c.
Proof. destruct c as [[] [] [] [] [] [] [] []]; reflexivity. Qed.

Lemma lower_upper_char c : Str.lower_char (Str.upper_char c) = Str.lower_char c.
Proof. destruct c as [[] [] [] [] [] [] [] []]; reflexivity. Qed.

Lemma lower_char_idem c : Str.lower_char (Str.lower_char c) = Str.lower_char c.
Proof. destruct c as [[] [] [] [] [] [] [] []]; reflexivity. Qed.

Lemma is_space_lower_char c : Str.is_space (Str.lower_char c) = Str.is_space c.
Proof. destruct c as [[] [] [] [] [] [] [] []]; reflexivity. Qed.

Lemma map_map f g s : Str.map f (Str.map g s) = Str.map (fun c => f (g c)) s.
Proof. induction s as [|c s IH]; simpl; [reflexivity | now rewrite IH]. Qed.

Lemma map_ext f g s : (forall c, f c = g c) -> Str.map f s = Str.map g s.
Proof.
  intros H. induction s as [|c s IH]; simpl; [reflexivity | now rewrite H, IH].
Qed.

Lemma map_append f s1 s2 :
  Str.map f (s1 ++ s2) = (Str.map f s1 ++ Str.map f s2)%string.
Proof. induction s1 as [|c s1 IH]; simpl; [reflexivity | now rewrite IH]. Qed.

Lemma length_map f s : String.length (Str.map f s) = String.length s.
Proof. induction s as [|c s IH]; simpl; [reflexivity | now rewrite IH]. Qed.

Lemma forallb_map p f s :
  Str.forallb p (Str.map f s) = Str.forallb (fun c => p (f c)) s.
Proof. induction s as [|c s IH]; simpl; [reflexivity | now rewrite IH]. Qed.

Lemma forallb_impl (p q : ascii -> bool) s :
  (forall c, p c = true -> q c = true) ->
  Str.forallb p s = true -> Str.forallb q s = true.
Proof.
  intros H. induction s as [|c s IH]; simpl; [reflexivity|].
  intros E. apply andb_true_iff in E as [E1 E2]. now rewrite (H _ E1), IH.
Qed.

Lemma upper_idem s : Str.upper (Str.upper s) = Str.upper s.
Proof. unfold Str.upper. rewrite map_map. apply map_ext, upper_char_idem. Qed.

Lemma lower_upper s : Str.lower (Str.upper s) = Str.lower s.
Proof.
  unfold Str.lower, Str.upper. rewrite map_map. apply map_ext, lower_upper_char.
Qed.

Lemma lower_idem s : Str.lower (Str.lower s) = Str.lower s.
Proof. unfold Str.lower. rewrite map_map. apply map_ext, lower_char_idem. Qed.

Section Trim.
Variable f : ascii -> ascii.
Hypothesis f_space : forall c, Str.is_space (f c) = Str.is_space c.

Lemma map_lstrip s : Str.map f (Str.lstrip s) = Str.lstrip (Str.map f s).
Proof.
  induction s as [|c s IH]; simpl; [reflexivity|].
  rewrite f_space. destruct (Str.is_space c); [exact IH | reflexivity].
Qed.

Lemma map_rstrip s : Str.map f (Str.rstrip s) = Str.rstrip (Str.map f s).
Proof.
  induction s as [|c s IH]; simpl; [reflexivity|].
  rewrite <- IH, f_space.
  destruct (Str.rstrip s) as [|d t]; simpl.
  - destruct (Str.is_space c); reflexivity.
  - reflexivity.
Qed.

Lemma map_strip s : Str.map f (Str.strip s) = Str.strip (Str.map f s).
Proof. unfold Str.strip. now rewrite map_rstrip, map_lstrip. Qed.

End Trim.

Lemma starts_clean_lstrip s : starts_clean (Str.lstrip s) = true.
Proof.
  induction s as [|c s IH]; simpl; [reflexivity|].
  destruct (Str.is_space c) eqn:E; [exact IH|]. simpl. unfold not_space.
  now rewrite E.
Qed.

Lemma lstrip_fix s : starts_clean s = true -> Str.lstrip s = s.
Proof.
  destruct s as [|c s]; simpl; [reflexivity|]. unfold not_space.
  intros H. apply negb_true_iff in H. now rewrite H.
Qed.

Lemma ends_clean_rstrip s : ends_clean (Str.rstrip s) = true.
Proof.
  unfold ends_clean. destruct (Str.last (Str.rstrip s)) as [c|] eqn:E;
    [|reflexivity].
  apply StrFacts.last_rstrip in E. unfold not_space. now rewrite E.
Qed.

Lemma rstrip_fix s : ends_clean s = true -> Str.rstrip s = s.
Proof.
  unfold ends_clean. induction s as [|c s IH]; [reflexivity|].
  destruct s as [|d s].
  - simpl. unfold not_space. intros H. apply negb_true_iff in H. now rewrite H.
  - intros H. change (Str.last (String c (String d s))) with (Str.last (String d s)) in H.
    specialize (IH H).
    change (Str.rstrip (String c (String d s)))
      with (match Str.rstrip (String d s) with
            | EmptyString => if Str.is_space c then EmptyString
                             else String c EmptyString
            | t => String c t
            end).
    rewrite IH. reflexivity.
Qed.

Lemma starts_clean_rstrip s :
  starts_clean s = true -> starts_clean (Str.rstrip s) = true.
Proof.
  destruct s as [|c s]; [reflexivity|]. simpl. intros H.
  destruct (Str.rstrip s); [|exact H].
  unfold not_space in H. destruct (Str.is_space c) eqn:E; [discriminate H|].
  simpl. unfold not_space. now rewrite E.
Qed.

Lemma strip_idem s : Str.strip (Str.strip s) = Str.strip s.
Proof.
  unfold Str.strip.
  rewrite (lstrip_fix (Str.rstrip (Str.lstrip s))).
  - apply rstrip_fix, ends_clean_rstrip.
  - apply starts_clean_rstrip, starts_clean_lstrip.
Qed.

Lemma normalise_idem s : normalise (normalise s) = normalise s.
Proof.
  unfold normalise, Str.upper.
  rewrite <- (map_strip _ StrFacts.is_space_upper_char).
  rewrite strip_idem. apply upper_idem.
Qed.

(** A string without white space is its own trimming, also when a newline
    follows it. *)
Lemma strip_clean s :
  Str.forallb not_space s = true -> Str.strip s = s.
Proof.
  intros H. unfold Str.strip.
  assert (Hs : starts_clean s = true).
  { destruct s; [reflexivity|]. simpl in *. now apply andb_true_iff in H as [-> _]. }
  rewrite (lstrip_fix _ Hs). apply rstrip_fix. unfold ends_clean.
  clear Hs. induction s as [|c s IH]; [reflexivity|].
  simpl in H. apply andb_true_iff in H as [Hc H].
  destruct s as [|d s]; [exact Hc|]. apply IH, H.
Qed.

Lemma rstrip_clean_newline s :
  Str.forallb not_space s = true ->
  Str.rstrip (s ++ String Regex.newline "") = s.
Proof.
  induction s as [|c s IH]; [reflexivity|].
  simpl. intros H. apply andb_true_iff in H as [Hc H]. rewrite (IH H).
  destruct s; [|reflexivity].
  unfold not_space in Hc. apply negb_true_iff in Hc. now rewrite Hc.
Qed.

Lemma strip_clean_newline s :
  Str.forallb not_space s = true ->
  Str.strip (s ++ String Regex.newline "") = s.
Proof.
  intros H. unfold Str.strip. destruct s as [|c s]; [reflexivity|].
  assert (Hs : Str.lstrip (String c s ++ String Regex.newline "")
               = (String c s ++ String Regex.newline "")%string).
  { simpl in *. apply andb_true_iff in H as [Hc _].
    unfold not_space in Hc. apply negb_true_iff in Hc. now rewrite Hc. }
  rewrite Hs. now apply rstrip_clean_newline.
Qed.

End StrMore.

(** ** Shapes of the languages of patterns *)

Module ShapeFacts.
Import Regex RegexFacts RegexShape.

#[local] Hint Constructors Lang : core.

Lemma Lang_fixed_len r s : Lang r s -> forall n, fixed_len r = Some n ->
  String.length s = n.
Proof.
  induction 1 as [|p a Hp|r1 r2 s1 s2 H1 IH1 H2 IH2|r1 r2 s H IH|r1 r2 s H IH
                  |r|r s1 s2 H1 IH1 H2 IH2]; simpl; intros n E;
    try discriminate.
  - now inversion E.
  - now inversion E.
  - destruct (fixed_len r1) as [n1|]; [|discriminate].
    destruct (fixed_len r2) as [n2|]; [|discriminate].
    inversion E; subst. rewrite length_append. now rewrite (IH1 n1), (IH2 n2).
  - destruct (fixed_len r1) as [n1|]; [|discriminate].
    destruct (fixed_len r2) as [n2|]; [|discriminate].
    destruct (n1 =? n2)%nat; inversion E; subst. now apply IH.
  - destruct (fixed_len r1) as [n1|]; [|discriminate].
    destruct (fixed_len r2) as [n2|]; [|discriminate].
    destruct (Nat.eqb_spec n1 n2); inversion E; subst. now apply IH.
Qed.

Lemma Lang_within q r s : Lang r s -> within q r -> Str.forallb q s = true.
Proof.
  induction 1 as [|p a Hp|r1 r2 s1 s2 H1 IH1 H2 IH2|r1 r2 s H IH|r1 r2 s H IH
                  |r|r s1 s2 H1 IH1 H2 IH2]; simpl; intros W.
  - reflexivity.
  - now rewrite (W a Hp).
  - destruct W as [W1 W2]. now rewrite forallb_append, IH1, IH2.
  - now apply IH.
  - now apply IH.
  - reflexivity.
  - rewrite forallb_append, IH1 by exact W. now apply IH2.
Qed.

Lemma Lang_maps_into f r1 s : Lang r1 s -> forall r2, maps_into f r1 r2 ->
  Lang r2 (Str.map f s).
Proof.
  induction 1 as [|p a Hp|r1 r2 s1 s2 H1 IH1 H2 IH2|r1 r2 s H IH|r1 r2 s H IH
                  |r|r s1 s2 H1 IH1 H2 IH2]; intros r' M;
    destruct r'; simpl in M; try contradiction; simpl.
  - auto.
  - auto.
  - destruct M as [M1 M2]. rewrite StrMore.map_append. auto.
  - destruct M as [M1 _]. auto.
  - destruct M as [_ M2]. auto.
  - auto.
  - rewrite StrMore.map_append. constructor; [now apply IH1|].
    apply (IH2 (Star r')). exact M.
Qed.

Lemma Lang_upto_Cls p n : forall s,
  Lang (upto n (Cls p)) s <->
  (String.length s <= n)%nat /\ Str.forallb p s = true.
Proof.
  induction n as [|n IH]; intros s; simpl.
  - split.
    + intros H. apply Lang_Eps_inv in H as ->. auto.
    + intros [H _]. destruct s; [auto | simpl in H; lia].
  - unfold opt. split.
    + intros H. apply Lang_Alt_inv in H as [H|H].
      * apply Lang_Eps_inv in H as ->. simpl. split; [lia | reflexivity].
      * apply Lang_Cat_inv in H as (s1 & s2 & -> & H1 & H2).
        apply Lang_Cls_inv in H1 as (a & -> & Ha).
        apply IH in H2 as [Hl Hf]. simpl. rewrite Ha, Hf. split; [lia | reflexivity].
    + intros [Hl Hf]. destruct s as [|a s]; [auto|].
      simpl in Hl, Hf. apply andb_true_iff in Hf as [Ha Hf].
      apply LAltR. change (String a s) with (String a "" ++ s)%string.
      constructor; [auto|]. apply IH. split; [lia | assumption].
Qed.

(** Splitting a string at a position. *)
Lemma split_at (n : nat) : forall s, (n <= String.length s)%nat ->
  exists s1 s2, s = (s1 ++ s2)%string /\ String.length s1 = n.
Proof.
  induction n as [|n IH]; intros s H.
  - exists ""%string, s. auto.
  - destruct s as [|a s]; [simpl in H; lia|]. simpl in H.
    destruct (IH s) as (s1 & s2 & -> & L); [lia|].
    exists (String a s1), s2. simpl. auto.
Qed.

(** [c{m,n}] for a character class: between [m] and [n] characters of it. *)
Lemma Lang_between_Cls p m n s : (m <= n)%nat ->
  (Lang (between m n (Cls p)) s <->
   (m <= String.length s <= n)%nat /\ Str.forallb p s = true).
Proof.
  intros Hmn. unfold between. split.
  - intros H. apply Lang_Cat_inv in H as (s1 & s2 & -> & H1 & H2).
    apply Lang_rep_Cls in H1 as [L1 F1]. apply Lang_upto_Cls in H2 as [L2 F2].
    rewrite length_append, forallb_append, F1, F2. split; [lia | reflexivity].
  - intros [[Hm Hn] Hf].
    destruct (split_at m s Hm) as (s1 & s2 & -> & L1).
    rewrite forallb_append in Hf. apply andb_true_iff in Hf as [F1 F2].
    rewrite length_append in Hn.
    constructor; [apply Lang_rep_Cls | apply Lang_upto_Cls]; split; auto. lia.
Qed.

Lemma Lang_lit w : forall s, Lang (lit w) s <-> s = w.
Proof.
  induction w as [|c w IH]; intros s; simpl.
  - split; [apply Lang_Eps_inv | intros ->; auto].
  - split.
    + intros H. apply Lang_Cat_inv in H as (s1 & s2 & -> & H1 & H2).
      apply Lang_Cls_inv in H1 as (a & -> & Ha). unfold chr in Ha.
      apply Ascii.eqb_eq in Ha. subst a. apply IH in H2. now subst.
    + intros ->. change (String c w) with (String c "" ++ w)%string.
      constructor; [|now apply IH]. constructor. apply Ascii.eqb_refl.
Qed.

Lemma Lang_Star_any s : Lang (Star any) s.
Proof.
  induction s as [|a s IH]; [auto|].
  change (String a s) with (String a "" ++ s)%string.
  constructor; [|exact IH]. now constructor.
Qed.

(** [re.search]: some substring is in the language. *)
Lemma search_spec r s :
  search r s = true <->
  exists pre mid post, s = (pre ++ mid ++ post)%string /\ Lang r mid.
Proof.
  unfold search. rewrite fullmatch_spec. split.
  - intros H. apply Lang_Cat_inv in H as (pre & rest & -> & _ & H).
    apply Lang_Cat_inv in H as (mid & post & -> & H & _). eauto.
  - intros (pre & mid & post & -> & H).
    constructor; [apply Lang_Star_any|]. constructor; [exact H|].
    apply Lang_Star_any.
Qed.

Lemma prefix_spec w : forall t,
  String.prefix w t = true <-> exists post, t = (w ++ post)%string.
Proof.
  induction w as [|c w IH]; intros t.
  - split; [intros _; exists t; reflexivity | destruct t; reflexivity].
  - destruct t as [|d t]; simpl.
    + split; [discriminate | intros [post H]; discriminate].
    + destruct (ascii_dec c d) as [->|Hn].
      * rewrite IH. split; intros [post H]; exists post.
        -- now subst.
        -- now inversion H.
      * split; [discriminate|]. intros [post H]. inversion H. congruence.
Qed.

(** [needle in hay] *)
Lemma contains_spec w : forall t,
  Str.contains w t = true <-> exists pre post, t = (pre ++ w ++ post)%string.
Proof.
  induction t as [|d t IH].
  - cbn [Str.contains]. rewrite orb_false_r, prefix_spec. split.
    + intros [post H]. exists ""%string, post. exact H.
    + intros (pre & post & H). destruct pre; [|discriminate].
      exists post. exact H.
  - cbn [Str.contains]. rewrite orb_true_iff, prefix_spec, IH. split.
    + intros [[post H]|(pre & post & H)].
      * exists ""%string, post. exact H.
      * exists (String d pre), post. simpl. now rewrite H.
    + intros (pre & post & H). destruct pre as [|e pre].
      * left. exists post. exact H.
      * right. simpl in H. inversion H. eauto.
Qed.

(** Searching for a literal is the substring test. *)
Lemma search_lit w t : search (lit w) t = Str.contains w t.
Proof.
  apply eq_true_iff_eq. rewrite search_spec, contains_spec. split.
  - intros (pre & mid & post & -> & H). apply Lang_lit in H. subst. eauto.
  - intros (pre & post & ->). exists pre, w, post. split; [reflexivity|].
    now apply Lang_lit.
Qed.

(** The anchored match: the whole string, or the whole string but a final
    newline. *)
Lemma match_anchored_spec r s :
  match_anchored r s = true <->
  Lang r s \/ exists body, s = (body ++ String newline "")%string /\ Lang r body.
Proof.
  unfold match_anchored. rewrite orb_true_iff, fullmatch_spec. split.
  - intros [H|H]; [auto|]. right.
    destruct (Str.last s) as [c|] eqn:E; [|discriminate].
    apply andb_true_iff in H as [Hc H]. apply Ascii.eqb_eq in Hc. subst c.
    exists (Str.init s). split; [now apply StrFacts.init_last|].
    now apply fullmatch_spec.
  - intros [H|(body & -> & H)]; [auto|]. right.
    rewrite StrFacts.last_snoc, StrFacts.init_snoc, Ascii.eqb_refl.
    now apply fullmatch_spec.
Qed.

End ShapeFacts.

(** ** The identifier grammars of both validator families *)

Module GrammarFacts.
Import Py Regex RegexFacts RegexShape ShapeFacts Grammar RegistryChecks.

#[local] Hint Constructors Lang : core.

Lemma take_class_spec n p : forall s rest,
  take_class n p s = Some rest <->
  exists s1, s = (s1 ++ rest)%string /\ String.length s1 = n /\
             Str.forallb p s1 = true.
Proof.
  induction n as [|n IH]; intros s rest; simpl.
  - split.
    + intros H. inversion H; subst. exists ""%string. auto.
    + intros (s1 & -> & L & _). destruct s1; [reflexivity | discriminate].
  - destruct s as [|a s].
    + split; [discriminate|]. intros (s1 & E & L & _).
      destruct s1; discriminate.
    + destruct (p a) eqn:Ea.
      * rewrite IH. split.
        -- intros (s1 & -> & L & F). exists (String a s1). simpl.
           rewrite Ea, F, L. auto.
        -- intros (s1 & E & L & F). destruct s1 as [|b s1]; [discriminate|].
           simpl in E, L, F. inversion E; subst.
           apply andb_true_iff in F as [_ F]. exists s1. auto.
      * split; [discriminate|]. intros (s1 & E & L & F).
        destruct s1 as [|b s1]; [discriminate|]. simpl in E, F.
        inversion E; subst. rewrite Ea in F. discriminate.
Qed.

Lemma in_segments_runs segs : forall s,
  in_segments segs s = true <-> Lang (runs segs) s.
Proof.
  induction segs as [|[n p] segs IH]; intros s; simpl.
  - split.
    + destruct s; [auto | discriminate].
    + intros H. apply Lang_Eps_inv in H as ->. reflexivity.
  - destruct (take_class n p s) as [rest|] eqn:E.
    + apply take_class_spec in E as (s1 & -> & L & F). rewrite IH. split.
      * intros H. constructor; [apply Lang_rep_Cls; auto | exact H].
      * intros H. apply Lang_Cat_inv in H as (t1 & t2 & E & H1 & H2).
        apply Lang_rep_Cls in H1 as [L1 F1].
        assert (t1 = s1 /\ t2 = rest) as [-> ->]; [|exact H2].
        clear - E L L1. revert t1 n L L1 E.
        induction s1 as [|a s1 IHs]; intros t1 n L L1 E; simpl in *; subst n.
        -- destruct t1; [auto | discriminate].
        -- destruct t1 as [|b t1]; [discriminate|]. simpl in *.
           inversion E; subst.
           destruct (IHs t1 (String.length s1) eq_refl) as [-> ->]; auto; lia.
    + split; [discriminate|]. intros H.
      apply Lang_Cat_inv in H as (t1 & t2 & -> & H1 & H2).
      apply Lang_rep_Cls in H1 as [L1 F1].
      assert (X : take_class n p (t1 ++ t2) = Some t2)
        by (apply take_class_spec; eauto).
      congruence.
Qed.

(** Two lists of runs that agree on the characters of [s]. *)
Lemma take_class_agree (good p q : ascii -> bool) n : forall s,
  (forall c, good c = true -> p c = q c) ->
  Str.forallb good s = true ->
  take_class n p s = take_class n q s /\
  forall rest, take_class n p s = Some rest -> Str.forallb good rest = true.
Proof.
  induction n as [|n IH]; intros s A G; simpl.
  - split; [reflexivity|]. intros rest H. now inversion H; subst.
  - destruct s as [|a s]; [split; [reflexivity | discriminate]|].
    simpl in G. apply andb_true_iff in G as [Ga G].
    rewrite <- (A a Ga). destruct (p a); [|split; [reflexivity | discriminate]].
    apply IH; assumption.
Qed.

Lemma in_segments_agree (good : ascii -> bool) segs1 segs2 :
  Forall2 (fun np mq => fst np = fst mq /\
                        forall c, good c = true -> snd np c = snd mq c)
          segs1 segs2 ->
  forall s, Str.forallb good s = true ->
  in_segments segs1 s = in_segments segs2 s.
Proof.
  induction 1 as [|[n p] [m q] l1 l2 [En A] _ IH]; intros s G; simpl.
  - reflexivity.
  - simpl in En, A. subst m.
    destruct (take_class_agree good p q n s A G) as [E R]. rewrite <- E.
    destruct (take_class n p s) as [rest|]; [|reflexivity].
    apply IH, R. reflexivity.
Qed.

Lemma not_lower_upper_char c : not_lower (Str.upper_char c) = true.
Proof. destruct c as [[] [] [] [] [] [] [] []]; reflexivity. Qed.

Lemma not_lower_normalise s : Str.forallb not_lower (normalise s) = true.
Proof.
  unfold normalise, Str.upper. rewrite StrMore.forallb_map.
  induction (Str.strip s) as [|c t IH]; simpl; [reflexivity|].
  now rewrite not_lower_upper_char, IH.
Qed.

Lemma Lang_Cls_rep1 p s : Lang (Cls p) s <-> Lang (rep 1 (Cls p)) s.
Proof.
  simpl. split.
  - intros H. rewrite <- (append_empty_r s). auto.
  - intros H. apply Lang_Cat_inv in H as (s1 & s2 & -> & H1 & H2).
    apply Lang_Eps_inv in H2 as ->. now rewrite append_empty_r.
Qed.

Lemma Lang_Cat_congr r1 r1' r2 r2' s :
  (forall t, Lang r1 t <-> Lang r1' t) -> (forall t, Lang r2 t <-> Lang r2' t) ->
  (Lang (Cat r1 r2) s <-> Lang (Cat r1' r2') s).
Proof.
  intros E1 E2. split; intros H;
    apply Lang_Cat_inv in H as (s1 & s2 & -> & H1 & H2);
    constructor; first [now apply E1 | now apply E2].
Qed.

Lemma validate_isin_lang s :
  validate_isin s
  = [("input", VStr (normalise s));
     ("pattern_valid", VBool (fullmatch ISIN_RE (normalise s)))].
Proof.
  unfold validate_isin, normalise. now rewrite StrFacts.match_anchored_trimmed.
Qed.

Lemma validate_cin_lang s :
  validate_cin s
  = [("input", VStr (normalise s));
     ("pattern_valid", VBool (fullmatch CIN_RE (normalise s)))].
Proof.
  unfold validate_cin, normalise. now rewrite StrFacts.match_anchored_trimmed.
Qed.

Lemma validate_sebi_id_lang s :
  validate_sebi_id s
  = [("input", VStr (normalise s));
     ("pattern_valid", VBool (fullmatch SEBI_ID_RE (normalise s)))].
Proof.
  unfold validate_sebi_id, normalise. now rewrite StrFacts.match_anchored_trimmed.
Qed.

Lemma forallb_true s : Str.forallb (fun _ => true) s = true.
Proof. induction s as [|c s IH]; simpl; auto. Qed.

Lemma fullmatch_ISIN_RE t :
  fullmatch ISIN_RE t = in_segments isin_segments t.
Proof.
  apply eq_true_iff_eq. rewrite fullmatch_spec.
  rewrite (in_segments_agree (fun _ => true) isin_segments
             [(2%nat, cls_upper false); (9%nat, cls_upper_digit false);
              (1%nat, Str.is_digit)]).
  - rewrite in_segments_runs. unfold ISIN_RE, runs, seq, digit. simpl fold_right.
    repeat (apply Lang_Cat_congr; intros); try reflexivity.
    apply Lang_Cls_rep1.
  - unfold isin_segments, cls_upper_digit, cls_upper, upper_or_digit.
    repeat constructor; simpl; intros c _; now rewrite ?orb_false_r.
  - apply forallb_true.
Qed.

Lemma fullmatch_CIN_RE t :
  Str.forallb not_lower t = true ->
  fullmatch CIN_RE t = in_segments cin_segments t.
Proof.
  intros G. apply eq_true_iff_eq. rewrite fullmatch_spec.
  rewrite (in_segments_agree not_lower cin_segments
             [(1%nat, cls_one_of true "LUAP"); (5%nat, Str.is_digit);
              (2%nat, cls_upper true); (4%nat, Str.is_digit);
              (3%nat, cls_upper true); (6%nat, Str.is_digit)]).
  - rewrite in_segments_runs. unfold CIN_RE, runs, seq, digit. simpl fold_right.
    repeat (apply Lang_Cat_congr; intros); try reflexivity.
    apply Lang_Cls_rep1.
  - unfold cin_segments.
    repeat constructor; cbn [fst snd]; intros c; try reflexivity;
      destruct c as [[] [] [] [] [] [] [] []]; intros H;
      first [reflexivity | discriminate H].
  - exact G.
Qed.

(** X1: each registry validator normalises its input once: validating the
    normalised string that it reports under [input] gives the same result,
    and for the LEI the same registry request. *)
Theorem validators_normalise_once (s : string) :
  validate_isin (normalise s) = validate_isin s /\
  validate_cin (normalise s) = validate_cin s /\
  validate_sebi_id (normalise s) = validate_sebi_id s /\
  (forall net, validate_lei (normalise s) net = validate_lei s net) /\
  lookup (validate_isin s) "input" = Some (VStr (normalise s)) /\
  lookup (validate_cin s) "input" = Some (VStr (normalise s)) /\
  lookup (validate_sebi_id s) "input" = Some (VStr (normalise s)) /\
  (forall net,
     lookup (Net.value (validate_lei s) net) "input" = Some (VStr (normalise s))).
Proof.
  pose proof (StrMore.normalise_idem s) as N. unfold normalise in N.
  unfold validate_isin, validate_cin, validate_sebi_id, validate_lei, normalise.
  rewrite !N. repeat split; try reflexivity.
  intros net.
  destruct (match_anchored LEI_RE (Str.upper (Str.strip s))); [|reflexivity].
  rewrite RegistryFacts.value_bind. unfold Net.http_get, Net.value at 2. simpl.
  destruct (net _) as [status json|e]; [|reflexivity].
  destruct (status =? 200)%Z; [|reflexivity].
  destruct json; reflexivity.
Qed.

(** X2: the ISIN validator answers with the normalised string and says
    whether it is exactly 2 uppercase letters, 9 uppercase letters or
    digits, and 1 digit. *)
Theorem validate_isin_exact (s : string) :
  validate_isin s
  = [("input", VStr (normalise s));
     ("pattern_valid", VBool (in_segments isin_segments (normalise s)))].
Proof. rewrite validate_isin_lang, fullmatch_ISIN_RE. reflexivity. Qed.

(** X3: on ASCII input the CIN validator answers with the normalised
    string and says whether it is exactly one of L, U, A, P, then 5 digits,
    2 uppercase letters, 4 digits, 3 uppercase letters and 6 digits; on such
    input the [IGNORECASE] flag of its pattern changes nothing, since the
    input is uppercased first. *)
Theorem validate_cin_exact (s : string) :
  Str.is_ascii s = true ->
  validate_cin s
  = [("input", VStr (normalise s));
     ("pattern_valid", VBool (in_segments cin_segments (normalise s)))].
Proof.
  intros _.
  rewrite validate_cin_lang, fullmatch_CIN_RE by apply not_lower_normalise.
  reflexivity.
Qed.

(** A lower-case CIN between blanks. *)
Lemma validate_cin_exact_witness :
  validate_cin " l12345mh2000plc123456 "
  = [("input", VStr "L12345MH2000PLC123456"); ("pattern_valid", VBool true)].
Proof.
  apply (validate_cin_exact " l12345mh2000plc123456 ").
  reflexivity.
Defined.

Lemma validate_sebi_id_shape (s : string) :
  validate_sebi_id s
  = [("input", VStr (normalise s));
     ("pattern_valid", VBool (sebi_loose (normalise s)))].
Proof.
  rewrite validate_sebi_id_lang. do 4 f_equal.
  apply eq_true_iff_eq. rewrite fullmatch_spec. unfold SEBI_ID_RE, sebi_loose.
  rewrite Lang_between_Cls by lia.
  rewrite !andb_true_iff, !Nat.leb_le.
  assert (E : forall t,
    Str.forallb (fun c => cls_upper_digit false c || Ascii.eqb c "-") t
    = Str.forallb (fun c => upper_or_digit c || Ascii.eqb c "-") t).
  { induction t as [|c t IH]; simpl; [reflexivity|]. rewrite IH.
    unfold cls_upper_digit, cls_upper, upper_or_digit. simpl.
    now rewrite orb_false_r. }
  rewrite E. tauto.
Qed.

(** X4: the loose advisor-id validator answers with the normalised string
    and says whether it is 4 to 20 characters, each an uppercase letter, a
    digit or a hyphen. *)
Theorem validate_sebi_id_exact (s : string) :
  validate_sebi_id s
  = [("input", VStr (normalise s));
     ("pattern_valid", VBool (sebi_loose (normalise s)))].
Proof. exact (validate_sebi_id_shape s). Qed.

End GrammarFacts.

(** ** The strict validators against the loose ones *)

Module StrictLoose.
Import Py Regex RegexFacts RegexShape ShapeFacts Grammar RegistryChecks.
Import VerifiersRest EntityCheck.

Ltac by_char :=
  let a := fresh "a" in
  let H := fresh "H" in
  intros a; destruct a as [[] [] [] [] [] [] [] []]; vm_compute; intros H;
  first [reflexivity | discriminate H].

Lemma alnum_not_space : forall a, alnum a = true -> not_space a = true.
Proof. by_char. Qed.

Lemma alnum_upper : forall a,
  alnum a = true -> upper_or_digit (Str.upper_char a) = true.
Proof. by_char. Qed.

Lemma within_impl (q q' : ascii -> bool) r :
  (forall a, q a = true -> q' a = true) -> within q r -> within q' r.
Proof.
  intros I. induction r; simpl; try tauto.
  intros W a Ha. apply I, W, Ha.
Qed.

Lemma within_rep q r n : within q r -> within q (rep n r).
Proof. intros W. induction n; simpl; auto. Qed.

Lemma maps_into_rep f r1 r2 n :
  maps_into f r1 r2 -> maps_into f (rep n r1) (rep n r2).
Proof. intros M. induction n; simpl; auto. Qed.

Lemma within_LEI : within alnum Verifiers.LEI_PATTERN.
Proof. split; apply within_rep; by_char. Qed.

Lemma within_ISIN : within alnum ISIN_PATTERN.
Proof.
  unfold ISIN_PATTERN, seq. simpl fold_right.
  repeat split; try apply within_rep; try exact I; by_char.
Qed.

Lemma within_CIN : within alnum CIN_PATTERN.
Proof.
  unfold CIN_PATTERN, seq. simpl fold_right.
  repeat split; try apply within_rep; try exact I; by_char.
Qed.

Lemma within_IA : within alnum SEBI_IA_PATTERN.
Proof.
  unfold SEBI_IA_PATTERN. simpl lit_i.
  repeat split; try apply within_rep; try exact I; by_char.
Qed.

Lemma within_RA : within alnum SEBI_RA_PATTERN.
Proof.
  unfold SEBI_RA_PATTERN. simpl lit_i.
  repeat split; try apply within_rep; try exact I; by_char.
Qed.

Lemma maps_ISIN : maps_into Str.upper_char ISIN_PATTERN ISIN_RE.
Proof.
  unfold ISIN_PATTERN, ISIN_RE, seq. simpl fold_right.
  repeat split; try apply maps_into_rep; by_char.
Qed.

Lemma maps_CIN : maps_into Str.upper_char CIN_PATTERN CIN_RE.
Proof.
  unfold CIN_PATTERN, CIN_RE, seq. simpl fold_right.
  repeat split; try apply maps_into_rep; by_char.
Qed.

(** What a strict pattern accepts is, but for a final newline, a string of
    letters and digits, and the registry validators normalise it to its
    uppercase form. *)
Lemma strict_body r text :
  within alnum r -> match_anchored r text = true ->
  exists body, Lang r body /\ Str.forallb alnum body = true /\
               normalise text = Str.upper body.
Proof.
  intros W H. apply match_anchored_spec in H as [H|(body & -> & H)].
  - exists text. pose proof (Lang_within _ _ _ H W) as A.
    split; [exact H|]. split; [exact A|]. unfold normalise.
    rewrite StrMore.strip_clean; [reflexivity|].
    exact (StrMore.forallb_impl _ _ _ alnum_not_space A).
  - exists body. pose proof (Lang_within _ _ _ H W) as A.
    split; [exact H|]. split; [exact A|]. unfold normalise.
    rewrite StrMore.strip_clean_newline; [reflexivity|].
    exact (StrMore.forallb_impl _ _ _ alnum_not_space A).
Qed.

Lemma upper_body_class body :
  Str.forallb alnum body = true ->
  Str.forallb upper_or_digit (Str.upper body) = true.
Proof.
  intros A. unfold Str.upper. rewrite StrMore.forallb_map.
  exact (StrMore.forallb_impl _ _ _ alnum_upper A).
Qed.

(** X5: whatever ASCII text a strict validator of [core/verifiers.py]
    accepts, the validator of the same kind in [core/registry_checks.py]
    reports as pattern-valid. *)
Theorem strict_validators_imply_loose (text : string) :
  Str.is_ascii text = true ->
  (Verifiers.valid_lei text = true ->
   forall net, Spec.pattern_valid (Net.value (validate_lei text) net)
               = Some (VBool true)) /\
  (valid_isin text = true ->
   Spec.pattern_valid (validate_isin text) = Some (VBool true)) /\
  (valid_cin text = true ->
   Spec.pattern_valid (validate_cin text) = Some (VBool true)) /\
  (valid_sebi_id text = true ->
   Spec.pattern_valid (validate_sebi_id text) = Some (VBool true)).
Proof.
  intros _. split; [|split; [|split]].
  - intros H net. rewrite RegistryFacts.validate_lei_pattern_valid.
    destruct (strict_body _ _ within_LEI H) as (body & L & A & N).
    assert (G : Spec.lei_ok text = true); [|now rewrite G].
    apply RegistryFacts.lei_ok_grammar. fold (normalise text). rewrite N.
    split.
    + unfold Str.upper. rewrite StrMore.length_map.
      exact (Lang_fixed_len _ _ L 20%nat eq_refl).
    + exact (upper_body_class _ A).
  - intros H. rewrite GrammarFacts.validate_isin_lang.
    destruct (strict_body _ _ within_ISIN H) as (body & L & A & N).
    rewrite N. unfold Spec.pattern_valid. cbn [lookup String.eqb Ascii.eqb Bool.eqb].
    do 2 f_equal. apply fullmatch_spec.
    exact (Lang_maps_into _ _ _ L _ maps_ISIN).
  - intros H. rewrite GrammarFacts.validate_cin_lang.
    destruct (strict_body _ _ within_CIN H) as (body & L & A & N).
    rewrite N. unfold Spec.pattern_valid. cbn [lookup String.eqb Ascii.eqb Bool.eqb].
    do 2 f_equal. apply fullmatch_spec.
    exact (Lang_maps_into _ _ _ L _ maps_CIN).
  - intros H. rewrite GrammarFacts.validate_sebi_id_shape.
    unfold Spec.pattern_valid. cbn [lookup String.eqb Ascii.eqb Bool.eqb].
    do 2 f_equal. unfold valid_sebi_id in H. apply orb_true_iff in H.
    assert (G : exists body n, (n = 8 \/ n = 9)%nat /\
                String.length body = n /\ Str.forallb alnum body = true /\
                normalise text = Str.upper body).
    { destruct H as [H|H].
      - destruct (strict_body _ _ within_IA H) as (body & L & A & N).
        exists body, 8%nat. repeat split; auto.
        exact (Lang_fixed_len _ _ L 8%nat eq_refl).
      - destruct (strict_body _ _ within_RA H) as (body & L & A & N).
        exists body, 9%nat. repeat split; auto.
        exact (Lang_fixed_len _ _ L 9%nat eq_refl). }
    destruct G as (body & n & Hn & Ln & A & N). rewrite N.
    unfold sebi_loose, Str.upper. rewrite StrMore.length_map, Ln.
    rewrite StrMore.forallb_map.
    rewrite (StrMore.forallb_impl alnum _ body); [|intros a Ha|exact A].
    + destruct Hn; subst n; reflexivity.
    + now rewrite (alnum_upper a Ha).
Qed.

Lemma strict_validators_imply_loose_witness :
  Spec.pattern_valid (validate_isin "INE002A01018") = Some (VBool true).
Proof.
  apply (proj1 (proj2 (strict_validators_imply_loose "INE002A01018" eq_refl))).
  reflexivity.
Defined.

(** The converse fails: the loose validators take a padded lower-case ISIN
    and an advisor id with more digits, the strict ones do not. *)
Lemma loose_is_wider :
  Spec.pattern_valid (validate_isin " ine002a01018 ") = Some (VBool true) /\
  valid_isin " ine002a01018 " = false /\
  Spec.pattern_valid (validate_sebi_id "INA000012345") = Some (VBool true) /\
  valid_sebi_id "INA000012345" = false.
Proof. repeat split; reflexivity. Qed.





End StrictLoose.

(** ** More on the hype scorers *)

Module HypeFacts.
Import Regex RegexFacts ShapeFacts FraudDetection.

Lemma lower_append s1 s2 :
  Str.lower (s1 ++ s2) = (Str.lower s1 ++ Str.lower s2)%string.
Proof. apply StrMore.map_append. Qed.

Lemma filter_length_mono {A} (f g : A -> bool) (l : list A) :
  (forall x, In x l -> f x = true -> g x = true) ->
  (List.length (filter f l) <= List.length (filter g l))%nat.
Proof.
  induction l as [|x l IH]; intros H; simpl; [lia|].
  assert (IH' : (List.length (filter f l) <= List.length (filter g l))%nat).
  { apply IH. intros y Hy. apply H. now right. }
  destruct (f x) eqn:Ef.
  - rewrite (H x (or_introl eq_refl) Ef). simpl. lia.
  - destruct (g x); simpl; lia.
Qed.

Lemma filter_length_pos {A} (f : A -> bool) (l : list A) (x : A) :
  In x l -> f x = true -> (1 <= List.length (filter f l))%nat.
Proof.
  induction l as [|y l IH]; simpl; [contradiction|].
  intros [->|Hin] Hf.
  - rewrite Hf. simpl. lia.
  - destruct (f y); simpl; [lia | now apply IH].
Qed.

(** What is found in a text is found in any text around it. *)
Lemma search_extend r pre s post :
  search r s = true -> search r (pre ++ s ++ post) = true.
Proof.
  rewrite !search_spec. intros (a & mid & b & -> & H).
  exists (pre ++ a)%string, mid, (b ++ post)%string. split; [|exact H].
  now rewrite !append_assoc.
Qed.

Lemma hype_score_tens (text : string) :
  exists k, 0 <= k <= 9 /\ hype_score text = 10 * k /\ hype_score text < 100.
Proof.
  exists (Spec.matching_patterns text).
  pose proof (FraudFacts.matching_patterns_bounds text) as B.
  rewrite FraudFacts.hype_score_count. split; [exact B|]. lia.
Qed.

(** X7: the hype score is a multiple of 10 between 0 and 90: with nine
    patterns the cap at 100 is never reached. *)
Theorem hype_score_below_cap (text : string) :
  exists k, 0 <= k <= 9 /\ hype_score text = 10 * k /\ hype_score text < 100.
Proof. exact (hype_score_tens text). Qed.

(** X8: the verdict tiers of [tip_verdict]: "low" only with score 0 and no
    contradiction flag, "medium" only with score 10 or 20 and no flag,
    "high" with a score from 70 to 90; there is no other risk label. *)
Theorem tip_verdict_tiers (text : string) (flag : bool) :
  let v := tip_verdict text flag in
  (risk v = "low" /\ score v = 0 /\ flag = false) \/
  (risk v = "medium" /\ (score v = 10 \/ score v = 20) /\ flag = false) \/
  (risk v = "high" /\ 70 <= score v <= 90 /\ (30 <= hype_score text \/ flag = true)).
Proof.
  destruct (hype_score_tens text) as (k & Hk & E & _).
  cbv zeta. unfold tip_verdict. rewrite E.
  destruct (Z.leb_spec 30 (10 * k)) as [H30|H30]; cbn [orb].
  - right. right. cbn [risk score]. split; [reflexivity|]. split; [lia | left; lia].
  - destruct flag; cbn [orb].
    + right. right. cbn [risk score]. split; [reflexivity|]. split; [lia | now right].
    + destruct (Z.leb_spec 10 (10 * k)) as [H10|H10]; cbn [risk score].
      * right. left. split; [reflexivity|]. split; [lia | reflexivity].
      * left. split; [reflexivity|]. split; [lia | reflexivity].
Qed.

(** X9: the hype score of an ASCII text does not depend on its letter
    case. *)
Theorem hype_score_case_insensitive (text : string) :
  Str.is_ascii text = true ->
  hype_score (Str.upper text) = hype_score text /\
  hype_score (Str.lower text) = hype_score text.
Proof.
  intros _. unfold hype_score. now rewrite StrMore.lower_upper, StrMore.lower_idem.
Qed.

Lemma hype_score_case_insensitive_witness :
  hype_score (Str.upper "Sure Shot, pump it") = hype_score "Sure Shot, pump it" /\
  hype_score (Str.lower "Sure Shot, pump it") = hype_score "Sure Shot, pump it".
Proof.
  apply (hype_score_case_insensitive "Sure Shot, pump it").
  reflexivity.
Defined.

(** X10: text around a tip never lowers its hype score, and never turns a
    "high" verdict into a lower one. *)
Theorem hype_score_monotone (pre text post : string) :
  hype_score text <= hype_score (pre ++ text ++ post) /\
  forall flag,
    risk (tip_verdict text flag) = "high" ->
    risk (tip_verdict (pre ++ text ++ post) flag) = "high".
Proof.
  assert (M : hype_score text <= hype_score (pre ++ text ++ post)).
  { rewrite !FraudFacts.hype_score_count. unfold Spec.matching_patterns.
    apply Z.min_le_compat_l, Z.mul_le_mono_nonneg_l; [lia|].
    apply inj_le, filter_length_mono. intros w _ H.
    rewrite !lower_append. now apply search_extend. }
  split; [exact M|]. intros flag. unfold tip_verdict.
  destruct (Z.leb_spec 30 (hype_score text)) as [H|H]; cbn [orb].
  - intros _. destruct (Z.leb_spec 30 (hype_score (pre ++ text ++ post)));
      [reflexivity | lia].
  - destruct flag; cbn [orb].
    + intros _. now rewrite orb_true_r.
    + destruct (10 <=? hype_score text); cbn; discriminate.
Qed.

(** "BUY NOW" then a hyped tip then a sign-off. *)
Lemma hype_score_monotone_witness :
  risk (tip_verdict ("BUY NOW: " ++ "guaranteed multibagger target 500"
                     ++ " - join us") false) = "high".
Proof.
  apply (proj2 (hype_score_monotone "BUY NOW: "
                  "guaranteed multibagger target 500" " - join us")).
  reflexivity.
Defined.

(** X11: the two hype detectors agree on their four shared phrases: a text
    that [verify_text_hype] calls high-risk either scores at least 10 with
    [hype_score] or owes the verdict to "100% return" or "assured", which
    [HYPE_WORDS] does not have. *)
Theorem verify_text_hype_against_hype_score (text : string) :
  TextHype.verdict (TextHype.verify_text_hype text) = "high-risk" ->
  10 <= hype_score text \/
  Str.contains "100% return" (Str.lower text) = true \/
  Str.contains "assured" (Str.lower text) = true.
Proof.
  unfold TextHype.verify_text_hype.
  destruct (existsb _ TextHype.hype_phrases) eqn:E; [|discriminate].
  intros _. unfold TextHype.hype_phrases in E. cbn [existsb] in E.
  assert (P : forall w, In (lit w) HYPE_WORDS ->
                Str.contains w (Str.lower text) = true ->
                10 <= hype_score text).
  { intros w Hin Hc. rewrite <- search_lit in Hc.
    rewrite FraudFacts.hype_score_count. unfold Spec.matching_patterns.
    pose proof (filter_length_pos
                  (fun w => search w (Str.lower text)) HYPE_WORDS (lit w) Hin Hc).
    pose proof (FraudFacts.matching_patterns_bounds text) as B.
    unfold Spec.matching_patterns in B. lia. }
  repeat (apply orb_true_iff in E as [E|E]);
    try discriminate E; auto;
    left; (eapply P; [|exact E]); unfold HYPE_WORDS; simpl; tauto.
Qed.

(** A text with a shared phrase, and one with "assured" only. *)
Lemma verify_text_hype_against_hype_score_witness :
  10 <= hype_score "Sure Shot returns, assured!" \/
  Str.contains "100% return" (Str.lower "Sure Shot returns, assured!") = true \/
  Str.contains "assured" (Str.lower "Sure Shot returns, assured!") = true.
Proof.
  apply verify_text_hype_against_hype_score. reflexivity.
Defined.

End HypeFacts.

(** ** More on the indicators and the anomaly detector *)

Module IndicatorFacts.
Import Py Np MarketContra.

Local Open Scope Q_scope.

Lemma Qltb_lt x y : Qltb x y = true <-> x < y.
Proof.
  unfold Qltb. rewrite Qlt_alt. destruct (x ?= y); split; congruence.
Qed.







Lemma nondecreasing_diff data :
  PriceSeries.nondecreasing data -> Forall (fun d => 0 <= d) (diff data).
Proof.
  induction data as [|x [|y rest] IH]; intros H; try constructor.
  - destruct H as [H _]. lra.
  - apply IH. apply H.
Qed.

Lemma filter_none {A} (f : A -> bool) l :
  Forall (fun x => f x = false) l -> filter f l = [].
Proof.
  induction 1 as [|x l Hx _ IH]; simpl; [reflexivity|]. now rewrite Hx.
Qed.

(** X13: on a series that never falls, with at least 15 points, [compute_rsi]
    is 0: the branch that guards the zero denominator takes the strength
    ratio as 0, so a market without a single down-move reads as RSI 0, not
    100. *)
Theorem compute_rsi_without_down_moves (data : list Q) :
  (15 <= List.length data)%nat -> PriceSeries.nondecreasing data ->
  compute_rsi data 14 == 0.
Proof.
  intros L H. destruct (ContraFacts.compute_rsi_fallback data) as [_ E].
  rewrite (E L). cbv zeta.
  assert (F : filter (fun d => Qltb d 0) (firstn 14 (diff data)) = []).
  { apply filter_none. apply Forall_forall. intros d Hd.
    assert (Hd' : In d (diff data)).
    { rewrite <- (firstn_skipn 14 (diff data)). apply in_or_app. now left. }
    clear Hd. rename Hd' into Hd.
    pose proof (nondecreasing_diff data H) as N.
    rewrite Forall_forall in N. specialize (N d Hd).
    destruct (Qltb d 0) eqn:X; [|reflexivity].
    apply Qltb_lt in X. lra. }
  rewrite F. reflexivity.
Qed.

(** Fifteen closes rising by one a day. *)
Lemma compute_rsi_without_down_moves_witness :
  compute_rsi (List.map inject_Z
                 [1; 2; 3; 4; 5; 6; 7; 8; 9; 10; 11; 12; 13; 14; 15]%Z) 14 == 0.
Proof.
  apply compute_rsi_without_down_moves.
  - simpl. lia.
  - simpl. repeat split; vm_compute; discriminate.
Defined.

Lemma Ok_inj {A} (a b : A) : Ok a = Ok b -> a = b.
Proof. intros H. now injection H. Qed.

Lemma last_item_map_seq (f : nat -> Q) (n : nat) :
  last_item (List.map f (List.seq 0 (S n))) = Ok (f n).
Proof.
  unfold last_item. rewrite seq_S, map_app, rev_app_distr. reflexivity.
Qed.

(** X14: the [ma20] that [contradiction_score] reports is always the mean of
    the last 20 closes, or of all of them when there are fewer: the windowed
    branch and the fallback agree where they meet. *)
Theorem ma20_is_mean_of_last_closes (p : Q) (ps : list Q) (t : string) :
  exists c, contradiction_score (p :: ps) t = Ok c /\
            ma20 c = mean (skipn (List.length (p :: ps) - 20) (p :: ps)).
Proof.
  destruct (ContraFacts.contradiction_score_shape p ps t) as (m & lp & Hm & _ & E).
  rewrite E. eexists. split; [reflexivity|]. cbn [ma20].
  destruct (Nat.leb_spec 20 (List.length (p :: ps))) as [H|H].
  - unfold moving_average in Hm. apply Nat.leb_le in H as H'. rewrite H' in Hm.
    cbn [bind] in Hm.
    replace (List.length (p :: ps) - 20 + 1)%nat
      with (S (List.length (p :: ps) - 20)) in Hm by lia.
    rewrite last_item_map_seq in Hm. apply Ok_inj in Hm. subst m. unfold mean.
    assert (Lk : List.length (skipn (List.length (p :: ps) - 20) (p :: ps)) = 20%nat)
      by (rewrite length_skipn; lia).
    rewrite Lk. rewrite firstn_all2 by lia. reflexivity.
  - apply Ok_inj in Hm. subst m.
    replace (List.length (p :: ps) - 20)%nat with 0%nat by lia.
    reflexivity.
Qed.

End IndicatorFacts.

Module AnomalyMore.
Import AnomalyDetector Filings.

Local Open Scope Q_scope.

Lemma Qnat_succ n : Np.Qnat (S n) == Np.Qnat n + 1.
Proof.
  unfold Np.Qnat. rewrite Nat2Z.inj_succ. unfold Z.succ.
  now rewrite inject_Z_plus.
Qed.

Lemma Qnat_pos n : 0 < Np.Qnat (S n).
Proof.
  unfold Np.Qnat. change 0 with (inject_Z 0). rewrite <- Zlt_Qlt. lia.
Qed.

Lemma fold_Qplus_const (c : Q) (l : list Q) : forall a,
  Forall (fun x => x == c) l ->
  fold_left Qplus l a == a + c * Np.Qnat (List.length l).
Proof.
  induction l as [|x l IH]; intros a H; cbn [fold_left List.length].
  - unfold Np.Qnat. cbn. ring.
  - inversion H as [|? ? Hx Hl]; subst. rewrite (IH _ Hl), Qnat_succ, Hx. ring.
Qed.

(** The mean of equal values is their value. *)
Lemma mean_const (c : Q) (l : list Q) :
  l <> [] -> Forall (fun x => x == c) l -> Np.mean l == c.
Proof.
  intros N H. unfold Np.mean, Np.qsum. rewrite (fold_Qplus_const c l 0 H).
  destruct l as [|x l]; [contradiction|]. cbn [List.length].
  pose proof (Qnat_pos (List.length l)). field. lra.
Qed.

Lemma Forall_removelast {A} (P : A -> Prop) (l : list A) :
  Forall P l -> Forall P (removelast l).
Proof.
  induction 1 as [|x l Hx Hl IH]; [constructor|].
  destruct l as [|y l]; [constructor|].
  change (removelast (x :: y :: l)) with (x :: removelast (y :: l)).
  constructor; assumption.
Qed.

Lemma Forall_last {A} (P : A -> Prop) (l : list A) (d : A) :
  l <> [] -> Forall P l -> P (List.last l d).
Proof.
  induction l as [|x l IH]; intros N H; [contradiction|].
  inversion H as [|? ? Hx Hl]; subst.
  destruct l as [|y l]; [exact Hx|].
  change (List.last (x :: y :: l) d) with (List.last (y :: l) d).
  apply IH; [discriminate | exact Hl].
Qed.

Lemma Qltb_false a b : b <= a -> Py.Qltb a b = false.
Proof.
  intros H. destruct (Py.Qltb a b) eqn:E; [|reflexivity].
  apply IndicatorFacts.Qltb_lt in E. lra.
Qed.

(** X15: a figure that has not changed is never anomalous: when all the
    usable observations of a series are equal, the latest one included, the
    detector with its default threshold does not flag it, however many
    observations there are and whether or not nulls stand among them. *)
Theorem unchanged_figure_is_not_anomalous (series : list (option Q)) (c : Q) :
  Forall (fun x => x == c) (dropna series) ->
  anomaly_of (detect_numeric_anomalies series default_threshold) = false.
Proof.
  intros H. unfold detect_numeric_anomalies.
  destruct (Nat.ltb_spec (List.length (dropna series)) 2) as [L|L]; [reflexivity|].
  cbn [anomaly_of].
  assert (N : dropna series <> []) by (intros E; rewrite E in L; cbn in L; lia).
  assert (N' : removelast (dropna series) <> []).
  { destruct (dropna series) as [|x [|y l]]; cbn in L; try lia. discriminate. }
  pose proof (mean_const c _ N' (Forall_removelast _ _ H)) as M.
  pose proof (Forall_last _ _ 0 N H) as La. cbv beta in La.
  apply Qltb_false.
  destruct (Qeq_bool (Np.mean (removelast (dropna series))) 0) eqn:E; cbn [negb].
  - unfold default_threshold. cbn. discriminate.
  - apply Qeq_bool_neq in E.
    assert (D : (List.last (dropna series) 0 - Np.mean (removelast (dropna series)))
                / Np.mean (removelast (dropna series)) == 0).
    { rewrite La, M. field. rewrite <- M. exact E. }
    rewrite D. unfold default_threshold. cbn. discriminate.
Qed.

(** Revenue 100 in three filings, one of them after a null. *)
Lemma unchanged_figure_is_not_anomalous_witness :
  anomaly_of (detect_numeric_anomalies
                [Some (100 # 1); None; Some (200 # 2); Some (100 # 1)]
                default_threshold) = false.
Proof.
  apply (unchanged_figure_is_not_anomalous
           [Some (100 # 1); None; Some (200 # 2); Some (100 # 1)] (100 # 1)).
  repeat constructor.
Defined.

Lemma compare_filing_unfold new_filing historical :
  compare_filing new_filing historical =
  (match entry new_filing "revenue" with
   | Some v => [("revenue", detect_numeric_anomalies
                              (history historical "revenue" ++ [v]) default_threshold)]
   | None => []
   end ++
   match entry new_filing "profit" with
   | Some v => [("profit", detect_numeric_anomalies
                             (history historical "profit" ++ [v]) default_threshold)]
   | None => []
   end ++
   match entry new_filing "eps" with
   | Some v => [("eps", detect_numeric_anomalies
                          (history historical "eps" ++ [v]) default_threshold)]
   | None => []
   end)%list.
Proof.
  unfold compare_filing, fields. cbn [fold_left].
  destruct (entry new_filing "revenue"), (entry new_filing "profit"),
    (entry new_filing "eps"); reflexivity.
Qed.

(** X16: with no history at all no field of a filing is anomalous, and the
    answer has a report for exactly those of revenue, profit and eps that
    the filing carries, in that order. *)
Theorem first_filing_is_never_anomalous (new_filing : filing) :
  Forall (fun kr => anomaly_of (snd kr) = false) (compare_filing new_filing []) /\
  List.map fst (compare_filing new_filing [])
  = filter (fun k => match entry new_filing k with Some _ => true | None => false end)
           fields.
Proof.
  rewrite compare_filing_unfold. unfold fields. cbn [history app filter].
  destruct (entry new_filing "revenue") as [[r|]|],
           (entry new_filing "profit") as [[p|]|],
           (entry new_filing "eps") as [[e|]|];
    split; cbn; repeat constructor.
Qed.

Lemma history_app h1 h2 key :
  history (h1 ++ h2) key = (history h1 key ++ history h2 key)%list.
Proof.
  induction h1 as [|h h1 IH]; simpl; [reflexivity|].
  destruct (get h key); simpl; now rewrite IH.
Qed.

(** X17: a historical record in which revenue, profit and eps are all
    missing or null changes nothing in the comparison. *)
Theorem blank_record_is_ignored
  (new_filing h : filing) (before after : list filing) :
  Forall (fun k => get h k = None) fields ->
  compare_filing new_filing (before ++ h :: after)
  = compare_filing new_filing (before ++ after).
Proof.
  intros B. inversion B as [|? ? B1 B']; subst.
  inversion B' as [|? ? B2 B'']; subst. inversion B'' as [|? ? B3 _]; subst.
  rewrite !compare_filing_unfold, !history_app. cbn [history].
  now rewrite B1, B2, B3.
Qed.

(** A record that only carries a date-like field. *)
Lemma blank_record_is_ignored_witness :
  compare_filing [("revenue", Some (150 # 1))]
                 ([[("revenue", Some (100 # 1))]]
                  ++ [("quarter", Some (3 # 1)); ("profit", None)]
                  :: [[("revenue", Some (104 # 1))]])
  = compare_filing [("revenue", Some (150 # 1))]
                   ([[("revenue", Some (100 # 1))]]
                    ++ [[("revenue", Some (104 # 1))]]).
Proof.
  apply blank_record_is_ignored. repeat constructor.
Defined.

End AnomalyMore.

(** ** More on the official-source helpers *)

Module SourceFacts.
Import Py Helpers Sources.

Lemma mem_str_In x l : mem_str x l = true <-> In x l.
Proof.
  unfold mem_str. rewrite existsb_exists. split.
  - intros (y & Hy & E). apply String.eqb_eq in E. now subst.
  - intros H. exists x. split; [exact H | apply String.eqb_refl].
Qed.

Lemma add_regulators_inv domain rs : forall acc,
  inv acc ->
  inv (add_regulators domain rs acc) /\
  (forall u, In u (urls (fst (add_regulators domain rs acc))) <->
             In u (urls (fst acc)) \/ exists r, In r rs /\ reg_url r = u) /\
  (forall h, In h (fst (add_regulators domain rs acc)) ->
             In h (fst acc) \/
             exists r, In r rs /\
               h = {| sg_domain := domain; sg_name := reg_name r;
                      sg_url := reg_url r |}).
Proof.
  unfold add_regulators.
  induction rs as [|r rs IH]; intros [hits seen] I; cbn [fold_left].
  - split; [exact I|]. split.
    + intros u. split; [auto | intros [H|(r & [] & _)]; exact H].
    + auto.
  - destruct I as [S N]. cbn [fst snd] in S, N.
    destruct (mem_str (reg_url r) seen) eqn:E; cbn [negb].
    + destruct (IH (hits, seen)) as (I' & U & H); [split; assumption|].
      split; [exact I'|]. split.
      * intros u. rewrite U. cbn [fst]. split.
        -- intros [X|(r' & Hr & Eu)]; [auto | right; exists r'; split; [now right | exact Eu]].
        -- intros [X|(r' & [->|Hr] & Eu)]; [auto | | right; eauto].
           left. subst u. apply S. now apply mem_str_In.
      * intros h Hh. destruct (H h Hh) as [X|(r' & Hr & Eh)]; [auto|].
        right. exists r'. split; [now right | exact Eh].
    + set (sg := {| sg_domain := domain; sg_name := reg_name r; sg_url := reg_url r |}).
      assert (Hn : ~ In (reg_url r) (urls hits)).
      { intros X. apply S in X. apply mem_str_In in X. cbn [snd] in X. congruence. }
      destruct (IH ((hits ++ [sg])%list, reg_url r :: seen)) as (I' & U & H).
      { split; cbn [fst snd]; unfold urls; rewrite map_app; cbn [List.map].
        - intros u. rewrite in_app_iff. cbn [In]. fold (urls hits).
          rewrite <- S. cbn [snd]. tauto.
        - apply NoDup_app; [exact N | constructor; [intros [] | constructor] |].
          intros u Hu [<-|[]]. exact (Hn Hu). }
      split; [exact I'|]. split.
      * intros u. rewrite U. cbn [fst]. unfold urls at 1. rewrite map_app, in_app_iff.
        cbn [List.map In sg_url sg]. fold (urls hits). split.
        -- intros [[X|[X|[]]]|(r' & Hr & Eu)]; [auto | | right; exists r'; split; [now right | exact Eu]].
           right. exists r. split; [now left | exact X].
        -- intros [X|(r' & [->|Hr] & Eu)]; [auto | auto | right; eauto].
      * intros h Hh. destruct (H h Hh) as [X|(r' & Hr & Eh)].
        -- cbn [fst] in X. apply in_app_iff in X as [X|[<-|[]]]; [auto|].
           right. exists r. split; [now left | reflexivity].
        -- right. exists r'. split; [now right | exact Eh].
Qed.

Lemma suggest_fold_inv text rm : forall acc,
  inv acc ->
  let out := fold_left
               (fun acc '(domain, cfg) =>
                  if existsb (fun k => Str.contains (Str.lower k) (Str.lower text))
                             (keywords cfg)
                  then add_regulators domain (regulators cfg) acc
                  else acc) rm acc in
  inv out /\
  (forall u, In u (urls (fst out)) <->
             In u (urls (fst acc)) \/
             exists domain cfg r, In (domain, cfg) rm /\ triggered cfg text = true /\
                                  In r (regulators cfg) /\ reg_url r = u) /\
  (forall h, In h (fst out) ->
             In h (fst acc) \/
             exists cfg r, In (sg_domain h, cfg) rm /\ triggered cfg text = true /\
                           In r (regulators cfg) /\
                           sg_name h = reg_name r /\ sg_url h = reg_url r).
Proof.
  induction rm as [|[domain cfg] rm IH]; intros acc I; cbn [fold_left].
  - split; [exact I|]. split.
    + intros u. split; [auto | intros [H|(? & ? & ? & [] & _)]; exact H].
    + auto.
  - fold (triggered cfg text). destruct (triggered cfg text) eqn:T.
    + destruct (add_regulators_inv domain (regulators cfg) acc I) as (I1 & U1 & H1).
      destruct (IH _ I1) as (I2 & U2 & H2). cbv zeta in *.
      split; [exact I2|]. split.
      * intros u. rewrite U2, U1. split.
        -- intros [[X|(r & Hr & Eu)]|(d' & c' & r & Hin & Ht & Hr & Eu)]; [auto | |].
           ++ right. exists domain, cfg, r. cbn [In]. auto.
           ++ right. exists d', c', r. cbn [In]. auto.
        -- intros [X|(d' & c' & r & [Hin|Hin] & Ht & Hr & Eu)]; [auto | |].
           ++ inversion Hin; subst. left. right. eauto.
           ++ right. eauto 8.
      * intros h Hh. destruct (H2 h Hh) as [X|(c' & r & Hin & Ht & Hr & En & Eu)].
        -- destruct (H1 h X) as [Y|(r & Hr & ->)]; [auto|].
           right. exists cfg, r. cbn. auto.
        -- right. exists c', r. cbn [In]. auto.
    + destruct (IH _ I) as (I2 & U2 & H2). cbv zeta in *.
      split; [exact I2|]. split.
      * intros u. rewrite U2. split.
        -- intros [X|(d' & c' & r & Hin & Ht & Hr & Eu)]; [auto|].
           right. exists d', c', r. cbn [In]. auto.
        -- intros [X|(d' & c' & r & [Hin|Hin] & Ht & Hr & Eu)]; [auto | |].
           ++ inversion Hin; subst. congruence.
           ++ right. eauto 8.
      * intros h Hh. destruct (H2 h Hh) as [X|(c' & r & Hin & Ht & Hr & En & Eu)];
          [auto|]. right. exists c', r. cbn [In]. auto.
Qed.

(** X18: the suggested official sources carry no URL twice; a URL is
    suggested exactly when it is the URL of a regulator of a domain one of
    whose keywords occurs in the text, case ignored; and every suggestion
    names such a regulator and its domain. *)
Theorem suggest_official_sources_exact (rm : regulator_map) (text : string) :
  NoDup (List.map sg_url (suggest_official_sources rm text)) /\
  (forall u, In u (List.map sg_url (suggest_official_sources rm text)) <->
             exists domain cfg r, In (domain, cfg) rm /\ triggered cfg text = true /\
                                  In r (regulators cfg) /\ reg_url r = u) /\
  (forall h, In h (suggest_official_sources rm text) ->
             exists cfg r, In (sg_domain h, cfg) rm /\ triggered cfg text = true /\
                           In r (regulators cfg) /\
                           sg_name h = reg_name r /\ sg_url h = reg_url r).
Proof.
  unfold suggest_official_sources.
  destruct (suggest_fold_inv text rm ([], [])) as ((_ & N) & U & H).
  { split; [intros u; reflexivity | constructor]. }
  cbv zeta in *. split; [exact N|]. split.
  - intros u. fold (urls (fst (fold_left
      (fun acc '(domain, cfg) =>
         if existsb (fun k => Str.contains (Str.lower k) (Str.lower text)) (keywords cfg)
         then add_regulators domain (regulators cfg) acc else acc) rm ([], [])))).
    rewrite U. cbn. tauto.
  - intros h Hh. destruct (H h Hh) as [[]|X]. exact X.
Qed.

(** X19: [verify_announcement] always returns, and its verdict is "verified"
    exactly when the examined text names both "novapharm" and "fda" (the
    demo override, which goes before everything else), otherwise
    "needs_official_link" exactly when the regulator map suggests at least
    one source for the text, otherwise "unverified"; outside the override
    the references of the evidence are the suggested URLs, in order. *)
Theorem verify_announcement_rule
  (rm : regulator_map) (now : Z) (hash_payload : evidence_body -> string)
  (title company_hint : string) (link : option string) :
  let text := examined title company_hint link in
  exists r,
    verify_announcement rm now hash_payload title company_hint link = Ok r /\
    verdict r = VStr (if demo text then "verified"
                      else match suggest_official_sources rm text with
                           | [] => "unverified"
                           | _ => "needs_official_link"
                           end) /\
    off_verdict (ev_official (evidence r)) = verdict r /\
    evidence_hash r = hash_payload (evidence r) /\
    (demo text = false ->
     off_references (ev_official (evidence r))
     = VList (List.map (fun s => VStr (sg_url s)) (suggest_official_sources rm text))).
Proof.
  cbv zeta. unfold verify_announcement, examined, demo.
  destruct (Str.contains "novapharm" _ && Str.contains "fda" _).
  - cbn. eexists. split; [reflexivity|]. cbn. repeat split. discriminate.
  - cbn. destruct (suggest_official_sources rm _) as [|sg sgs].
    + cbn. eexists. split; [reflexivity|]. cbn. repeat split.
    + cbn. eexists. split; [reflexivity|]. cbn. repeat split.
Qed.

End SourceFacts.

(** ** More on the link hygiene check *)

Module LinkFacts.
Import Py Helpers Sources.

Section Link.

Variable urlparse_netloc : string -> result string.
Variable vt_domain_report urlscan_submit : string -> pyval.


(** The scanner step changes neither the verdict nor the references. *)
Lemma scanner_step (us : pyval) (r : link_report) :
  exists r',
    (if is_dict us then
       err <- get us "error" VNone ;;
       if truthy err
       then Ok {| lr_verdict := lr_verdict r;
                  lr_reasons := (lr_reasons r ++ ["URLScan not available"])%list;
                  lr_references := lr_references r |}
       else Ok r
     else Ok r) = Ok r' /\
    lr_verdict r' = lr_verdict r /\ lr_references r' = lr_references r.
Proof.
  destruct us as [| | | | | |d]; cbn [is_dict]; try (exists r; now repeat split).
  cbn [get bind]. destruct (truthy _); eexists; repeat split.
Qed.

(** The reputation step: it keeps the report's verdict or turns it into
    "risky", and it can fail only on an available report. *)
Lemma reputation_step (vt : pyval) (r : link_report) :
  let step :=
    (if is_dict vt then
       err <- get vt "error" VNone ;;
       if negb (truthy err) then
         data <- get vt "data" (VDict []) ;;
         attributes <- get data "attributes" (VDict []) ;;
         cats <- get attributes "last_analysis_stats" (VDict []) ;;
         malicious <- get cats "malicious" (VInt 0) ;;
         flagged <- gt_int malicious 0 ;;
         if flagged
         then Ok {| lr_verdict := "risky";
                    lr_reasons := (lr_reasons r
                       ++ ["VirusTotal flagged domain as malicious"])%list;
                    lr_references := lr_references r |}
         else Ok r
       else Ok r
     else Ok r) in
  (probe_unavailable vt = true -> step = Ok r) /\
  (forall r', step = Ok r' ->
     (lr_verdict r' = lr_verdict r \/
      lr_verdict r' = "risky" /\ probe_unavailable vt = false) /\
     lr_references r' = lr_references r).
Proof.
  cbv zeta. destruct vt as [| | | | | |d]; cbn [is_dict probe_unavailable];
    try (split; [reflexivity | intros r' H; apply IndicatorFacts.Ok_inj in H; subst; auto]).
  cbn [get bind]. destruct (truthy (dict_get d "error" VNone)); cbn [negb].
  - split; [reflexivity | intros r' H; apply IndicatorFacts.Ok_inj in H; subst; auto].
  - split; [discriminate|]. intros r' H.
    do 3 (apply ScorerFacts.bind_Ok_inv in H; destruct H as (? & _ & H)).
    apply ScorerFacts.bind_Ok_inv in H. destruct H as (flagged & _ & H).
    destruct flagged; apply IndicatorFacts.Ok_inj in H; subst; cbn; auto.
Qed.

Lemma body_unfold (url : string) :
  is_http_url url = true ->
  exists r0 vt,
    lr_verdict r0 = by_whitelist (url_domain urlparse_netloc url) /\
    lr_references r0 = [url] /\
    vt = (if negb (url_domain urlparse_netloc url =? "")%string then vt_domain_report (url_domain urlparse_netloc url)
          else VDict [("error", VStr "no_domain")]) /\
    check_document_link_body urlparse_netloc vt_domain_report urlscan_submit url =
      (result <-
        (if is_dict vt then
           err <- get vt "error" VNone ;;
           if negb (truthy err) then
             data <- get vt "data" (VDict []) ;;
             attributes <- get data "attributes" (VDict []) ;;
             cats <- get attributes "last_analysis_stats" (VDict []) ;;
             malicious <- get cats "malicious" (VInt 0) ;;
             flagged <- gt_int malicious 0 ;;
             if flagged
             then Ok {| lr_verdict := "risky";
                        lr_reasons := (lr_reasons r0
                           ++ ["VirusTotal flagged domain as malicious"])%list;
                        lr_references := lr_references r0 |}
             else Ok r0
           else Ok r0
         else Ok r0) ;;
       result <-
        (if is_dict (urlscan_submit url) then
           err <- get (urlscan_submit url) "error" VNone ;;
           if truthy err
           then Ok {| lr_verdict := lr_verdict result;
                      lr_reasons := (lr_reasons result
                                      ++ ["URLScan not available"])%list;
                      lr_references := lr_references result |}
           else Ok result
         else Ok result) ;;
       Ok result).
Proof.
  intros Hh. unfold check_document_link_body. rewrite Hh. cbn [negb].
  cbv zeta. unfold by_whitelist.
  eexists. eexists. split; [|split; [|split; [reflexivity|reflexivity]]].
  - destruct (is_officialish (url_domain urlparse_netloc url)); reflexivity.
  - destruct (is_officialish (url_domain urlparse_netloc url)); reflexivity.
Qed.

(** X20: without a usable reputation report (the link has no domain, or the
    probe answered with an error or with something that is no JSON object),
    an http(s) link is judged by the whitelist alone: "likely-official" for
    a whitelisted domain and "caution" otherwise, never "risky" or "error",
    whatever the scanner answers; the link is the only reference. *)
Theorem link_check_without_reputation (url : string) :
  is_http_url url = true ->
  url_domain urlparse_netloc url = "" \/ probe_unavailable (vt_domain_report (url_domain urlparse_netloc url)) = true ->
  lr_verdict (check_document_link urlparse_netloc vt_domain_report urlscan_submit url) = by_whitelist (url_domain urlparse_netloc url) /\
  lr_references (check_document_link urlparse_netloc vt_domain_report urlscan_submit url) = [url].
Proof.
  intros Hh Hu.
  destruct (body_unfold url Hh) as (r0 & vt & Hv & Hr & Evt & Eb).
  assert (Hun : probe_unavailable vt = true).
  { subst vt. destruct Hu as [E|E].
    - rewrite E. reflexivity.
    - destruct (url_domain urlparse_netloc url =? "")%string; [reflexivity | exact E]. }
  destruct (reputation_step vt r0) as [Hstep _]. specialize (Hstep Hun).
  unfold check_document_link. rewrite Eb, Hstep. cbn [bind].
  destruct (scanner_step (urlscan_submit url) r0) as (r' & E' & V' & R').
  rewrite E'. cbn [bind]. rewrite V', R'. auto.
Qed.

(** X21: the verdict of the link check is one of "invalid", "caution",
    "likely-official", "risky" and "error"; it is "invalid" exactly for a
    string that is no http(s) URL; every other report has the link as its
    only reference; "risky" takes a usable reputation report, and any other
    verdict of an http(s) link than "risky" and "error" is the whitelist's. *)
Theorem check_document_link_verdicts (url : string) :
  In (lr_verdict (check_document_link urlparse_netloc vt_domain_report urlscan_submit url))
     ["invalid"; "caution"; "likely-official"; "risky"; "error"] /\
  (lr_verdict (check_document_link urlparse_netloc vt_domain_report urlscan_submit url) = "invalid" <-> is_http_url url = false) /\
  (is_http_url url = true -> lr_references (check_document_link urlparse_netloc vt_domain_report urlscan_submit url) = [url]) /\
  (lr_verdict (check_document_link urlparse_netloc vt_domain_report urlscan_submit url) = "risky" ->
   url_domain urlparse_netloc url <> "" /\
   probe_unavailable (vt_domain_report (url_domain urlparse_netloc url)) = false) /\
  (is_http_url url = true ->
   lr_verdict (check_document_link urlparse_netloc vt_domain_report urlscan_submit url) = "risky" \/ lr_verdict (check_document_link urlparse_netloc vt_domain_report urlscan_submit url) = "error" \/
   lr_verdict (check_document_link urlparse_netloc vt_domain_report urlscan_submit url) = by_whitelist (url_domain urlparse_netloc url)).
Proof.
  destruct (is_http_url url) eqn:Hh.
  - destruct (body_unfold url Hh) as (r0 & vt & Hv & Hr & Evt & Eb).
    assert (W : by_whitelist (url_domain urlparse_netloc url) = "caution" \/
                by_whitelist (url_domain urlparse_netloc url) = "likely-official").
    { unfold by_whitelist. destruct (is_officialish _); auto. }
    unfold check_document_link. rewrite Eb.
    destruct (reputation_step vt r0) as [_ Hstep]. cbv zeta in Hstep.
    match goal with |- context [bind ?m _] => destruct m as [r1|e] eqn:E1 end.
    + destruct (Hstep r1 eq_refl) as [V1 R1].
      cbn [bind].
      destruct (scanner_step (urlscan_submit url) r1) as (r' & E' & V' & R').
      rewrite E'. cbn [bind]. rewrite V', R', R1, Hr.
      destruct V1 as [V1|[V1 Hav]]; rewrite V1.
      * rewrite Hv.
        split; [destruct W as [-> | ->]; cbn; auto|].
        split; [split; [destruct W as [-> | ->]; discriminate | discriminate]|].
        split; [reflexivity|].
        split; [destruct W as [-> | ->]; discriminate|]. auto.
      * split; [cbn; auto|].
        split; [split; discriminate|].
        split; [reflexivity|].
        split; [|auto]. intros _. subst vt.
        destruct (url_domain urlparse_netloc url =? "")%string eqn:Ed; cbn [negb] in Hav.
        -- discriminate Hav.
        -- split; [|exact Hav]. intros X. rewrite X in Ed. discriminate.
    + cbn [bind lr_verdict lr_references].
      split; [cbn; auto 6|].
      split; [split; discriminate|].
      split; [reflexivity|].
      split; [discriminate|]. auto.
  - unfold check_document_link, check_document_link_body. rewrite Hh.
    cbn. split; [auto|]. split; [tauto|]. split; [discriminate|].
    split; discriminate.
Qed.

End Link.

(** The link of a regulator, no reputation key configured. *)
Lemma link_check_without_reputation_witness :
  lr_verdict (check_document_link (fun _ => Ok "www.SEBI.gov.in")
                (fun _ => VDict [("error", VStr "no_api_key")])
                (fun _ => VDict [("error", VStr "no_api_key")])
                "https://www.sebi.gov.in/") = "likely-official" /\
  lr_references (check_document_link (fun _ => Ok "www.SEBI.gov.in")
                (fun _ => VDict [("error", VStr "no_api_key")])
                (fun _ => VDict [("error", VStr "no_api_key")])
                "https://www.sebi.gov.in/") = ["https://www.sebi.gov.in/"].
Proof.
  apply (link_check_without_reputation (fun _ => Ok "www.SEBI.gov.in")
           (fun _ => VDict [("error", VStr "no_api_key")])
           (fun _ => VDict [("error", VStr "no_api_key")])
           "https://www.sebi.gov.in/").
  - reflexivity.
  - right. reflexivity.
Defined.



End LinkFacts.

(** ** The curated entity lookup *)

Module LookupFacts.
Import Py EntityLookup.

Lemma any_alias_true c l :
  any_alias c l = Ok true ->
  exists a, In (VStr a) l /\ Str.contains (Str.lower a) c = true.
Proof.
  induction l as [|v l IH]; cbn [any_alias]; [discriminate|].
  destruct v as [| | | |a| |]; try discriminate.
  destruct (Str.contains (Str.lower a) c) eqn:E.
  - intros _. exists a. split; [now left | exact E].
  - intros H. destruct (IH H) as (b & Hb & Eb). exists b. split; [now right | exact Eb].
Qed.

Lemma any_alias_plain c l :
  List.forallb is_str l = true ->
  exists b, any_alias c l = Ok b /\
    (b = false -> forall a, In (VStr a) l -> Str.contains (Str.lower a) c = false).
Proof.
  induction l as [|v l IH]; cbn [any_alias List.forallb].
  - intros _. exists false. split; [reflexivity | intros _ a []].
  - destruct v as [| | | |a| |]; cbn [is_str andb]; try discriminate.
    intros Hl. destruct (Str.contains (Str.lower a) c) eqn:E.
    + exists true. split; [reflexivity | discriminate].
    + destruct (IH Hl) as (b & Eb & Hb). exists b. split; [exact Eb|].
      intros -> a' [X|X]; [injection X as <-; exact E | now apply Hb].
Qed.

(** A claim that holds more text hits at least as soon. *)
Lemma any_alias_mono c c' l :
  (forall a, Str.contains a c = true -> Str.contains a c' = true) ->
  forall b, any_alias c l = Ok b ->
  exists b', any_alias c' l = Ok b' /\ (b = true -> b' = true).
Proof.
  intros Hc. induction l as [|v l IH]; cbn [any_alias]; intros b H.
  - exists false. split; [reflexivity|]. intros ->. discriminate.
  - destruct v as [| | | |a| |]; try discriminate.
    destruct (Str.contains (Str.lower a) c) eqn:E.
    + rewrite (Hc _ E). exists true. auto.
    + destruct (Str.contains (Str.lower a) c'); [exists true; auto|].
      exact (IH b H).
Qed.

Lemma aliases_of_inv name rec aliases :
  aliases_of name rec = Ok aliases ->
  exists d l, rec = VDict d /\ aliases = VStr name :: l /\
              dict_get d "aliases" (VList []) = VList l.
Proof.
  unfold aliases_of. destruct rec as [| | | | | |d]; try discriminate.
  cbn [get bind]. destruct (dict_get d "aliases" (VList [])) as [| | | | |l|] eqn:E;
    try discriminate.
  intros H. apply IndicatorFacts.Ok_inj in H. subst. eauto.
Qed.

Lemma hit_found name d claim_l rest :
  exists r,
    (lei <- get (VDict d) "LEI" VNone ;;
     isin <- get (VDict d) "ISIN" VNone ;;
     sebi <- get (VDict d) "SEBI" VNone ;;
     cin <- get (VDict d) "CIN" VNone ;;
     let ident := py_or lei (py_or isin (py_or sebi cin)) in
     domain <- get (VDict d) "domain" VNone ;;
     source <- get (VDict d) "source" VNone ;;
     registry <- get (VDict d) "registry" VNone ;;
     valid_till <- get (VDict d) "valid_till" VNone ;;
     official_sites <- get (VDict d) "official_sites" (VList []) ;;
     Ok [("found", VBool true);
         ("entity", VStr name);
         ("domain", domain);
         ("source", py_or source (py_or registry (VStr "registry")));
         ("id", ident);
         ("valid_till", valid_till);
         ("official_sites", official_sites);
         ("raw", VDict d)]) = Ok r /\
    found r = true /\ dict_get r "entity" VNone = VStr name /\
    dict_get r "raw" VNone = VDict d /\
    truthy (dict_get r "source" VNone) = true /\
    (scan claim_l rest = scan claim_l rest).
Proof.
  cbn [get bind]. eexists. split; [reflexivity|].
  split; [reflexivity|]. split; [reflexivity|]. split; [reflexivity|].
  split; [|reflexivity].
  cbn. unfold py_or.
  destruct (truthy (dict_get d "source" VNone)) eqn:E1; [exact E1|].
  destruct (truthy (dict_get d "registry" VNone)) eqn:E2; [exact E2|]. reflexivity.
Qed.

Lemma scan_unfold claim_l name rec rest :
  scan claim_l ((name, rec) :: rest) =
    (aliases <- aliases_of name rec ;;
     hit <- any_alias claim_l aliases ;;
     if hit then
       lei <- get rec "LEI" VNone ;;
       isin <- get rec "ISIN" VNone ;;
       sebi <- get rec "SEBI" VNone ;;
       cin <- get rec "CIN" VNone ;;
       let ident := py_or lei (py_or isin (py_or sebi cin)) in
       domain <- get rec "domain" VNone ;;
       source <- get rec "source" VNone ;;
       registry <- get rec "registry" VNone ;;
       valid_till <- get rec "valid_till" VNone ;;
       official_sites <- get rec "official_sites" (VList []) ;;
       Ok [("found", VBool true);
           ("entity", VStr name);
           ("domain", domain);
           ("source", py_or source (py_or registry (VStr "registry")));
           ("id", ident);
           ("valid_till", valid_till);
           ("official_sites", official_sites);
           ("raw", rec)]
     else scan claim_l rest).
Proof. reflexivity. Qed.

Lemma alias_of_list name d l a :
  dict_get d "aliases" (VList []) = VList l ->
  In (VStr a) (VStr name :: l) -> alias_of name (VDict d) a.
Proof.
  intros E [X|X].
  - left. now injection X.
  - right. exists d, l. split; [reflexivity|]. split; [|exact X].
    unfold dict_get in E. destruct (lookup d "aliases") as [v|].
    + now subst.
    + apply (f_equal (fun v => match v with VList l => l | _ => [] end)) in E.
      subst l. destruct X.
Qed.

Lemma scan_sound claim_l : forall items r,
  scan claim_l items = Ok r -> found r = true ->
  exists name rec alias,
    In (name, rec) items /\
    dict_get r "entity" VNone = VStr name /\ dict_get r "raw" VNone = rec /\
    truthy (dict_get r "source" VNone) = true /\
    alias_of name rec alias /\ Str.contains (Str.lower alias) claim_l = true.
Proof.
  induction items as [|[name rec] rest IH]; intros r H F.
  - cbn in H. apply IndicatorFacts.Ok_inj in H. subst r. discriminate F.
  - rewrite scan_unfold in H.
    apply ScorerFacts.bind_Ok_inv in H. destruct H as (aliases & Ha & H).
    apply ScorerFacts.bind_Ok_inv in H. destruct H as (hit & Hh & H).
    destruct (aliases_of_inv _ _ _ Ha) as (d & l & -> & -> & El).
    destruct hit.
    + destruct (hit_found name d claim_l rest) as (r' & E' & _ & En & Er & Es & _).
      rewrite E' in H. apply IndicatorFacts.Ok_inj in H. subst r'.
      destruct (any_alias_true _ _ Hh) as (a & Hin & Ec).
      exists name, (VDict d), a. split; [now left|].
      split; [exact En|]. split; [exact Er|]. split; [exact Es|].
      split; [exact (alias_of_list _ _ _ _ El Hin) | exact Ec].
    + destruct (IH r H F) as (n' & rec' & a & Hin & X).
      exists n', rec', a. split; [now right | exact X].
Qed.

Lemma scan_mono c c' :
  (forall a, Str.contains a c = true -> Str.contains a c' = true) ->
  forall items r, scan c items = Ok r -> found r = true ->
  exists r', scan c' items = Ok r' /\ found r' = true.
Proof.
  intros Hc. induction items as [|[name rec] rest IH]; intros r H F.
  - cbn in H. apply IndicatorFacts.Ok_inj in H. subst r. discriminate F.
  - rewrite scan_unfold in H. rewrite scan_unfold.
    apply ScorerFacts.bind_Ok_inv in H. destruct H as (aliases & Ha & H).
    apply ScorerFacts.bind_Ok_inv in H. destruct H as (hit & Hh & H).
    rewrite Ha. cbn [bind].
    destruct (aliases_of_inv _ _ _ Ha) as (d & l & -> & -> & El).
    destruct (any_alias_mono c c' _ Hc _ Hh) as (hit' & Hh' & Himp).
    rewrite Hh'. cbn [bind].
    destruct hit'.
    + destruct (hit_found name d c' rest) as (r' & E' & F' & _).
      exists r'. split; [exact E' | exact F'].
    + destruct hit; [now specialize (Himp eq_refl)|].
      exact (IH r H F).
Qed.

Lemma scan_plain claim_l : forall items,
  plain_db items = true ->
  exists r, scan claim_l items = Ok r /\
    (found r = false ->
     forall name rec alias, In (name, rec) items -> alias_of name rec alias ->
       Str.contains (Str.lower alias) claim_l = false).
Proof.
  induction items as [|[name rec] rest IH]; intros P.
  - eexists. split; [reflexivity|]. intros _ ? ? ? [].
  - cbn [plain_db List.forallb snd] in P. apply andb_true_iff in P as [Pr Prest].
    fold (plain_db rest) in Prest.
    rewrite scan_unfold. destruct rec as [| | | | | |d]; try discriminate Pr.
    cbn [plain_record] in Pr.
    assert (exists l, aliases_of name (VDict d) = Ok (VStr name :: l) /\
                      List.forallb is_str l = true /\
                      dict_get d "aliases" (VList []) = VList l) as (l & Ea & Hl & El).
    { unfold aliases_of. cbn [get bind]. unfold dict_get.
      destruct (lookup d "aliases") as [[| | | | |l|]|]; try discriminate Pr.
      - exists l. auto.
      - exists []. auto. }
    rewrite Ea. cbn [bind].
    destruct (any_alias_plain claim_l (VStr name :: l)) as (b & Eb & Hb);
      [exact Hl|].
    rewrite Eb. cbn [bind]. destruct b.
    + destruct (hit_found name d claim_l rest) as (r' & E' & F' & _).
      exists r'. split; [exact E'|]. rewrite F'. discriminate.
    + destruct (IH Prest) as (r & Er & Hr). exists r. split; [exact Er|].
      intros F n' rec' a [X|X] A.
      * injection X as <- <-. apply (Hb eq_refl).
        destruct A as [->|(d' & l' & Ed & El' & Hin)]; [now left|].
        right. injection Ed as <-. unfold dict_get in El. rewrite El' in El.
        injection El as <-. exact Hin.
      * exact (Hr F n' rec' a X A).
Qed.

Lemma found_lookup_entity file claim :
  found (lookup_entity file claim) = true ->
  exists items r,
    file = Parsed (VDict items) /\
    scan (Str.lower (Helpers.or_empty claim)) items = Ok r /\
    lookup_entity file claim = r.
Proof.
  destruct file as [|e|db]; cbn [lookup_entity]; try discriminate.
  unfold lookup_entity_body. destruct db as [| | | | | |items]; try discriminate.
  destruct (scan _ items) as [r|e] eqn:E; [|discriminate].
  intros _. exists items, r. auto.
Qed.

Lemma found_mentions file claim :
  found (lookup_entity file claim) = true ->
  exists items name rec alias,
    file = Parsed (VDict items) /\ In (name, rec) items /\
    dict_get (lookup_entity file claim) "entity" VNone = VStr name /\
    dict_get (lookup_entity file claim) "raw" VNone = rec /\
    truthy (dict_get (lookup_entity file claim) "source" VNone) = true /\
    alias_of name rec alias /\
    mentions (Helpers.or_empty claim) alias = true.
Proof.
  intros F. destruct (found_lookup_entity _ _ F) as (items & r & -> & E & Er).
  rewrite Er in *.
  destruct (scan_sound _ _ _ E F)
    as (name & rec & alias & Hin & En & Eraw & Es & A & C).
  exists items, name, rec, alias. auto 8.
Qed.

(** X23: an entity that the lookup reports was found in the file: the
    reported name is a key of the file, the raw record is the record of
    that key, and the name or one of the record's aliases occurs in the
    claim, case ignored; the report names a source, "registry" when the
    record has none. *)
Theorem lookup_entity_sound (file : lookup_file) (claim : option string) :
  found (lookup_entity file claim) = true ->
  exists items name rec alias,
    file = Parsed (VDict items) /\ In (name, rec) items /\
    dict_get (lookup_entity file claim) "entity" VNone = VStr name /\
    dict_get (lookup_entity file claim) "raw" VNone = rec /\
    truthy (dict_get (lookup_entity file claim) "source" VNone) = true /\
    alias_of name rec alias /\
    mentions (Helpers.or_empty claim) alias = true.
Proof. exact (found_mentions file claim). Qed.

(** A record with the ticker as its alias, looked up by the ticker. *)
Lemma lookup_entity_sound_witness :
  exists items name rec alias,
    Parsed (VDict [("Tata Consultancy Services",
                    VDict [("aliases", VList [VStr "TCS"]);
                           ("ISIN", VStr "INE467B01029")])])
    = Parsed (VDict items) /\ In (name, rec) items /\
    dict_get (lookup_entity
                (Parsed (VDict [("Tata Consultancy Services",
                                 VDict [("aliases", VList [VStr "TCS"]);
                                        ("ISIN", VStr "INE467B01029")])]))
                (Some "TCS")) "entity" VNone = VStr name /\
    dict_get (lookup_entity
                (Parsed (VDict [("Tata Consultancy Services",
                                 VDict [("aliases", VList [VStr "TCS"]);
                                        ("ISIN", VStr "INE467B01029")])]))
                (Some "TCS")) "raw" VNone = rec /\
    truthy (dict_get (lookup_entity
                (Parsed (VDict [("Tata Consultancy Services",
                                 VDict [("aliases", VList [VStr "TCS"]);
                                        ("ISIN", VStr "INE467B01029")])]))
                (Some "TCS")) "source" VNone) = true /\
    alias_of name rec alias /\
    mentions (Helpers.or_empty (Some "TCS")) alias = true.
Proof.
  apply (lookup_entity_sound
           (Parsed (VDict [("Tata Consultancy Services",
                            VDict [("aliases", VList [VStr "TCS"]);
                                   ("ISIN", VStr "INE467B01029")])]))
           (Some "TCS")).
  reflexivity.
Defined.

(** X24: whatever is found for an ASCII claim is still found for any ASCII
    text that holds the claim: ASCII text added before or after it never
    makes the lookup miss or fail. *)
Theorem lookup_entity_monotone (file : lookup_file) (claim pre post : string) :
  Str.is_ascii claim = true -> Str.is_ascii pre = true ->
  Str.is_ascii post = true ->
  found (lookup_entity file (Some claim)) = true ->
  found (lookup_entity file (Some (pre ++ claim ++ post)%string)) = true.
Proof.
  intros _ _ _ F. destruct (found_lookup_entity _ _ F) as (items & r & -> & E & Er).
  rewrite Er in F.
  destruct (scan_mono (Str.lower claim) (Str.lower (pre ++ claim ++ post))) with
    (items := items) (r := r) as (r' & E' & F'); [|exact E|exact F|].
  - intros a. rewrite !ShapeFacts.contains_spec. intros (x & y & Hx).
    cbn [Helpers.or_empty] in *. rewrite !HypeFacts.lower_append, Hx.
    exists (Str.lower pre ++ x)%string, (y ++ Str.lower post)%string.
    now rewrite !RegexFacts.append_assoc.
  - cbn [lookup_entity]. unfold lookup_entity_body. cbn [Helpers.or_empty].
    rewrite E'. exact F'.
Qed.

(** X25: on a file whose records are JSON objects with string aliases, the
    lookup finds an entity exactly when the name or an alias of some record
    occurs in the claim, case ignored. *)
Theorem lookup_entity_complete (items : pydict) (claim : option string) :
  plain_db items = true ->
  (found (lookup_entity (Parsed (VDict items)) claim) = true <->
   exists name rec alias,
     In (name, rec) items /\ alias_of name rec alias /\
     mentions (Helpers.or_empty claim) alias = true).
Proof.
  intros P. split.
  - intros F.
    destruct (found_mentions _ _ F) as (items' & name & rec & alias & E & Hin & _ & _ & _ & A & M).
    injection E as <-. exists name, rec, alias. auto.
  - intros (name & rec & alias & Hin & A & M).
    destruct (scan_plain (Str.lower (Helpers.or_empty claim)) items P) as (r & E & H).
    cbn [lookup_entity]. unfold lookup_entity_body. rewrite E.
    destruct (found r) eqn:F; [reflexivity|].
    unfold mentions in M. rewrite (H eq_refl name rec alias Hin A) in M.
    discriminate M.
Qed.

Lemma lookup_entity_monotone_witness :
  found (lookup_entity
           (Parsed (VDict [("Tata Consultancy Services",
                            VDict [("aliases", VList [VStr "TCS"])])]))
           (Some ("Is " ++ "TCS" ++ " a buy?")%string)) = true.
Proof.
  apply (lookup_entity_monotone
           (Parsed (VDict [("Tata Consultancy Services",
                            VDict [("aliases", VList [VStr "TCS"])])]))
           "TCS" "Is " " a buy?"); reflexivity.
Defined.

Lemma lookup_entity_complete_witness :
  found (lookup_entity
           (Parsed (VDict [("Tata Consultancy Services",
                            VDict [("aliases", VList [VStr "TCS"])])]))
           (Some "tcs results")) = true <->
  exists name rec alias,
    In (name, rec) [("Tata Consultancy Services",
                     VDict [("aliases", VList [VStr "TCS"])])] /\
    alias_of name rec alias /\
    mentions (Helpers.or_empty (Some "tcs results")) alias = true.
Proof.
  apply (lookup_entity_complete
           [("Tata Consultancy Services", VDict [("aliases", VList [VStr "TCS"])])]
           (Some "tcs results")).
  reflexivity.
Defined.

End LookupFacts.

(** ** More on the evidence aggregator *)

Module ScoreMore.
Import Py DocumentVerifier.

Lemma sum_from (rows : list row) : forall acc,
  fold_left (fun acc r => acc + contribution r) rows acc
  = acc + sum_contributions rows.
Proof.
  unfold sum_contributions.
  induction rows as [|r rows IH]; intros acc; cbn [fold_left]; [lia|].
  rewrite IH, (IH (0 + contribution r)). lia.
Qed.

Lemma sum_cons r rows :
  sum_contributions (r :: rows) = contribution r + sum_contributions rows.
Proof. unfold sum_contributions at 1. cbn [fold_left]. rewrite sum_from. lia. Qed.

Lemma sum_app a b :
  sum_contributions (a ++ b) = sum_contributions a + sum_contributions b.
Proof.
  induction a as [|r a IH]; [reflexivity|].
  rewrite <- app_comm_cons, !sum_cons, IH. lia.
Qed.

(** The sum of a breakdown, dimension by dimension. *)
Lemma table_sum signals :
  sum_contributions (Spec.breakdown_table signals)
  = 50 + contribution (Spec.row_registry signals)
    + contribution (Spec.row_official signals)
    + sum_contributions (Spec.rows_url signals)
    + sum_contributions (Spec.rows_identifiers signals)
    + contribution (Spec.row_text signals)
    + sum_contributions (Spec.rows_social signals)
    + sum_contributions (Spec.rows_anomaly signals)
    + sum_contributions (Spec.rows_contra signals).
Proof.
  unfold Spec.breakdown_table. rewrite !sum_app.
  change (sum_contributions [Spec.row_baseline]) with 50.
  change (sum_contributions [Spec.row_registry signals])
    with (0 + contribution (Spec.row_registry signals)).
  change (sum_contributions [Spec.row_official signals])
    with (0 + contribution (Spec.row_official signals)).
  change (sum_contributions [Spec.row_text signals])
    with (0 + contribution (Spec.row_text signals)).
  lia.
Qed.

Lemma registry_range s :
  contribution (Spec.row_registry s)
  = if truthy (Spec.found s) then 20 else 0.
Proof. unfold Spec.row_registry. destruct (truthy _); reflexivity. Qed.

Lemma official_range s : -5 <= contribution (Spec.row_official s) <= 30.
Proof.
  unfold Spec.row_official.
  destruct (eq_str _ "verified"); [cbn; lia|].
  destruct (eq_str _ "needs_official_link"); cbn; lia.
Qed.

Lemma url_range s : -40 <= sum_contributions (Spec.rows_url s) <= 10.
Proof.
  unfold Spec.rows_url.
  destruct (eq_str _ "likely-official"); [cbn; lia|].
  destruct (eq_str _ "risky"); [cbn; lia|].
  destruct (truthy _); cbn; lia.
Qed.

Lemma identifiers_range s : 0 <= sum_contributions (Spec.rows_identifiers s) <= 10.
Proof. unfold Spec.rows_identifiers. destruct (Spec.valid_kinds_of s); cbn; lia. Qed.

Lemma text_range s : -3 <= contribution (Spec.row_text s) <= 5.
Proof. unfold Spec.row_text. destruct (Spec.long_text s); cbn; lia. Qed.

Lemma social_range s : -5 <= sum_contributions (Spec.rows_social s) <= 5.
Proof.
  unfold Spec.rows_social.
  destruct (eq_str _ "legit"); [cbn; lia|]. destruct (truthy _); cbn; lia.
Qed.

Lemma anomaly_range s : -12 <= sum_contributions (Spec.rows_anomaly s) <= 0.
Proof. unfold Spec.rows_anomaly. destruct (Spec.anomaly_flagged s); cbn; lia. Qed.

Lemma contra_range s : -8 <= sum_contributions (Spec.rows_contra s) <= 0.
Proof. unfold Spec.rows_contra. destruct (Spec.contradicted s); cbn; lia. Qed.

(** Replacing one signal leaves the others as they were. *)
Lemma dict_get_set_other s k v k' default :
  (k =? k')%string = false ->
  dict_get (dict_set s k v) k' default = dict_get s k' default.
Proof.
  intros H. unfold dict_get. now rewrite RegistryFacts.lookup_dict_set, H.
Qed.

Lemma dict_get_set_same s k v default :
  dict_get (dict_set s k v) k default = v.
Proof.
  unfold dict_get. now rewrite RegistryFacts.lookup_dict_set, String.eqb_refl.
Qed.

Lemma signal_set_other s k v k' :
  (k =? k')%string = false ->
  Spec.signal (dict_set s k v) k' = Spec.signal s k'.
Proof. intros H. unfold Spec.signal. now rewrite dict_get_set_other. Qed.

Lemma signal_set_dict s k d : Spec.signal (dict_set s k (VDict d)) k = VDict d.
Proof.
  unfold Spec.signal. rewrite dict_get_set_same. destruct d; reflexivity.
Qed.

Ltac other_keys :=
  unfold Spec.row_registry, Spec.row_official, Spec.rows_url, Spec.rows_identifiers,
    Spec.row_text, Spec.rows_social, Spec.rows_anomaly, Spec.rows_contra,
    Spec.found, Spec.field, Spec.long_text, Spec.valid_kinds_of,
    Spec.anomaly_flagged, Spec.contradicted;
  rewrite ?signal_set_other by reflexivity;
  rewrite ?dict_get_set_other by reflexivity;
  try reflexivity.

(** A new identifiers signal touches the identifiers row only. *)
Lemma set_identifiers s d :
  Spec.well_shaped s = true ->
  Spec.well_shaped (dict_set s "identifiers" (VDict d)) = true /\
  Spec.breakdown_table (dict_set s "identifiers" (VDict d))
  = ([Spec.row_baseline] ++ [Spec.row_registry s] ++ [Spec.row_official s]
     ++ Spec.rows_url s
     ++ match valid_kinds d with
        | [] => []
        | ok => [("Identifiers Valid", 10,
                  ("Valid pattern(s): " ++ Str.join ", " ok)%string)]
        end
     ++ [Spec.row_text s]
     ++ Spec.rows_social s ++ Spec.rows_anomaly s ++ Spec.rows_contra s)%list.
Proof.
  intros W. split.
  - unfold Spec.well_shaped in *. cbn [List.forallb] in *.
    rewrite signal_set_dict.
    rewrite !signal_set_other by reflexivity.
    rewrite !dict_get_set_other by reflexivity.
    apply andb_true_iff in W as [W Hc]. apply andb_true_iff in W as [W Ht].
    apply andb_true_iff in W as [Hl W].
    repeat (apply andb_true_iff in W; destruct W as [? W]).
    rewrite Hl, Ht, Hc.
    repeat match goal with H : is_dict _ = true |- _ => rewrite H; clear H end.
    reflexivity.
  - unfold Spec.breakdown_table.
    replace (Spec.row_registry (dict_set s "identifiers" (VDict d)))
      with (Spec.row_registry s) by other_keys.
    replace (Spec.row_official (dict_set s "identifiers" (VDict d)))
      with (Spec.row_official s) by other_keys.
    replace (Spec.rows_url (dict_set s "identifiers" (VDict d)))
      with (Spec.rows_url s) by other_keys.
    replace (Spec.row_text (dict_set s "identifiers" (VDict d)))
      with (Spec.row_text s) by other_keys.
    replace (Spec.rows_social (dict_set s "identifiers" (VDict d)))
      with (Spec.rows_social s) by other_keys.
    replace (Spec.rows_anomaly (dict_set s "identifiers" (VDict d)))
      with (Spec.rows_anomaly s) by other_keys.
    replace (Spec.rows_contra (dict_set s "identifiers" (VDict d)))
      with (Spec.rows_contra s) by other_keys.
    unfold Spec.rows_identifiers, Spec.valid_kinds_of.
    rewrite signal_set_dict. reflexivity.
Qed.

(** A new lookup signal touches the registry row only. *)
Lemma set_lookup s d :
  Spec.well_shaped s = true ->
  Spec.well_shaped (dict_set s "lookup" (VDict d)) = true /\
  Spec.breakdown_table (dict_set s "lookup" (VDict d))
  = ([Spec.row_baseline]
     ++ [if truthy (dict_get d "found" VNone)
         then ("Local Registry Match", 20, "Found in data/lookup.json")
         else ("Local Registry Match", 0, "No curated match")]
     ++ [Spec.row_official s]
     ++ Spec.rows_url s ++ Spec.rows_identifiers s
     ++ [Spec.row_text s]
     ++ Spec.rows_social s ++ Spec.rows_anomaly s ++ Spec.rows_contra s)%list.
Proof.
  intros W. split.
  - unfold Spec.well_shaped in *. cbn [List.forallb] in *.
    rewrite dict_get_set_same.
    rewrite !signal_set_other by reflexivity.
    rewrite !dict_get_set_other by reflexivity.
    apply andb_true_iff in W as [W Hc]. apply andb_true_iff in W as [W Ht].
    apply andb_true_iff in W as [_ W].
    repeat (apply andb_true_iff in W; destruct W as [? W]).
    rewrite Ht, Hc.
    repeat match goal with H : is_dict _ = true |- _ => rewrite H; clear H end.
    reflexivity.
  - unfold Spec.breakdown_table.
    replace (Spec.row_official (dict_set s "lookup" (VDict d)))
      with (Spec.row_official s) by other_keys.
    replace (Spec.rows_url (dict_set s "lookup" (VDict d)))
      with (Spec.rows_url s) by other_keys.
    replace (Spec.rows_identifiers (dict_set s "lookup" (VDict d)))
      with (Spec.rows_identifiers s) by other_keys.
    replace (Spec.row_text (dict_set s "lookup" (VDict d)))
      with (Spec.row_text s) by other_keys.
    replace (Spec.rows_social (dict_set s "lookup" (VDict d)))
      with (Spec.rows_social s) by other_keys.
    replace (Spec.rows_anomaly (dict_set s "lookup" (VDict d)))
      with (Spec.rows_anomaly s) by other_keys.
    replace (Spec.rows_contra (dict_set s "lookup" (VDict d)))
      with (Spec.rows_contra s) by other_keys.
    unfold Spec.row_registry, Spec.found. rewrite dict_get_set_same. reflexivity.
Qed.

(** The kinds with a valid pattern are the same whatever the registry
    answers. *)
Lemma valid_kinds_bulk ids net1 net2 :
  valid_kinds (Net.value (RegistryChecks.bulk_registry_check ids) net1)
  = valid_kinds (Net.value (RegistryChecks.bulk_registry_check ids) net2).
Proof.
  rewrite !RegistryFacts.bulk_registry_check_value.
  pose proof (fun v => RegistryFacts.validate_lei_pattern_valid v net1) as H1.
  pose proof (fun v => RegistryFacts.validate_lei_pattern_valid v net2) as H2.
  unfold Spec.pattern_valid in H1, H2.
  destruct (RegistryChecks.ident ids "lei") as [l|];
    destruct (RegistryChecks.ident ids "isin") as [i|];
    destruct (RegistryChecks.ident ids "cin") as [c|];
    destruct (RegistryChecks.ident ids "sebi") as [b|];
    try reflexivity;
    try generalize (RegistryChecks.validate_isin i);
    try generalize (RegistryChecks.validate_cin c);
    try generalize (RegistryChecks.validate_sebi_id b);
    intros; unfold valid_kinds, dict_get; cbn; rewrite H1, H2; reflexivity.
Qed.

(** X26: the credibility score and its breakdown do not depend on what the
    GLEIF registry answers, or on whether it can be reached at all: scored
    with the identifiers signal that [bulk_registry_check] yields, any two
    network states give the same result. *)
Theorem score_ignores_registry_answer
  (signals : pydict) (ids : RegistryChecks.identifiers) (net1 net2 : Net.network) :
  Spec.well_shaped signals = true ->
  score_from_signals
    (dict_set signals "identifiers"
       (VDict (Net.value (RegistryChecks.bulk_registry_check ids) net1)))
  = score_from_signals
      (dict_set signals "identifiers"
         (VDict (Net.value (RegistryChecks.bulk_registry_check ids) net2))).
Proof.
  intros W.
  destruct (set_identifiers signals
              (Net.value (RegistryChecks.bulk_registry_check ids) net1) W) as [W1 T1].
  destruct (set_identifiers signals
              (Net.value (RegistryChecks.bulk_registry_check ids) net2) W) as [W2 T2].
  rewrite (ScorerFacts.score_from_signals_table _ W1),
          (ScorerFacts.score_from_signals_table _ W2), T1, T2.
  now rewrite (valid_kinds_bulk ids net1 net2).
Qed.

(** X27: an entity found by the lookup never lowers the score: with
    everything else equal, the total for a lookup that found the entity is
    at least the total for any other lookup, by at most 20 points more, and
    the two are equal when both found one. *)
Theorem registry_match_never_lowers
  (signals : pydict) (file file' : EntityLookup.lookup_file)
  (claim claim' : option string) :
  Spec.well_shaped signals = true ->
  EntityLookup.found (EntityLookup.lookup_entity file claim) = true ->
  exists total total' rows rows',
    score_from_signals
      (dict_set signals "lookup" (VDict (EntityLookup.lookup_entity file claim)))
    = Ok (total, rows) /\
    score_from_signals
      (dict_set signals "lookup" (VDict (EntityLookup.lookup_entity file' claim')))
    = Ok (total', rows') /\
    total' <= total <= total' + 20 /\
    (EntityLookup.found (EntityLookup.lookup_entity file' claim') = true ->
     total = total' /\ rows = rows').
Proof.
  intros W F.
  destruct (set_lookup signals (EntityLookup.lookup_entity file claim) W) as [W1 T1].
  destruct (set_lookup signals (EntityLookup.lookup_entity file' claim') W) as [W2 T2].
  rewrite (ScorerFacts.score_from_signals_table _ W1),
          (ScorerFacts.score_from_signals_table _ W2), T1, T2.
  do 4 eexists. split; [reflexivity|]. split; [reflexivity|].
  unfold EntityLookup.found in *. rewrite F.
  destruct (truthy (dict_get (EntityLookup.lookup_entity file' claim') "found" VNone)).
  - split; [lia|]. auto.
  - split; [|discriminate].
    rewrite !sum_app.
    change (sum_contributions [("Local Registry Match", 20, "Found in data/lookup.json")])
      with 20.
    change (sum_contributions [("Local Registry Match", 0, "No curated match")])
      with 0.
    lia.
Qed.

(** X28: a link judged "risky" caps the credibility score at 80, whatever
    the other signals say, and the breakdown shows the 40 points taken
    off. *)
Theorem risky_link_caps_score (signals : pydict) :
  Spec.well_shaped signals = true ->
  Spec.field signals "url" "verdict" VNone = VStr "risky" ->
  exists total rows,
    score_from_signals signals = Ok (total, rows) /\
    total <= 80 /\
    In ("URL Risk (VirusTotal)", -40, "Malicious indicators on domain") rows.
Proof.
  intros W R. rewrite (ScorerFacts.score_from_signals_table _ W).
  do 2 eexists. split; [reflexivity|].
  assert (U : Spec.rows_url signals
              = [("URL Risk (VirusTotal)", -40, "Malicious indicators on domain")]).
  { unfold Spec.rows_url. rewrite R. reflexivity. }
  split.
  - rewrite table_sum, U, registry_range.
    change (sum_contributions
              [("URL Risk (VirusTotal)", -40, "Malicious indicators on domain")])
      with (-40).
    pose proof (official_range signals). pose proof (identifiers_range signals).
    pose proof (text_range signals). pose proof (social_range signals).
    pose proof (anomaly_range signals). pose proof (contra_range signals).
    destruct (truthy (Spec.found signals)); lia.
  - unfold Spec.breakdown_table. rewrite U.
    rewrite !in_app_iff. right. right. right. left. now left.
Qed.

Lemma score_ignores_registry_answer_witness :
  score_from_signals
    (dict_set Spec.nothing_matched "identifiers"
       (VDict (Net.value
                 (RegistryChecks.bulk_registry_check [("lei", "5493001KJTIIGC8Y1R12")])
                 (fun _ => Net.Replied 200 (Ok (VDict []))))))
  = score_from_signals
      (dict_set Spec.nothing_matched "identifiers"
         (VDict (Net.value
                   (RegistryChecks.bulk_registry_check [("lei", "5493001KJTIIGC8Y1R12")])
                   (fun _ => Net.Failed (RequestException "timed out"))))).
Proof.
  apply (score_ignores_registry_answer Spec.nothing_matched
           [("lei", "5493001KJTIIGC8Y1R12")]
           (fun _ => Net.Replied 200 (Ok (VDict [])))
           (fun _ => Net.Failed (RequestException "timed out"))).
  reflexivity.
Defined.

Lemma registry_match_never_lowers_witness :
  exists total total' rows rows',
    score_from_signals
      (dict_set Spec.nothing_matched "lookup"
         (VDict (EntityLookup.lookup_entity
                   (EntityLookup.Parsed (VDict [("Infosys", VDict [])]))
                   (Some "infosys results"))))
    = Ok (total, rows) /\
    score_from_signals
      (dict_set Spec.nothing_matched "lookup"
         (VDict (EntityLookup.lookup_entity EntityLookup.Absent (Some "infosys results"))))
    = Ok (total', rows') /\
    total' <= total <= total' + 20 /\
    (EntityLookup.found
       (EntityLookup.lookup_entity EntityLookup.Absent (Some "infosys results")) = true ->
     total = total' /\ rows = rows').
Proof.
  apply (registry_match_never_lowers Spec.nothing_matched
           (EntityLookup.Parsed (VDict [("Infosys", VDict [])])) EntityLookup.Absent
           (Some "infosys results") (Some "infosys results")).
  - reflexivity.
  - reflexivity.
Defined.

Lemma risky_link_caps_score_witness :
  exists total rows,
    score_from_signals Spec.everything_failed = Ok (total, rows) /\
    total <= 80 /\
    In ("URL Risk (VirusTotal)", -40, "Malicious indicators on domain") rows.
Proof.
  apply (risky_link_caps_score Spec.everything_failed); reflexivity.
Defined.

End ScoreMore.
